(** * openaq-fetch adapters: the ACT (JSON) and NSW (HTML table) sources

    A shallow embedding of the two adapters
      - [Act]: the Socrata JSON adapter ([exports.name = 'au_act']),
      - [Nsw]: the HTML table adapter ([src/adapters/nsw.js]),
    together with the properties their description states about them.

    The adapters are JavaScript running on top of libraries (request,
    moment-timezone, cheerio, lodash) and of the language's built-ins.
    The libraries are taken as interfaces (type classes below); the code
    of the adapters themselves is translated function by function.

    Strings are Rocq byte strings holding the UTF-8 encoding of the
    JavaScript strings; the separators and keys the adapters look for are
    ASCII, for which splitting and comparing bytes agrees with splitting
    and comparing UTF-16 code units. *)

From Stdlib Require Import String Ascii List ZArith QArith Bool Arith Lia.
From Stdlib Require Import DecimalString.
Import ListNotations.
Close Scope Q_scope.
Set Warnings "-register-all".

Local Open Scope string_scope.
Local Open Scope list_scope.

(* ===================================================================== *)
(** ** Exceptions *)
(* ===================================================================== *)

(** A JavaScript computation either completes with a value or throws.
    The adapters never look at the exception they catch, so [Throw]
    carries none. *)
Inductive exc (A : Type) : Type :=
| Ok (a : A)
| Throw.
Arguments Ok {A} a.
Arguments Throw {A}.

Definition bind {A B : Type} (c : exc A) (k : A -> exc B) : exc B :=
  match c with
  | Ok a => k a
  | Throw => Throw
  end.

Declare Scope exc_scope.
Delimit Scope exc_scope with exc.
Notation "x <- c ;; k" := (bind c (fun x => k))
  (at level 100, c at next level, right associativity) : exc_scope.
Local Open Scope exc_scope.

(** [array.forEach(f)] for a callback that updates the state [St] captured
    by its closure and may throw: the first exception aborts the loop. *)
Fixpoint forEach {A St : Type} (f : St -> A -> exc St) (l : list A) (s : St) : exc St :=
  match l with
  | [] => Ok s
  | a :: l' => s' <- f s a ;; forEach f l' s'
  end.

(** The same with the index of the element, as cheerio's [.each] passes it. *)
Fixpoint each_from {A St : Type} (f : St -> nat -> A -> exc St) (i : nat) (l : list A)
    (s : St) : exc St :=
  match l with
  | [] => Ok s
  | a :: l' => s' <- f s i a ;; each_from f (S i) l' s'
  end.

Definition each {A St : Type} (f : St -> nat -> A -> exc St) (l : list A) (s : St) : exc St :=
  each_from f 0 l s.

(* ===================================================================== *)
(** ** JavaScript values *)
(* ===================================================================== *)

(** The host types the adapters only pass around: IEEE doubles, [Date]
    objects and moment objects. *)
Class HostTypes : Type := {
  number : Type;
  Date : Type;
  moment : Type
}.

(** [Builtin] stands for a function or object of the language itself,
    such as the members of [Object.prototype], by name. *)
Inductive value `{HostTypes} : Type :=
| Undefined
| Null
| Bool (b : bool)
| Num (n : number)
| Str (s : string)
| DateObj (d : Date)
| Builtin (member : string)
| Arr (items : list value)
| Obj (props : list (string * value)).

(** What cheerio answers to the queries the NSW adapter makes.  A cell is
    a child of a table row: its [colspan] attribute, [.html()], [.text()]
    and the number of [a] elements below it. *)
Record cell : Type := {
  colspan : option string;
  html : string;
  text : string;
  anchors : nat
}.

(** A row of [$('table.aqi tr')]: its children, and the text of each
    element of class [site] and of class [region] below it. *)
Record tr : Type := {
  children : list cell;
  site : list string;
  region : list string
}.

(** A loaded document: [$('td.date').html()] ([None] is [null]: no such
    cell) and the rows of [$('table.aqi tr')] in document order. *)
Record document : Type := {
  td_date : option string;
  table_aqi_tr : list tr
}.

(** Built-ins of the language. *)
Class JsBuiltins `{HostTypes} : Type := {
  (** a numeric literal of the source text *)
  num_of_Z : Z -> number;
  num_of_Q : Q -> number;
  (** [a + b] on numbers *)
  num_add : number -> number -> number;
  (** ToBoolean of a number: false on [0], [-0] and [NaN] *)
  num_truthy : number -> bool;
  (** lodash's [eq] on numbers (SameValueZero) *)
  num_eqb : number -> number -> bool;
  (** [a < b] on numbers *)
  num_ltb : number -> number -> bool;
  (** [Number(v)] for a [v] whose conversion returns: for an object, the
      number of the primitive its [valueOf] or [toString] gives *)
  Number : value -> number;
  (** [f.call(v)] for the built-in [f], with no argument: [None] when
      [f] is not a function, otherwise what the call returns, or that it
      throws *)
  call : string -> value -> option (exc value);
  (** [s.toLowerCase()] *)
  toLowerCase : string -> string;
  (** [s.match(new RegExp(pattern))[1]] for a pattern with one mandatory
      group: the group's text at the leftmost match, [None] when
      [s.match] answers [null] *)
  match_group1 : string -> string -> option string;
  (** [JSON.parse(s)]; [None] when it throws a SyntaxError *)
  JSON_parse : string -> option value
}.

(** moment-timezone, as far as the adapters use it.  The clock is read by
    [moment()]; the embedding passes that reading in.  The parsers read
    the clock as well, for an input that is [undefined] or that leaves
    out parts of the date: they take the reading [now] at their call,
    and [clock n] is the reading at the parse number [n] of a run of
    [formatData], counted from 0. *)
Class MomentTz `{HostTypes} : Type := {
  (** [m.tz(zone)] *)
  tz : moment -> string -> moment;
  (** [m.subtract(n, unit)] and [m.add(n, unit)] *)
  subtract : moment -> Z -> string -> moment;
  add : moment -> Z -> string -> moment;
  (** [m.format(fmt)] and [m.format()] *)
  format_as : moment -> string -> string;
  format : moment -> string;
  (** [m.toDate()] *)
  toDate : moment -> Date;
  (** [moment.tz(input, zone)], which throws on some inputs that are
      not strings, and [moment.tz(input, fmt, zone)] on strings *)
  moment_tz : moment -> value -> string -> exc moment;
  moment_tz_format : moment -> string -> string -> string -> moment;
  clock : nat -> moment
}.

(** [cheerio.load(body)] followed by the adapter's queries. *)
Class Cheerio : Type := {
  cheerio_load : string -> document
}.

(* ===================================================================== *)
(** ** Strings and tables *)
(* ===================================================================== *)

(** [s.split(sep)] for a non-empty separator.  [skip] counts the
    characters of a separator that was just recognised and still lie
    ahead; [cur] is the piece being read. *)
Fixpoint split_go (sep : string) (skip : nat) (cur : string) (s : string) : list string :=
  match s with
  | EmptyString => [cur]
  | String c s' =>
      match skip with
      | S k => split_go sep k cur s'
      | O =>
          if String.prefix sep s
          then cur :: split_go sep (String.length sep - 1) EmptyString s'
          else split_go sep 0 (String.append cur (String c EmptyString)) s'
      end
  end.

Definition split (sep : string) (s : string) : list string :=
  split_go sep 0 EmptyString s.

(** [s.replace(pat, by)] for a string pattern: the first occurrence only. *)
Fixpoint replace (pat by_ : string) (s : string) : string :=
  match s with
  | EmptyString => if String.eqb pat EmptyString then by_ else EmptyString
  | String c s' =>
      if String.prefix pat s
      then String.append by_ (String.substring (String.length pat) (String.length s) s)
      else String c (replace pat by_ s')
  end.

(** Own properties of an object literal, by key. *)
Fixpoint assoc {A : Type} (k : string) (tbl : list (string * A)) : option A :=
  match tbl with
  | [] => None
  | (k', a) :: tbl' => if String.eqb k k' then Some a else assoc k tbl'
  end.

(** The members every object inherits from [Object.prototype]. *)
Definition object_prototype : list string :=
  [ "constructor"; "hasOwnProperty"; "isPrototypeOf"; "propertyIsEnumerable";
    "toLocaleString"; "toString"; "valueOf"; "__proto__";
    "__defineGetter__"; "__defineSetter__"; "__lookupGetter__"; "__lookupSetter__" ].

(** [table[key]] on an object literal used as a lookup table with a key
    that comes from the input: an own entry, a member inherited from
    [Object.prototype] (a function or object, truthy), or [undefined]. *)
Inductive property (A : Type) : Type :=
| Own (a : A)
| Inherited (member : string)
| Absent.
Arguments Own {A} a.
Arguments Inherited {A} member.
Arguments Absent {A}.

Definition lookup {A : Type} (tbl : list (string * A)) (k : string) : property A :=
  match assoc k tbl with
  | Some a => Own a
  | None => if existsb (String.eqb k) object_prototype then Inherited k else Absent
  end.

(** [_.findIndex(array, predicate)]; [None] is [-1]. *)
Fixpoint findIndex {A : Type} (p : A -> bool) (l : list A) : option nat :=
  match l with
  | [] => None
  | a :: l' => if p a then Some 0 else option_map S (findIndex p l')
  end.

(** [array.splice(i, 1)]: the array without its element at [i]. *)
Fixpoint splice1 {A : Type} (i : nat) (l : list A) : list A :=
  match l, i with
  | [], _ => []
  | _ :: l', O => l'
  | a :: l', S j => a :: splice1 j l'
  end.

(** [array[i] = f(array[i])] for an index inside the array. *)
Fixpoint update {A : Type} (i : nat) (f : A -> A) (l : list A) : list A :=
  match l, i with
  | [], _ => []
  | a :: l', O => f a :: l'
  | a :: l', S j => a :: update j f l'
  end.

(* ===================================================================== *)
(** ** Conversion to a number *)
(* ===================================================================== *)

Section Conversion.
Context `{HT : HostTypes} {JB : JsBuiltins}.

Definition is_object (v : value) : bool :=
  match v with
  | Obj _ | Arr _ | DateObj _ | Builtin _ => true
  | _ => false
  end.

(** What one step of OrdinaryToPrimitive comes to. *)
Inductive attempt : Type :=
| Primitive
| NotPrimitive
| Raised.

(** [Get(o, name)] for [name] one of [valueOf] and [toString], and the
    call of what is found when it is a function.  An own property that
    is not a function is passed over; [Object.prototype.valueOf] answers
    the object itself, [Object.prototype.toString] a string. *)
Definition attempt_method (o : value) (props : list (string * value)) (name : string)
  : attempt :=
  match assoc name props with
  | Some (Builtin f) =>
      match call f o with
      | Some (Ok r) => if is_object r then NotPrimitive else Primitive
      | Some Throw => Raised
      | None => NotPrimitive
      end
  | Some _ => NotPrimitive
  | None => if String.eqb name "toString" then Primitive else NotPrimitive
  end.

(** OrdinaryToPrimitive on an object with the own properties [props]:
    whether it returns; it is a TypeError when neither method gives a
    primitive. *)
Definition to_primitive_returns (first second : string) (o : value)
    (props : list (string * value)) : bool :=
  match attempt_method o props first with
  | Primitive => true
  | Raised => false
  | NotPrimitive =>
      match attempt_method o props second with
      | Primitive => true
      | _ => false
      end
  end.

(** Whether ToString returns: on an object [toString] is tried first;
    [Array.prototype.toString] joins the strings of the elements. *)
Fixpoint to_string_returns (v : value) : bool :=
  match v with
  | Obj props => to_primitive_returns "toString" "valueOf" v props
  | Arr items => forallb to_string_returns items
  | _ => true
  end.

(** Whether ToNumber returns: on an object [valueOf] is tried first. *)
Definition to_number_returns (v : value) : bool :=
  match v with
  | Obj props => to_primitive_returns "valueOf" "toString" v props
  | Arr items => forallb to_string_returns items
  | _ => true
  end.

(** [Number(v)]: a TypeError when [v] is an object that cannot be
    converted to a primitive, as the JSON value [{"toString": null}]. *)
Definition to_number (v : value) : exc number :=
  if to_number_returns v then Ok (Number v) else Throw.

End Conversion.

(* ===================================================================== *)
(** ** The source descriptor and the completion callback *)
(* ===================================================================== *)

Module Source.
(** A source descriptor [{name, url}]. *)
Record t : Type := { name : string; url : string }.
End Source.

(** What [request] hands to its callback: [err] ([None] is [null]),
    [res] ([None] is [undefined]) with its [statusCode], and [body]. *)
Record response : Type := { statusCode : Z }.

Record reply : Type := {
  err : option string;
  res : option response;
  body : string
}.

(** One invocation [cb(err, data)] of the completion callback:
    [cb({message: msg})] is [{| cb_err := Some msg; cb_data := None |}],
    [cb(null, data)] is [{| cb_err := None; cb_data := Some data |}]. *)
Record cb_call (D : Type) : Type := {
  cb_err : option string;
  cb_data : option D
}.
Arguments cb_err {D} c.
Arguments cb_data {D} c.

Definition cb_error {D : Type} (message : string) : cb_call D :=
  {| cb_err := Some message; cb_data := None |}.

Definition cb_success {D : Type} (data : D) : cb_call D :=
  {| cb_err := None; cb_data := Some data |}.

(** How a function call ends. *)
Inductive completion : Type :=
| Returns
| Throws.

(** The caller's callback is any function: what matters to the adapter
    is whether a given invocation returns or throws. *)
Definition callback (D : Type) : Type := cb_call D -> completion.

(** The invocations made so far, and how the handler ended. *)
Definition outcome (D : Type) : Type := (list (cb_call D) * completion)%type.

Definition invoke {D : Type} (cb : callback D) (c : cb_call D) : outcome D :=
  ([c], cb c).

(** The function both adapters pass to [request]:
<<
    function (err, res, body) {
      if (err || res.statusCode !== 200) {
        return cb({message: 'Failure to load data url.'});
      }
      try {
        var data = formatData(...body...);
        if (data === undefined) {
          return cb({message: 'Failure to parse data.'});
        }
        cb(null, data);
      } catch (e) {
        return cb({message: 'Unknown adapter error.'});
      }
    }
>>
    [format] is the adapter's formatting of the body and [is_undefined]
    the test [data === undefined].  Every call of [cb] inside [try] is
    guarded by the [catch]: when it throws, the handler of the [catch]
    runs. *)
Definition on_response {D : Type} (format : string -> exc D) (is_undefined : D -> bool)
    (cb : callback D) (r : reply) : outcome D :=
  let failed :=
    match err r with
    | Some _ => Ok true
    | None =>
        match res r with
        | Some rs => Ok (negb (statusCode rs =? 200)%Z)
        | None => Throw
        end
    end in
  match failed with
  | Throw => ([], Throws)
  | Ok true => invoke cb (cb_error "Failure to load data url.")
  | Ok false =>
      let catch (calls : list (cb_call D)) : outcome D :=
        let c := cb_error "Unknown adapter error." in
        (calls ++ [c], cb c) in
      match format (body r) with
      | Throw => catch []
      | Ok data =>
          let c :=
            if is_undefined data
            then cb_error "Failure to parse data."
            else cb_success data in
          match cb c with
          | Returns => ([c], Returns)
          | Throws => catch [c]
          end
      end
  end.

(* ===================================================================== *)
(** ** The canonical measurement *)
(* ===================================================================== *)

(** The shape of an object: which properties it has, and the shape of
    their values.  [Any] asks for nothing but the presence of the
    property. *)
Inductive shape : Type :=
| Any
| ArrayOf (element : shape)
| Object (fields : list (string * shape)).

Fixpoint conforms `{HostTypes} (s : shape) (v : value) {struct s} : bool :=
  match s with
  | Any => true
  | ArrayOf element =>
      match v with
      | Arr items => forallb (conforms element) items
      | _ => false
      end
  | Object fields =>
      match v with
      | Obj props =>
          (fix all (fields : list (string * shape)) : bool :=
             match fields with
             | [] => true
             | (k, s') :: fields' =>
                 match assoc k props with
                 | Some x => conforms s' x && all fields'
                 | None => false
                 end
             end) fields
      | _ => false
      end
  end.

(** [{location, city, country, date{utc, local}, sourceName, sourceType,
    mobile, coordinates{latitude, longitude}, attribution[{name,url}],
    averagingPeriod{value,unit}, parameter, value, unit}] *)
Definition canonical_measurement : shape :=
  Object
    [ ("location", Any); ("city", Any); ("country", Any);
      ("date", Object [("utc", Any); ("local", Any)]);
      ("sourceName", Any); ("sourceType", Any); ("mobile", Any);
      ("coordinates", Object [("latitude", Any); ("longitude", Any)]);
      ("attribution", ArrayOf (Object [("name", Any); ("url", Any)]));
      ("averagingPeriod", Object [("value", Any); ("unit", Any)]);
      ("parameter", Any); ("value", Any); ("unit", Any) ].

(** [{name, measurements}] around a list of measurements of shape [m]. *)
Definition result_of (m : shape) : shape :=
  Object [("name", Any); ("measurements", ArrayOf m)].

(** The properties every measurement of the NSW adapter has, and the
    property it has for the sites of its coordinate table. *)
Definition nsw_measurement : shape :=
  Object
    [ ("location", Any); ("city", Any);
      ("date", Object [("utc", Any); ("local", Any)]);
      ("attribution", ArrayOf (Object [("name", Any); ("url", Any)]));
      ("averagingPeriod", Object [("value", Any); ("unit", Any)]);
      ("parameter", Any); ("value", Any); ("unit", Any) ].

Definition with_coordinates : shape :=
  Object [("coordinates", Object [("latitude", Any); ("longitude", Any)])].

(** Whether an object has an own property [k]. *)
Definition has_own `{HostTypes} (k : string) (v : value) : bool :=
  match v with
  | Obj props =>
      match assoc k props with
      | Some _ => true
      | None => false
      end
  | _ => false
  end.

(** The value of the own property [k] of an object, [undefined] when it
    has none. *)
Definition field `{HostTypes} (v : value) (k : string) : value :=
  match v with
  | Obj props =>
      match assoc k props with
      | Some x => x
      | None => Undefined
      end
  | _ => Undefined
  end.

(* ===================================================================== *)
(** ** The query language of the JSON source *)
(* ===================================================================== *)

(** The part of SoQL (the query language of the Socrata endpoint the ACT
    adapter reads) that the adapter's request uses, as a syntax tree and
    its concrete syntax.  This is the reading of the request's [$query]
    parameter, against which the string built by the adapter is checked. *)
Module SoQL.

Inductive comparison : Type := Gt | Ge | Lt | Le | Eq.
Inductive direction : Type := Asc | Desc.

Record query : Type := {
  select : list string;
  where_column : string;
  where_comparison : comparison;
  where_literal : string;
  order_column : string;
  order_direction : direction;
  limit : nat
}.

Definition render_comparison (c : comparison) : string :=
  match c with
  | Gt => ">" | Ge => ">=" | Lt => "<" | Le => "<=" | Eq => "="
  end.

Definition render_direction (d : direction) : string :=
  match d with
  | Asc => "asc" | Desc => "desc"
  end.

Definition render (q : query) : string :=
  String.concat EmptyString
    [ "select "; String.concat ", " (select q);
      " where (`"; where_column q; "` "; render_comparison (where_comparison q);
      " '"; where_literal q; "')";
      " order by `"; order_column q; "` "; render_direction (order_direction q);
      " limit "; NilEmpty.string_of_uint (Nat.to_uint (limit q)) ].

End SoQL.

(* ===================================================================== *)
(** ** The ACT adapter (JSON) *)
(* ===================================================================== *)

Module Act.
Section Adapter.
Context `{HT : HostTypes} {JB : JsBuiltins} {MT : MomentTz}.

Definition name : string := "au_act".

(** [v.k] and [v[k]] for the keys the adapter reads ([name], [datetime],
    [gps], [latitude], [longitude] and the keys of [types]), none of
    which is a member of a built-in prototype: a TypeError on [null]
    and [undefined], the own property of an object, [undefined]
    otherwise. *)
Definition member (v : value) (k : string) : exc value :=
  match v with
  | Undefined | Null => Throw
  | Obj props =>
      match assoc k props with
      | Some x => Ok x
      | None => Ok Undefined
      end
  | _ => Ok Undefined
  end.

(** [k in v]: a TypeError unless [v] is an object; own or inherited
    properties count.  For arrays, dates and built-ins the answer is
    the one for the keys of [types], which they do not have. *)
Definition has_property (k : string) (v : value) : exc bool :=
  match v with
  | Obj props =>
      match assoc k props with
      | Some _ => Ok true
      | None => Ok (existsb (String.eqb k) object_prototype)
      end
  | Arr _ | DateObj _ | Builtin _ => Ok false
  | _ => Throw
  end.

(** [o.k = v] on an object: overwrite in place, or add as last key. *)
Fixpoint assign (k : string) (v : value) (props : list (string * value))
  : list (string * value) :=
  match props with
  | [] => [(k, v)]
  | (k', x) :: props' =>
      if String.eqb k k' then (k', v) :: props' else (k', x) :: assign k v props'
  end.

Definition set (o : value) (k : string) (v : value) : value :=
  match o with
  | Obj props => Obj (assign k v props)
  | _ => o
  end.

(** [_.cloneDeep(v)]: a fresh object with the same contents. *)
Definition cloneDeep (v : value) : value := v.

(** [_.flatten(array)]: one level of nested arrays is spliced in. *)
Definition flatten (l : list value) : list value :=
  flat_map (fun v => match v with Arr items => items | _ => [v] end) l.

(** [Object.keys(table)] *)
Definition keys {A : Type} (table : list (string * A)) : list string :=
  map fst table.

(** [table[k]] on the two fixed tables of strings below.  The keys used
    come from [types] itself; a key that is not a string can only be
    [undefined], whose name no table has. *)
Definition get (table : list (string * string)) (k : value) : value :=
  match k with
  | Str s =>
      match assoc s table with
      | Some x => Str x
      | None => Undefined
      end
  | _ => Undefined
  end.

(** [now] is the reading of the clock at the call. *)
Definition parseDate (now : moment) (string : value) : exc value :=
  date <- moment_tz now string "Australia/Sydney" ;;
  Ok (Obj [("utc", DateObj (toDate date)); ("local", Str (format date))]).

(** mapping of types from source data into OpenAQ format *)
Definition types : list (string * string) :=
  [ ("no2", "no2"); ("o3_1hr", "o3"); ("co", "co"); ("pm10", "pm10"); ("pm2_5", "pm25") ].

Definition units : list (string * string) :=
  [ ("no2", "ppm"); ("o3", "ppm"); ("co", "ppm"); ("pm10", "µg/m³"); ("pm25", "µg/m³") ].

(** base measurement properties; [now] is the reading of the clock when
    the row is handled. *)
Definition baseMeasurement (now : moment) (row : value) (source : Source.t) : exc value :=
  location <- member row "name" ;;
  datetime <- member row "datetime" ;;
  date <- parseDate now datetime ;;
  gps <- member row "gps" ;;
  latitude <- member gps "latitude" ;;
  latitude <- to_number latitude ;;
  gps <- member row "gps" ;;
  longitude <- member gps "longitude" ;;
  longitude <- to_number longitude ;;
  Ok (Obj
    [ ("location", location);
      ("city", Str "Canberra");
      ("country", Str "AU");
      ("date", date);
      ("sourceName", Str (Source.name source));
      ("sourceType", Str "government");
      ("mobile", Bool false);
      ("coordinates", Obj
        [ ("latitude", Num latitude);
          ("longitude", Num longitude) ]);
      ("attribution", Arr
        [ Obj
          [ ("name", Str "Health Protection Service, ACT Government");
            ("url", Str "https://www.data.act.gov.au/Environment/Air-Quality-Monitoring-Data/94a5-zqnn") ] ]);
      ("averagingPeriod", Obj [("value", Num (num_of_Z 1)); ("unit", Str "hours")]) ]).

(** The body of [Object.keys(types).forEach(function (type) {...})]. *)
Definition on_type (row baseMeasurement : value) (measurements : list value) (type : string)
  : exc (list value) :=
  present <- has_property type row ;;
  if (present : bool) then
    let measurement := cloneDeep baseMeasurement in
    let measurement := set measurement "parameter" (get types (Str type)) in
    raw <- member row type ;;
    converted <- to_number raw ;;
    let measurement := set measurement "value" (Num converted) in
    let measurement := set measurement "unit" (get units (get types (Str type))) in
    Ok (measurements ++ [measurement])
  else Ok measurements.

(** The body of [data.forEach(function (row) {...})].  [index] is the
    place of the row in the array, which [forEach] passes and the
    callback leaves unused: the row at [index] is handled at the parse
    number [index] of the run. *)
Definition on_row (source : Source.t) (measurements : list value) (index : nat)
    (row : value) : exc (list value) :=
  base <- baseMeasurement (clock index) row source ;;
  forEach (on_type row base) (keys types) measurements.

(** [data.forEach] is a TypeError unless [data] is an array. *)
Definition formatData (data : value) (source : Source.t) : exc value :=
  match data with
  | Arr rows =>
      measurements <- each (on_row source) rows [] ;;
      Ok (Obj [("name", Str "unused"); ("measurements", Arr (flatten measurements))])
  | _ => Throw
  end.

(** The options [fetchData] passes to [request] (a GET, request's
    default method): the uri and the query string parameters. *)
Record request_options : Type := {
  uri : string;
  qs : list (string * string)
}.

(** get the time 1 day ago in AEST; [now] is [moment()] *)
Definition timeAgo (now : moment) : string :=
  format_as (subtract (tz now "Australia/Sydney") 1 "days") "YYYY-MM-DDTHH:mm:ss".

Definition query (now : moment) : string :=
  String.append "select *, :id where (`datetime` > '"
    (String.append (timeAgo now) "') order by `datetime` desc limit 1000").

Definition is_undefined (data : value) : bool :=
  match data with
  | Undefined => true
  | _ => false
  end.

(** [formatData(JSON.parse(body), source)] *)
Definition format_body (source : Source.t) (body : string) : exc value :=
  match JSON_parse body with
  | Some data => formatData data source
  | None => Throw
  end.

(** [fetchData(source, cb)] issues one request and registers the
    handler of its reply: the pair of the request's options and of
    what the handler does with a reply. *)
Definition fetchData (source : Source.t) (cb : callback value) (now : moment)
  : request_options * (reply -> outcome value) :=
  ( {| uri := Source.url source; qs := [("$query", query now)] |},
    on_response (format_body source) is_undefined cb ).

End Adapter.
End Act.

(* ===================================================================== *)
(** ** The NSW adapter (HTML table) *)
(* ===================================================================== *)

(** Modelled from the spec: the two helpers the NSW adapter imports from
    [../lib/utils], a file of the repository that is not among the
    sources at hand.  The spec calls them "a parameter-allowlist filter
    utility" and "a unit-conversion utility"; the allowlist and the
    conversion table themselves are left open: [acceptable] says whether
    a parameter is on the allowlist and [convert] gives the unit and
    value a measurement has after conversion. *)
Class Utils `{HostTypes} : Type := {
  acceptable : string -> bool;
  convert : property string -> number -> property string * number
}.

Module Nsw.

(** [{utc: date.toDate(), local: date.format()}] *)
Module Timestamp.
Record t `{HostTypes} : Type := { utc : Date; local : string }.
End Timestamp.

Module Attribution.
Record t : Type := { name : string; url : string }.
End Attribution.

Module Coordinates.
Record t `{HostTypes} : Type := { latitude : number; longitude : number }.
End Coordinates.

Module AveragingPeriod.
Record t `{HostTypes} : Type := { value : number; unit : string }.
End AveragingPeriod.

(** An entry of [indexParams]; [avgPeriod] starts as [null]. *)
Module IndexParam.
Record t `{HostTypes} : Type := {
  col : number;
  parameter : string;
  avgPeriod : option string
}.
End IndexParam.

(** The main properties of a measuring station ([var base]).
    [coordinates] is [Absent] when the property is not set. *)
Module Base.
Record t `{HostTypes} : Type := {
  city : string;
  location : string;
  date : Timestamp.t;
  attribution : list Attribution.t;
  coordinates : property Coordinates.t
}.
End Base.

(** A measurement ([var m]): the properties of [base] and the four
    added to its copy.  [coordinates] is [Absent] when the object has
    no such property; [unit] always is a property of the object, whose
    value is [undefined] when [Absent]. *)
Module Measurement.
Record t `{HostTypes} : Type := {
  city : string;
  location : string;
  date : Timestamp.t;
  attribution : list Attribution.t;
  coordinates : property Coordinates.t;
  parameter : string;
  unit : property string;
  value : number;
  averagingPeriod : AveragingPeriod.t
}.
End Measurement.

(** [{name: 'unused', measurements: finalMeasurements}] *)
Module Data.
Record t `{HostTypes} : Type := {
  name : string;
  measurements : list Measurement.t
}.
End Data.

(** The variables the callbacks of [formatData] share. *)
Record state `{HostTypes} : Type := {
  indexParams : list IndexParam.t;
  current_region : string;
  measurements : list Measurement.t
}.

(** The result of [a + b] when each operand is a string or [undefined]:
    a string, or [NaN] when both are [undefined]. *)
Inductive concatenation : Type :=
| Text (s : string)
| NaN.

Section Adapter.
Context `{HT : HostTypes} {JB : JsBuiltins} {MT : MomentTz} {CH : Cheerio} {UT : Utils}.

Definition name : string := "nsw".

Definition plus (a b : option string) : concatenation :=
  match a, b with
  | Some x, Some y => Text (String.append x y)
  | Some x, None => Text (String.append x "undefined")
  | None, Some y => Text (String.append "undefined" y)
  | None, None => NaN
  end.

(** ToString of the result, for a further concatenation. *)
Definition to_string (c : concatenation) : string :=
  match c with
  | Text s => s
  | NaN => "NaN"
  end.

(** [c === s] for a string [s] *)
Definition strict_equal (c : concatenation) (s : string) : bool :=
  match c with
  | Text x => String.eqb x s
  | NaN => false
  end.

(** Dates are reported in a range: December 13, 11pm - 12am.
    If the 'to' time is 12am, we need to add a day. *)
Definition dateOffset (time : concatenation) : Z :=
  if strict_equal time "12am" then 1%Z else 0%Z.

(** [dateString] is [None] for [null], on which [.split] is a
    TypeError, as it is on [d[2]] when it is [undefined]. *)
Definition parseDate (dateString : option string) : exc Timestamp.t :=
  match dateString with
  | None => Throw
  | Some dateString =>
      let d := split "<br>" dateString in
      match nth_error d 2 with
      | None => Throw
      | Some d2 =>
          let timeString := split " " d2 in
          let time := plus (nth_error timeString 2) (nth_error timeString 3) in
          let date :=
            moment_tz_format (clock 0)
              (to_string (plus (nth_error d 1) (Some (to_string time))))
              "D MMMM YYYYha" "Australia/Melbourne" in
          let date := add date (dateOffset time) "day" in
          Ok {| Timestamp.utc := toDate date; Timestamp.local := format date |}
      end
  end.

(** Not every pollutant is measured in 'µg/m3' *)
Definition units : list (string * string) :=
  [ ("o3", "pphm"); ("no2", "pphm"); ("co", "ppm"); ("neph", "Bsp, 10-4 m-1");
    ("so2", "pphm"); ("pm25", "µg/m³"); ("pm10", "µg/m³") ].

Definition site_coordinates (latitude longitude : Q) : Coordinates.t :=
  {| Coordinates.latitude := num_of_Q latitude;
     Coordinates.longitude := num_of_Q longitude |}.

Definition coordinates : list (string * Coordinates.t) :=
  let site := site_coordinates in
  [
    ("Bargo", site (-34.3075) (150.58));
    ("Bringelly", site (-33.9194444) (150.7611111));
    ("Camden", site (-34.0416667) (150.6902778));
    ("Campbelltown West", site (-34.0666667) (150.7952778));
    ("Liverpool", site (-33.9327778) (150.9058333));
    ("Oakdale", site (-34.0530556) (150.4972222));
    ("Chullora", site (-33.8938889) (151.0452778));
    ("Earlwood", site (-33.9177778) (151.1347222));
    ("Lindfield", site (-33.7827778) (151.1500000));
    ("Randwick", site (-33.9333333) (151.2419444));
    ("Rozelle", site (-33.8658333) (151.1625));
    ("Prospect", site (-33.7947222) (150.9125));
    ("Richmond", site (-33.6183333) (150.7458333));
    ("Vineyard", site (-33.6577778) (150.8466667));
    ("St Marys", site (-33.7972222) (150.7658333));
    ("Albion Park Sth", site (-34.5805556) (150.7816667));
    ("Kembla Grange", site (-34.4763889) (150.8175));
    ("Wollongong", site (-34.4186111) (150.8863889));
    ("Muswellbrook", site (-32.2716667) (150.8858333));
    ("Beresfield", site (-32.7983333) (151.66));
    ("Newcastle", site (-32.9325) (151.7583333));
    ("Wallsend", site (-32.8961111) (151.6691667));
    ("Albury", site (-36.0516667) (146.9741667));
    ("Wagga Wagga Nth", site (-35.1044444) (147.3602778));
    ("Bathurst", site (-33.4033333) (149.5733333));
    ("Tamworth", site (-31.1105556) (150.9141667));
    ("Wyong", site (-32.195) (150.6736111));
    ("Singleton", site (-32.5297222) (151.1497222));
    ("Cook And Phillip", site (-33.872500) (151.213333));
    ("Macquarie Park", site (-33.765278) (151.117806));
    ("Parramatta North", site (-33.799444) (150.997778));
    ("Rouse Hill", site (-33.682778) (150.903611));
    ("Orange", site (-33.274444) (149.094444));
    ("Armidale", site (-30.508333) (151.661389));
    ("Gunnedah", site (-30.981667) (150.260556));
    ("Narrabri", site (-30.318333) (149.829167));
    ("Goulburn", site (-34.734444) (149.724167))
  ]%Q.

(** [Number($(this).attr('colspan')) || 1] *)
Definition colIncrement (c : cell) : number :=
  let n :=
    Number
      match colspan c with
      | Some s => Str s
      | None => Undefined
      end in
  if num_truthy n then n else num_of_Z 1.

(** The callback on the cells of the row with the pollutant names.
    [.match(regExp)[1]] is a TypeError when nothing matches. *)
Definition name_cell (st : number * list IndexParam.t) (c : cell)
  : exc (number * list IndexParam.t) :=
  let '(colCounter, indexParams) := st in
  let colCounter := num_add colCounter (colIncrement c) in
  if (0 <? anchors c)%nat then
    match match_group1 "</a><br>+(.+)" (html c) with
    | None => Throw
    | Some group =>
        let param := toLowerCase (replace "." EmptyString group) in
        Ok (colCounter,
            indexParams ++
              [ {| IndexParam.col := colCounter;
                   IndexParam.parameter := param;
                   IndexParam.avgPeriod := None |} ])
    end
  else Ok (colCounter, indexParams).

Definition set_avgPeriod (period : string) (p : IndexParam.t) : IndexParam.t :=
  {| IndexParam.col := IndexParam.col p;
     IndexParam.parameter := IndexParam.parameter p;
     IndexParam.avgPeriod := Some period |}.

(** [_.findIndex(indexParams, { 'col': colCounter })] *)
Definition find_col (indexParams : list IndexParam.t) (colCounter : number) : option nat :=
  findIndex (fun p => num_eqb (IndexParam.col p) colCounter) indexParams.

(** The callback on the cells of the row with the averaging periods.
    [indexParams[-1].avgPeriod = ...] is a TypeError. *)
Definition period_cell (st : number * list IndexParam.t) (c : cell)
  : exc (number * list IndexParam.t) :=
  let '(colCounter, indexParams) := st in
  let colCounter := num_add colCounter (colIncrement c) in
  match match_group1 "([0-9]+)-hour" (html c) with
  | Some period =>
      match find_col indexParams colCounter with
      | Some i => Ok (colCounter, update i (set_avgPeriod period) indexParams)
      | None => Throw
      end
  | None => Ok (colCounter, indexParams)
  end.

(** [Number(p.avgPeriod)], of [null] or of a string *)
Definition period_value (avgPeriod : option string) : number :=
  Number
    match avgPeriod with
    | Some s => Str s
    | None => Null
    end.

(** [var m = _.cloneDeep(base)] and the four assignments to [m]. *)
Definition measurement (base : Base.t) (p : IndexParam.t) (text : string) : Measurement.t :=
  {| Measurement.city := Base.city base;
     Measurement.location := Base.location base;
     Measurement.date := Base.date base;
     Measurement.attribution := Base.attribution base;
     Measurement.coordinates := Base.coordinates base;
     Measurement.parameter := IndexParam.parameter p;
     Measurement.unit := lookup units (IndexParam.parameter p);
     Measurement.value := Number (Str text);
     Measurement.averagingPeriod :=
       {| AveragingPeriod.value := period_value (IndexParam.avgPeriod p);
          AveragingPeriod.unit := "hours" |} |}.

(** The callback on the cells of a row with measurements. *)
Definition value_cell (base : Base.t) (indexParams : list IndexParam.t)
    (st : number * list Measurement.t) (c : cell) : exc (number * list Measurement.t) :=
  let '(colCounter, measurements) := st in
  let colCounter := num_add colCounter (colIncrement c) in
  let i := find_col indexParams colCounter in
  match i with
  | Some i =>
      if negb (String.eqb (text c) EmptyString) then
        match nth_error indexParams i with
        | Some p => Ok (colCounter, measurements ++ [measurement base p (text c)])
        | None => Throw
        end
      else Ok (colCounter, measurements)
  | None => Ok (colCounter, measurements)
  end.

(** [$(...).text()] of a set of elements: their texts, concatenated. *)
Definition text_of (elements : list string) : string :=
  String.concat EmptyString elements.

Definition make_base (region site : string) (date : Timestamp.t) : Base.t :=
  {| Base.city := region;
     Base.location := site;
     Base.date := date;
     Base.attribution :=
       [ {| Attribution.name :=
              "State of New South Wales (Department of Planning, Industry and Environment)";
            Attribution.url := "https://www.dpie.nsw.gov.au/" |} ];
     Base.coordinates := lookup coordinates site |}.

(** A row after the first two.  The existence of [<td class='site'>] is
    an indication of a measurement. *)
Definition measurement_row (date : Timestamp.t) (st : state) (row : tr) : exc state :=
  match site row with
  | [] => Ok st
  | _ :: _ =>
      let regionString := text_of (region row) in
      let region_ :=
        if negb (String.eqb regionString EmptyString) then regionString
        else current_region st in
      let colCounter :=
        match region row with
        | [] => num_add (num_of_Z 0) (num_of_Z 1)
        | _ :: _ => num_of_Z 0
        end in
      let base := make_base region_ (text_of (site row)) date in
      r <- forEach (value_cell base (indexParams st)) (children row)
             (colCounter, measurements st) ;;
      Ok {| indexParams := indexParams st;
            current_region := region_;
            measurements := snd r |}
  end.

(** The callback of [$('table.aqi tr').each]. *)
Definition on_tr (date : Timestamp.t) (st : state) (idy : nat) (row : tr) : exc state :=
  match idy with
  | 0 =>
      r <- forEach name_cell (children row) (num_of_Z 0, indexParams st) ;;
      Ok {| indexParams := snd r;
            current_region := current_region st;
            measurements := measurements st |}
  | 1 =>
      r <- forEach period_cell (children row) (num_of_Z 0, indexParams st) ;;
      Ok {| indexParams := snd r;
            current_region := current_region st;
            measurements := measurements st |}
  | _ => measurement_row date st row
  end.

(** [_.matches({'parameter': m.parameter, 'location': m.location})] *)
Definition matches (m x : Measurement.t) : bool :=
  String.eqb (Measurement.parameter x) (Measurement.parameter m)
  && String.eqb (Measurement.location x) (Measurement.location m).

Definition period (m : Measurement.t) : number :=
  AveragingPeriod.value (Measurement.averagingPeriod m).

(** The body of [for (var m in measurements)]: keep the measurement
    with the SHORTEST averaging period.  [finalMeasurements[match]] is
    read at an index [findIndex] answered; were it [undefined], reading
    its [averagingPeriod] would be a TypeError. *)
Definition keep_shortest (finalMeasurements : list Measurement.t) (m : Measurement.t)
  : exc (list Measurement.t) :=
  match findIndex (matches m) finalMeasurements with
  | None => Ok (finalMeasurements ++ [m])
  | Some match_ =>
      match nth_error finalMeasurements match_ with
      | Some found =>
          if num_ltb (period m) (period found)
          then Ok (splice1 match_ (finalMeasurements ++ [m]))
          else Ok finalMeasurements
      | None => Throw
      end
  end.

Definition finalMeasurements (measurements : list Measurement.t)
  : exc (list Measurement.t) :=
  forEach keep_shortest measurements [].

(** Modelled from the spec: [removeUnwantedParameters] of [../lib/utils],
    "a parameter-allowlist filter utility". *)
Definition removeUnwantedParameters (ms : list Measurement.t) : list Measurement.t :=
  filter (fun m => acceptable (Measurement.parameter m)) ms.

(** Modelled from the spec: what [convertUnits] makes of one measurement. *)
Definition converted (m : Measurement.t) : Measurement.t :=
  let r := convert (Measurement.unit m) (Measurement.value m) in
  {| Measurement.city := Measurement.city m;
     Measurement.location := Measurement.location m;
     Measurement.date := Measurement.date m;
     Measurement.attribution := Measurement.attribution m;
     Measurement.coordinates := Measurement.coordinates m;
     Measurement.parameter := Measurement.parameter m;
     Measurement.unit := fst r;
     Measurement.value := snd r;
     Measurement.averagingPeriod := Measurement.averagingPeriod m |}.

(** Modelled from the spec: [convertUnits] of [../lib/utils], "a
    unit-conversion utility": the unit and the value of each
    measurement are converted, nothing else changes. *)
Definition convertUnits (ms : list Measurement.t) : list Measurement.t :=
  map converted ms.

Definition initial : state :=
  {| indexParams := []; current_region := EmptyString; measurements := [] |}.

Definition formatData (data : string) : exc Data.t :=
  let doc := cheerio_load data in
  date <- parseDate (td_date doc) ;;
  st <- each (on_tr date) (table_aqi_tr doc) initial ;;
  final <- finalMeasurements (measurements st) ;;
  let final := removeUnwantedParameters final in
  let final := convertUnits final in
  Ok {| Data.name := "unused"; Data.measurements := final |}.

(** [fetchData(source, cb)]: the uri requested and what the handler of
    the reply does.  An object literal never is [undefined]. *)
Definition fetchData (source : Source.t) (cb : callback Data.t)
  : string * (reply -> outcome Data.t) :=
  ( Source.url source, on_response formatData (fun _ => false) cb ).

(** The JavaScript object a measurement record stands for, with its
    properties in the order the adapter creates them. *)
Definition property_value {A : Type} (inject : A -> value) (p : property A) : value :=
  match p with
  | Own a => inject a
  | Inherited member => Builtin member
  | Absent => Undefined
  end.

Definition coordinates_object (c : Coordinates.t) : value :=
  Obj [ ("latitude", Num (Coordinates.latitude c));
        ("longitude", Num (Coordinates.longitude c)) ].

Definition as_object (m : Measurement.t) : value :=
  Obj
    ([ ("city", Str (Measurement.city m));
       ("location", Str (Measurement.location m));
       ("date", Obj
         [ ("utc", DateObj (Timestamp.utc (Measurement.date m)));
           ("local", Str (Timestamp.local (Measurement.date m))) ]);
       ("attribution", Arr
         (map (fun a => Obj [ ("name", Str (Attribution.name a));
                              ("url", Str (Attribution.url a)) ])
              (Measurement.attribution m))) ]
     ++ match Measurement.coordinates m with
        | Absent => []
        | c => [("coordinates", property_value coordinates_object c)]
        end
     ++ [ ("parameter", Str (Measurement.parameter m));
          ("unit", property_value Str (Measurement.unit m));
          ("value", Num (Measurement.value m));
          ("averagingPeriod", Obj
            [ ("value", Num (AveragingPeriod.value (Measurement.averagingPeriod m)));
              ("unit", Str (AveragingPeriod.unit (Measurement.averagingPeriod m))) ]) ]).

Definition data_object (d : Data.t) : value :=
  Obj [ ("name", Str (Data.name d));
        ("measurements", Arr (map as_object (Data.measurements d))) ].

End Adapter.
End Nsw.

(* ===================================================================== *)
(** ** A small host, to run the adapters on examples *)
(* ===================================================================== *)

(** Stand-ins for the libraries, on which the embedding computes: numbers
    are rationals or NaN, a moment is an instant in seconds with its zone,
    [JSON.parse] and [cheerio.load] know the two example bodies below, and
    the two regular expressions of the NSW adapter are recognised at the
    place where the example documents have them. *)
Module Sample.

#[local] Instance host_types : HostTypes :=
  {| number := option Q; Date := Z; moment := (Z * string)%type |}.

Definition ltb (a b : option Q) : bool :=
  match a, b with
  | Some x, Some y => negb (Qle_bool y x)
  | _, _ => false
  end.

Definition eqb (a b : option Q) : bool :=
  match a, b with
  | Some x, Some y => Qeq_bool x y
  | None, None => true
  | _, _ => false
  end.

Definition truthy (a : option Q) : bool :=
  match a with
  | Some x => negb (Qeq_bool x 0)
  | None => false
  end.

Definition plus (a b : option Q) : option Q :=
  match a, b with
  | Some x, Some y => Some (Qplus x y)
  | _, _ => None
  end.

Fixpoint digits (acc : Z) (s : string) : option Z :=
  match s with
  | EmptyString => Some acc
  | String c s' =>
      let n := Z.of_nat (nat_of_ascii c) in
      if ((48 <=? n) && (n <=? 57))%Z then digits (10 * acc + (n - 48)) s' else None
  end.

(** [Number(s)] on the strings that spell an integer, NaN elsewhere. *)
Definition integer (s : string) : option Q :=
  match s with
  | EmptyString => Some (inject_Z 0)
  | String "-" (String _ _ as s') => option_map (fun z => inject_Z (- z)) (digits 0 s')
  | String _ _ => option_map inject_Z (digits 0 s)
  end.

Definition to_number (v : value) : option Q :=
  match v with
  | Null => Some (inject_Z 0)
  | Bool b => Some (inject_Z (if b then 1 else 0))
  | Num n => n
  | Str s => integer s
  | _ => None
  end.

Definition lower (c : ascii) : ascii :=
  let n := nat_of_ascii c in
  if ((65 <=? n) && (n <=? 90))%nat then ascii_of_nat (n + 32) else c.

Fixpoint lowercase (s : string) : string :=
  match s with
  | EmptyString => EmptyString
  | String c s' => String (lower c) (lowercase s')
  end.

Fixpoint leading_digits (s : string) : string * string :=
  match s with
  | EmptyString => (EmptyString, EmptyString)
  | String c s' =>
      let n := nat_of_ascii c in
      if ((48 <=? n) && (n <=? 57))%nat
      then let r := leading_digits s' in (String c (fst r), snd r)
      else (EmptyString, s)
  end.

Definition group1 (pattern s : string) : option string :=
  if String.eqb pattern "</a><br>+(.+)" then
    match String.index 0 "</a><br>" s with
    | Some n =>
        let rest := String.substring (n + 8) (String.length s) s in
        if String.eqb rest EmptyString then None else Some rest
    | None => None
    end
  else if String.eqb pattern "([0-9]+)-hour" then
    let r := leading_digits s in
    if negb (String.eqb (fst r) EmptyString) && String.prefix "-hour" (snd r)
    then Some (fst r) else None
  else None.

Definition dq : string := String (ascii_of_nat 34) EmptyString.

(** A body of the ACT endpoint: one station, two pollutants. *)
Definition act_body : string :=
  String.concat dq
    [ "[{"; "name"; ":"; "Civic"; ","; "datetime"; ":"; "2020-01-01T00:00:00"; ",";
      "gps"; ":{"; "latitude"; ":"; "-35"; ","; "longitude"; ":"; "149"; "},";
      "no2"; ":"; "3"; ","; "pm10"; ":"; "12"; "}]" ].

Definition act_gps : value :=
  Obj [("latitude", Str "-35"); ("longitude", Str "149")].

Definition act_props : list (string * value) :=
  [ ("name", Str "Civic"); ("datetime", Str "2020-01-01T00:00:00");
    ("gps", act_gps); ("no2", Str "3"); ("pm10", Str "12") ].

Definition act_row : value := Obj act_props.

Definition parse (s : string) : option value :=
  if String.eqb s act_body then Some (Arr [act_row])
  else if String.eqb s "[]" then Some (Arr [])
  else if String.eqb s "{}" then Some (Obj [])
  else None.

#[local] Instance builtins : JsBuiltins :=
  {| num_of_Z := fun z => Some (inject_Z z);
     num_of_Q := fun q => Some q;
     num_add := plus;
     num_truthy := truthy;
     num_eqb := eqb;
     num_ltb := ltb;
     Number := to_number;
     call := fun f v =>
       if String.eqb f "toString" then Some (Ok (Str "[object Object]"))
       else if String.eqb f "valueOf" then Some (Ok v)
       else None;
     toLowerCase := lowercase;
     match_group1 := group1;
     JSON_parse := parse |}.

Definition seconds (unit : string) : Z :=
  if String.eqb unit "day" || String.eqb unit "days" then 86400%Z else 1%Z.

Definition show (m : Z * string) : string :=
  String.append (NilZero.string_of_int (Z.to_int (fst m))) (String.append "@" (snd m)).

#[local] Instance moments : MomentTz :=
  {| tz := fun m zone => (fst m, zone);
     subtract := fun m n unit => ((fst m - n * seconds unit)%Z, snd m);
     add := fun m n unit => ((fst m + n * seconds unit)%Z, snd m);
     format_as := fun m _ => show m;
     format := show;
     toDate := fst;
     moment_tz := fun now v zone =>
       match v with
       | Str s => Ok (Z.of_nat (String.length s), zone)
       | Undefined => Ok (fst now, zone)
       | _ => Ok (0%Z, zone)
       end;
     moment_tz_format := fun _ s _ zone => (Z.of_nat (String.length s), zone);
     clock := fun n => ((1577836800 + Z.of_nat n)%Z, "UTC") |}.

(** A page of the NSW site: ozone is reported over 1 and over 4 hours,
    particles over 24 hours; the second station is in the region of the
    first, and is not in the coordinate table. *)
Definition nsw_body : string :=
  String.concat EmptyString
    [ "<table><tr><td class='date'>Hourly data<br>13 December 2019<br>11 - 12 am</td></tr></table>";
      "<table class='aqi'>";
      "<tr><th>Region</th><th>Site</th>";
      "<th><a>Ozone</a><br>O3</th><th><a>Ozone</a><br>O3</th>";
      "<th><a>Particles</a><br>PM2.5</th></tr>";
      "<tr><th colspan='2'></th><th>1-hour average</th><th>4-hour average</th>";
      "<th>24-hour average</th></tr>";
      "<tr><td class='region'>Sydney East</td><td class='site'>Randwick</td>";
      "<td>2</td><td>3</td><td>7</td></tr>";
      "<tr><td class='site'>Kirribilli</td><td></td><td>4</td><td>9</td></tr>";
      "</table>" ].

Definition plain (s : string) : cell :=
  {| colspan := None; html := s; text := s; anchors := 0 |}.

Definition nsw_date : string := "Hourly data<br>13 December 2019<br>11 - 12 am".

Definition nsw_document : document :=
  {| td_date := Some nsw_date;
     table_aqi_tr :=
       [ {| children :=
              [ plain "Region"; plain "Site";
                {| colspan := None; html := "<a>Ozone</a><br>O3";
                   text := "OzoneO3"; anchors := 1 |};
                {| colspan := None; html := "<a>Ozone</a><br>O3";
                   text := "OzoneO3"; anchors := 1 |};
                {| colspan := None; html := "<a>Particles</a><br>PM2.5";
                   text := "ParticlesPM2.5"; anchors := 1 |} ];
            site := []; region := [] |};
         {| children :=
              [ {| colspan := Some "2"; html := EmptyString; text := EmptyString;
                   anchors := 0 |};
                plain "1-hour average"; plain "4-hour average"; plain "24-hour average" ];
            site := []; region := [] |};
         {| children :=
              [ plain "Sydney East"; plain "Randwick"; plain "2"; plain "3"; plain "7" ];
            site := ["Randwick"]; region := ["Sydney East"] |};
         {| children := [ plain "Kirribilli"; plain EmptyString; plain "4"; plain "9" ];
            site := ["Kirribilli"]; region := [] |} ] |}.

#[local] Instance cheerio : Cheerio :=
  {| cheerio_load := fun s =>
       if String.eqb s nsw_body then nsw_document
       else {| td_date := None; table_aqi_tr := [] |} |}.

#[local] Instance utils : Utils :=
  {| acceptable := fun p =>
       existsb (String.eqb p) ["pm25"; "pm10"; "no2"; "so2"; "o3"; "co"; "bc"];
     convert := fun u v =>
       match u with
       | Own unit =>
           if String.eqb unit "pphm"
           then (Own "ppm", option_map (fun q => Qred (q / 100)) v)
           else (u, v)
       | _ => (u, v)
       end |}.

Definition source : Source.t :=
  {| Source.name := "Australia - ACT";
     Source.url := "https://www.data.act.gov.au/resource/94a5-zqnn.json" |}.

(** A reading of the clock. *)
Definition now : @moment host_types := (1577836800%Z, "UTC").

Definition ok (status : Z) (body : string) : reply :=
  {| err := None; res := Some {| statusCode := status |}; body := body |}.

(** A callback that throws when it is handed data, as one does whose
    processing of the measurements fails. *)
Definition throws_on_data {D : Type} : callback D :=
  fun c =>
    match cb_data c with
    | Some _ => Throws
    | None => Returns
    end.

Definition returns {D : Type} : callback D := fun _ => Returns.

(** Two readings of ozone at Randwick, averaged over [hours] hours, and
    one of particles there: measurements as the NSW adapter makes them. *)
Definition reading (parameter : string) (hours : Z) (v : Z) : Nsw.Measurement.t :=
  {| Nsw.Measurement.city := "Sydney East";
     Nsw.Measurement.location := "Randwick";
     Nsw.Measurement.date :=
       {| Nsw.Timestamp.utc := 86420%Z;
          Nsw.Timestamp.local := "86420@Australia/Melbourne" |};
     Nsw.Measurement.attribution := [];
     Nsw.Measurement.coordinates := lookup Nsw.coordinates "Randwick";
     Nsw.Measurement.parameter := parameter;
     Nsw.Measurement.unit := lookup Nsw.units parameter;
     Nsw.Measurement.value := Some (inject_Z v);
     Nsw.Measurement.averagingPeriod :=
       {| Nsw.AveragingPeriod.value := Some (inject_Z hours);
          Nsw.AveragingPeriod.unit := "hours" |} |}.

Definition ozone_1h : Nsw.Measurement.t := reading "o3" 1 2.
Definition ozone_24h : Nsw.Measurement.t := reading "o3" 24 3.
Definition ozone_1h_later : Nsw.Measurement.t := reading "o3" 1 5.
Definition particles_24h : Nsw.Measurement.t := reading "pm25" 24 7.

(** Three readings of ozone there, all over 4 hours. *)
Definition ozone_4h_first : Nsw.Measurement.t := reading "o3" 4 3.
Definition ozone_4h_second : Nsw.Measurement.t := reading "o3" 4 4.
Definition ozone_4h_third : Nsw.Measurement.t := reading "o3" 4 5.

(** The rows of the sample page, its timestamp as the sample host reads
    it, and the state of the adapter after the first row and after the
    first two. *)
Definition no_row : tr := {| children := []; site := []; region := [] |}.
Definition names_row : tr := nth 0 (table_aqi_tr nsw_document) no_row.
Definition periods_row : tr := nth 1 (table_aqi_tr nsw_document) no_row.
Definition randwick_row : tr := nth 2 (table_aqi_tr nsw_document) no_row.

Definition timestamp : Nsw.Timestamp.t :=
  {| Nsw.Timestamp.utc := 86420%Z;
     Nsw.Timestamp.local := "86420@Australia/Melbourne" |}.

Definition after_rows (n : nat) : Nsw.state :=
  match each (Nsw.on_tr timestamp) (firstn n (table_aqi_tr nsw_document)) Nsw.initial with
  | Ok st => st
  | Throw => Nsw.initial
  end.

Definition named : Nsw.state := after_rows 1.
Definition indexed : Nsw.state := after_rows 2.

(** A row with a value that cannot be converted to a number, as
    [JSON.parse] makes it of [{"gps": "x", "no2": {"toString": null}}]. *)
Definition act_row_unconvertible : value :=
  Obj [("gps", Str "x"); ("no2", Obj [("toString", Null)])].

(** A timestamp with the hours as the comment in [parseDate] has them. *)
Definition nsw_date_three_words : string := "Hourly data<br>13 December 2019<br>11pm - 12am".

End Sample.

(* ===================================================================== *)
(** ** What the properties speak of *)
(* ===================================================================== *)

(** The measurements of a result [{name, measurements}]. *)
Definition measurements_of `{HostTypes} (r : value) : list value :=
  match field r "measurements" with
  | Arr ms => ms
  | _ => []
  end.

(** The measurement made from the base of a row for one of its keys,
    with the number [n] as value. *)
Definition made_from `{HT : HostTypes} {JB : JsBuiltins}
    (base : value) (type : string) (n : number) : value :=
  Act.set
    (Act.set
       (Act.set (Act.cloneDeep base) "parameter" (Act.get Act.types (Str type)))
       "value" (Num n))
    "unit" (Act.get Act.units (Act.get Act.types (Str type))).

(** The base measurement of a row. *)
Definition base_object `{HT : HostTypes} {JB : JsBuiltins}
    (location date : value) (source : Source.t) (latitude longitude : number) : value :=
  Obj
    [ ("location", location);
      ("city", Str "Canberra");
      ("country", Str "AU");
      ("date", date);
      ("sourceName", Str (Source.name source));
      ("sourceType", Str "government");
      ("mobile", Bool false);
      ("coordinates", Obj
        [ ("latitude", Num latitude);
          ("longitude", Num longitude) ]);
      ("attribution", Arr
        [ Obj
          [ ("name", Str "Health Protection Service, ACT Government");
            ("url", Str "https://www.data.act.gov.au/Environment/Air-Quality-Monitoring-Data/94a5-zqnn") ] ]);
      ("averagingPeriod", Obj [("value", Num (num_of_Z 1)); ("unit", Str "hours")]) ].

(** The measurements made from a row and its base: one for each key of
    [types] the row has, in the order of [types]. *)
Definition row_measurements `{HT : HostTypes} {JB : JsBuiltins}
    (base row : value) : list value :=
  map (fun type => made_from base type (Number (field row type)))
      (filter (fun type => has_own type row) (Act.keys Act.types)).

(** A measurement of [source] from the row at [index]: made from the
    base of that row, for a key of [types] the row has, with the number
    of what the key holds as value. *)
Definition emitted_at `{HT : HostTypes} {JB : JsBuiltins} {MT : MomentTz}
    (source : Source.t) (index : nat) (row m : value) : Prop :=
  exists base type raw,
    Act.baseMeasurement (clock index) row source = Ok base
    /\ In type (Act.keys Act.types)
    /\ Act.has_property type row = Ok true
    /\ Act.member row type = Ok raw
    /\ to_number_returns raw = true
    /\ m = made_from base type (Number raw).

(** A measurement of [source] from [rows]: made from one of the rows. *)
Definition emitted `{HT : HostTypes} {JB : JsBuiltins} {MT : MomentTz}
    (source : Source.t) (rows : list value) (m : value) : Prop :=
  exists index row, nth_error rows index = Some row /\ emitted_at source index row m.

(** The timestamp of a moment: [{utc: date.toDate(), local: date.format()}]. *)
Definition stamp `{HT : HostTypes} {MT : MomentTz} (date : moment) : Nsw.Timestamp.t :=
  {| Nsw.Timestamp.utc := toDate date; Nsw.Timestamp.local := format date |}.

(** The end of a range of hours as it reads on the page: what follows
    the dash, without its spaces. *)
Definition without_spaces (s : string) : string :=
  String.concat EmptyString (split " " s).

Definition range_end (range : string) : option string :=
  option_map without_spaces (nth_error (split "-" range) 1).

(** The pair a measurement is about. *)
Definition pair_of `{HT : HostTypes} (m : Nsw.Measurement.t) : string * string :=
  (Nsw.Measurement.location m, Nsw.Measurement.parameter m).

(** What the loop maintains between the measurements [seen] so far and
    [finalMeasurements]: one entry per pair, taken from [seen], than
    which no measurement seen for that pair has a shorter period. *)
Definition kept `{HT : HostTypes} {JB : JsBuiltins}
    (seen final : list Nsw.Measurement.t) : Prop :=
  NoDup (map pair_of final)
  /\ incl final seen
  /\ forall m, In m seen ->
       exists r, In r final /\ pair_of r = pair_of m
                 /\ forall m', In m' seen -> pair_of m' = pair_of m ->
                               num_ltb (Nsw.period m') (Nsw.period r) = false.

(** [r] is the first of the measurements [seen] that is about its pair
    and has its averaging period. *)
Definition earliest `{HT : HostTypes} (seen : list Nsw.Measurement.t)
    (r : Nsw.Measurement.t) : Prop :=
  exists before after,
    seen = before ++ r :: after
    /\ forall x, In x before -> pair_of x = pair_of r -> Nsw.period x <> Nsw.period r.

(** A measurement of a page whose timestamp is [ts]: it carries that
    timestamp, and what the coordinate table has for its location. *)
Definition from_page `{HT : HostTypes} {JB : JsBuiltins}
    (ts : Nsw.Timestamp.t) (m : Nsw.Measurement.t) : Prop :=
  Nsw.Measurement.date m = ts
  /\ Nsw.Measurement.coordinates m = lookup Nsw.coordinates (Nsw.Measurement.location m).

(** What the invocations [fst o] a handler made of [cb] on the reply [r]
    look like, and how the handler ended: nothing is invoked only when
    [request] handed over neither an error nor a response; there are two
    invocations at most, each with an error or with data and not both,
    none with the message of the [data === undefined] branch; a second
    invocation reports the unknown error, and is made only after the
    first one threw; the handler ends as its last invocation does. *)
Definition orderly {D : Type} (cb : callback D) (r : reply) (o : outcome D) : Prop :=
  (fst o = [] <-> err r = None /\ res r = None)
  /\ length (fst o) <= 2
  /\ Forall (fun c => (cb_err c = None <-> cb_data c <> None)
                      /\ cb_err c <> Some "Failure to parse data.")
            (fst o)
  /\ (forall c, In c (tl (fst o)) ->
                cb_err c = Some "Unknown adapter error." /\ cb_data c = None)
  /\ (length (fst o) = 2 -> exists c, hd_error (fst o) = Some c /\ cb c = Throws)
  /\ snd o = match rev (fst o) with
             | [] => Throws
             | c :: _ => cb c
             end.

(** A row the ACT adapter can format when the clock reads [now]: an
    object whose [gps] is there and is not [null], whose [datetime]
    [moment.tz] takes, and in which what is converted to a number (the
    latitude and the longitude of [gps], and what each key of [types]
    the row has holds) can be converted: no object among them whose
    [toString] is not a function. *)
Definition valid_row `{HT : HostTypes} {JB : JsBuiltins} {MT : MomentTz}
    (now : moment) (row : value) : Prop :=
  exists props gps,
    row = Obj props /\ assoc "gps" props = Some gps /\ gps <> Null /\ gps <> Undefined
    /\ moment_tz now (field row "datetime") "Australia/Sydney" <> Throw
    /\ to_number_returns (field gps "latitude") = true
    /\ to_number_returns (field gps "longitude") = true
    /\ forall type,
         In type (Act.keys Act.types) -> has_own type row = true ->
         to_number_returns (field row type) = true.

(** An array the ACT adapter can format: each row can be formatted when
    its turn comes, the row at [index] at the reading [clock index]. *)
Definition valid_rows `{HT : HostTypes} {JB : JsBuiltins} {MT : MomentTz}
    (rows : list value) : Prop :=
  forall index row, nth_error rows index = Some row -> valid_row (clock index) row.

(** The measurement [m] was made from [row] for one of the keys of
    [types] the row has: its location, value and coordinates are read
    from that row, its parameter is the one of the key. *)
Definition taken_from `{HT : HostTypes} {JB : JsBuiltins}
    (source : Source.t) (row m : value) : Prop :=
  exists type raw gps latitude longitude,
    In type (Act.keys Act.types)
    /\ has_own type row = true
    /\ Act.member row type = Ok raw
    /\ Act.member row "gps" = Ok gps
    /\ Act.member gps "latitude" = Ok latitude
    /\ Act.member gps "longitude" = Ok longitude
    /\ Act.member row "name" = Ok (field m "location")
    /\ field m "parameter" = Act.get Act.types (Str type)
    /\ field m "value" = Num (Number raw)
    /\ field m "coordinates"
       = Obj [ ("latitude", Num (Number latitude));
               ("longitude", Num (Number longitude)) ]
    /\ field m "sourceName" = Str (Source.name source).

(** The value of [colCounter] after each cell of a row, counted from
    [start]: the column at which the cell ends, colspans included. *)
Fixpoint columns `{HT : HostTypes} {JB : JsBuiltins} (start : number) (cells : list cell)
  : list number :=
  match cells with
  | [] => []
  | c :: cells' =>
      let colCounter := num_add start (Nsw.colIncrement c) in
      colCounter :: columns colCounter cells'
  end.

(** Where [colCounter] starts on a row with measurements: a row that
    has no cell of class [region] counts one column for it. *)
Definition first_column `{HT : HostTypes} {JB : JsBuiltins} (row : tr) : number :=
  match region row with
  | [] => num_add (num_of_Z 0) (num_of_Z 1)
  | _ :: _ => num_of_Z 0
  end.

(** The cells of a row, each with the column at which it ends. *)
Definition placed `{HT : HostTypes} {JB : JsBuiltins} (start : number) (cells : list cell)
  : list (cell * number) :=
  combine cells (columns start cells).

(** The region in force after a row with a site: the text of its
    [region] cells, or the region of the rows before when that text is
    empty. *)
Definition current_region_after `{HT : HostTypes} (st : Nsw.state) (row : tr) : string :=
  if String.eqb (Nsw.text_of (region row)) EmptyString
  then Nsw.current_region st
  else Nsw.text_of (region row).

(** How an entry [p'] of the index after the row of the averaging
    periods relates to the entry [p] it was before: the same column and
    parameter, and the period it had, or the period a cell of the row
    names, when that cell ends at the entry's column. *)
Definition period_set `{HT : HostTypes} {JB : JsBuiltins}
    (start : number) (cells : list cell) (p p' : Nsw.IndexParam.t) : Prop :=
  Nsw.IndexParam.col p' = Nsw.IndexParam.col p
  /\ Nsw.IndexParam.parameter p' = Nsw.IndexParam.parameter p
  /\ (Nsw.IndexParam.avgPeriod p' = Nsw.IndexParam.avgPeriod p
      \/ exists c col period,
           In (c, col) (placed start cells)
           /\ match_group1 "([0-9]+)-hour" (html c) = Some period
           /\ num_eqb (Nsw.IndexParam.col p) col = true
           /\ Nsw.IndexParam.avgPeriod p' = Some period).

(** The measurement [m] is about a site and a pollutant the table
    [rows] names: its location is the text of the [site] cells of a row
    from the third on, its parameter was read from a cell with a link in
    the first row. *)
Definition named_in_table `{HT : HostTypes} {JB : JsBuiltins}
    (rows : list tr) (m : Nsw.Measurement.t) : Prop :=
  (exists row,
      In row (skipn 2 rows) /\ site row <> []
      /\ Nsw.Measurement.location m = Nsw.text_of (site row))
  /\ (exists row c group,
         hd_error rows = Some row /\ In c (children row) /\ (0 < anchors c)%nat
         /\ match_group1 "</a><br>+(.+)" (html c) = Some group
         /\ Nsw.Measurement.parameter m = toLowerCase (replace "." EmptyString group)).

(* ===================================================================== *)
(** ** The handler of the reply *)
(* ===================================================================== *)

Section Handler.
Context {D : Type} (format : string -> exc D) (is_undefined : D -> bool).

Lemma on_response_load_failure (cb : callback D) (r : reply) :
  (err r <> None \/ exists rs, res r = Some rs /\ statusCode rs <> 200%Z) ->
  on_response format is_undefined cb r
  = ([cb_error "Failure to load data url."], cb (cb_error "Failure to load data url.")).
Proof.
  unfold on_response, invoke. intros [Herr | (rs & Hres & Hcode)].
  - destruct (err r); [reflexivity | contradiction].
  - destruct (err r); [reflexivity |]. rewrite Hres.
    apply Z.eqb_neq in Hcode. rewrite Hcode. reflexivity.
Qed.

Lemma on_response_loaded (cb : callback D) (r : reply) (rs : response) :
  err r = None -> res r = Some rs -> statusCode rs = 200%Z ->
  on_response format is_undefined cb r
  = match format (body r) with
    | Throw => ([cb_error "Unknown adapter error."], cb (cb_error "Unknown adapter error."))
    | Ok data =>
        let c := if is_undefined data then cb_error "Failure to parse data."
                 else cb_success data in
        match cb c with
        | Returns => ([c], Returns)
        | Throws =>
            ([c; cb_error "Unknown adapter error."], cb (cb_error "Unknown adapter error."))
        end
    end.
Proof.
  intros Herr Hres Hcode. unfold on_response. rewrite Herr, Hres, Hcode.
  simpl. reflexivity.
Qed.

(** A callback that returns is invoked once, with an error and no data
    or with data and no error, whenever [request] hands over an error
    or a response. *)
Lemma on_response_once (cb : callback D) (r : reply) :
  (forall c, cb c = Returns) ->
  err r <> None \/ res r <> None ->
  exists c, on_response format is_undefined cb r = ([c], Returns)
            /\ (cb_err c = None <-> cb_data c <> None).
Proof.
  intros Hcb Hdone.
  assert (Hsplit : (err r <> None \/ exists rs, res r = Some rs /\ statusCode rs <> 200%Z)
                   \/ exists rs, err r = None /\ res r = Some rs /\ statusCode rs = 200%Z).
  { destruct (err r) as [e |] eqn:He; [left; left; discriminate |].
    destruct (res r) as [rs |] eqn:Hr.
    - destruct (Z.eq_dec (statusCode rs) 200) as [Hc | Hc].
      + right. exists rs. auto.
      + left. right. exists rs. auto.
    - destruct Hdone as [H | H]; contradiction. }
  destruct Hsplit as [Hfail | (rs & He & Hr & Hc)].
  - rewrite (on_response_load_failure cb r Hfail), Hcb.
    eexists. split; [reflexivity |]. simpl. split; intro; [discriminate | congruence].
  - rewrite (on_response_loaded cb r rs He Hr Hc).
    destruct (format (body r)) as [data |].
    + cbv zeta. rewrite Hcb. eexists. split; [reflexivity |].
      destruct (is_undefined data); simpl; split; intro; congruence.
    + rewrite Hcb. eexists. split; [reflexivity |].
      simpl. split; intro; [discriminate | congruence].
Qed.

(** A callback that throws on the data it is handed is invoked a second
    time, by the [catch] around it. *)
Lemma on_response_twice (cb : callback D) (r : reply) (rs : response) (data : D) :
  err r = None -> res r = Some rs -> statusCode rs = 200%Z ->
  format (body r) = Ok data -> is_undefined data = false ->
  cb (cb_success data) = Throws ->
  on_response format is_undefined cb r
  = ([cb_success data; cb_error "Unknown adapter error."],
     cb (cb_error "Unknown adapter error.")).
Proof.
  intros He Hr Hc Hf Hu Hcb.
  rewrite (on_response_loaded cb r rs He Hr Hc), Hf. cbv zeta.
  rewrite Hu, Hcb. reflexivity.
Qed.

End Handler.

Section Fetching.
Context `{HT : HostTypes} {JB : JsBuiltins} {MT : MomentTz} {CH : Cheerio} {UT : Utils}.

(** C4.  When the request ended in a transport error, or in a response
    whose status code is not 200, each adapter invokes the callback
    once, with the error [Failure to load data url.] and no data,
    whatever the body is; the handler ends as that invocation does. *)
Theorem load_failure_reported (source : Source.t) (now : moment)
    (cb_act : callback value) (cb_nsw : callback Nsw.Data.t) (r : reply) :
  (err r <> None \/ exists rs, res r = Some rs /\ statusCode rs <> 200%Z) ->
  snd (Act.fetchData source cb_act now) r
  = ([ {| cb_err := Some "Failure to load data url."; cb_data := None |} ],
     cb_act {| cb_err := Some "Failure to load data url."; cb_data := None |})
  /\ snd (Nsw.fetchData source cb_nsw) r
     = ([ {| cb_err := Some "Failure to load data url."; cb_data := None |} ],
        cb_nsw {| cb_err := Some "Failure to load data url."; cb_data := None |}).
Proof.
  intros Hfail. split; simpl; apply on_response_load_failure; exact Hfail.
Qed.

(** C5.  When the request succeeded and formatting the body throws, each
    adapter catches the exception and invokes the callback once, with
    the error [Unknown adapter error.] and no data; the handler ends as
    that invocation does, so that nothing is thrown to the caller of the
    handler unless the callback itself throws.  Formatting throws, among
    others, on a body that [JSON.parse] rejects, on JSON that is not an
    array, and on a page without the cell of the timestamp. *)
Theorem formatting_exception_reported (source : Source.t) (now : moment)
    (cb_act : callback value) (cb_nsw : callback Nsw.Data.t)
    (r : reply) (rs : response) :
  err r = None -> res r = Some rs -> statusCode rs = 200%Z ->
  (Act.format_body source (body r) = Throw ->
   snd (Act.fetchData source cb_act now) r
   = ([ {| cb_err := Some "Unknown adapter error."; cb_data := None |} ],
      cb_act {| cb_err := Some "Unknown adapter error."; cb_data := None |}))
  /\ (Nsw.formatData (body r) = Throw ->
      snd (Nsw.fetchData source cb_nsw) r
      = ([ {| cb_err := Some "Unknown adapter error."; cb_data := None |} ],
         cb_nsw {| cb_err := Some "Unknown adapter error."; cb_data := None |}))
  /\ (JSON_parse (body r) = None -> Act.format_body source (body r) = Throw)
  /\ (forall data, JSON_parse (body r) = Some data ->
                   (forall rows, data <> Arr rows) ->
                   Act.format_body source (body r) = Throw)
  /\ (td_date (cheerio_load (body r)) = None -> Nsw.formatData (body r) = Throw).
Proof.
  intros He Hr Hc. split; [| split; [| split; [| split]]].
  - intros Hthrow. simpl.
    rewrite (on_response_loaded _ _ cb_act r rs He Hr Hc), Hthrow. reflexivity.
  - intros Hthrow. simpl.
    rewrite (on_response_loaded _ _ cb_nsw r rs He Hr Hc), Hthrow. reflexivity.
  - intros Hparse. unfold Act.format_body. rewrite Hparse. reflexivity.
  - intros data Hparse Hrows. unfold Act.format_body. rewrite Hparse.
    destruct data; try reflexivity. exfalso. exact (Hrows items eq_refl).
  - intros Hdate. unfold Nsw.formatData. rewrite Hdate. reflexivity.
Qed.

(** C9.  The request of the ACT adapter goes to [source.url] and carries
    one query parameter, [$query], whose value is the SoQL query that
    selects the rows whose [datetime] is greater than the time it was
    one day ago in the zone Australia/Sydney, orders them by [datetime],
    latest first, and stops at 1000 rows. *)
Theorem request_query (source : Source.t) (cb : callback value) (now : moment) :
  fst (Act.fetchData source cb now)
  = {| Act.uri := Source.url source;
       Act.qs :=
         [ ("$query",
            SoQL.render
              {| SoQL.select := ["*"; ":id"];
                 SoQL.where_column := "datetime";
                 SoQL.where_comparison := SoQL.Gt;
                 SoQL.where_literal :=
                   format_as (subtract (tz now "Australia/Sydney") 1 "days")
                             "YYYY-MM-DDTHH:mm:ss";
                 SoQL.order_column := "datetime";
                 SoQL.order_direction := SoQL.Desc;
                 SoQL.limit := 1000 |}) ] |}.
Proof. reflexivity. Qed.

End Fetching.

(* ===================================================================== *)
(** ** Loops *)
(* ===================================================================== *)

Section Loops.
Context {A St : Type} (f : St -> A -> exc St).

Lemma forEach_app (l1 l2 : list A) (s : St) :
  forEach f (l1 ++ l2) s = bind (forEach f l1 s) (forEach f l2).
Proof.
  revert s. induction l1 as [| a l1 IH]; intros s; simpl; [reflexivity |].
  destruct (f s a) as [s' |]; simpl; [apply IH | reflexivity].
Qed.

(** What every step preserves holds when the loop is over. *)
Lemma forEach_invariant (I : St -> Prop) (l : list A) :
  (forall s a s', In a l -> I s -> f s a = Ok s' -> I s') ->
  forall s s', I s -> forEach f l s = Ok s' -> I s'.
Proof.
  induction l as [| a l IH]; intros Hstep s s' Hs Hrun; simpl in Hrun.
  - injection Hrun as <-. exact Hs.
  - destruct (f s a) as [s1 |] eqn:Hf; simpl in Hrun; [| discriminate].
    apply (IH (fun s0 a0 s0' Hin => Hstep s0 a0 s0' (or_intror Hin)) s1 s').
    + apply (Hstep s a s1); [left; reflexivity | exact Hs | exact Hf].
    + exact Hrun.
Qed.

End Loops.

Lemma each_from_invariant {A St : Type} (f : St -> nat -> A -> exc St) (I : St -> Prop)
    (l : list A) :
  (forall s i a s', I s -> f s i a = Ok s' -> I s') ->
  forall i s s', I s -> each_from f i l s = Ok s' -> I s'.
Proof.
  intros Hstep. induction l as [| a l IH]; intros i s s' Hs Hrun; simpl in Hrun.
  - injection Hrun as <-. exact Hs.
  - destruct (f s i a) as [s1 |] eqn:Hf; simpl in Hrun; [| discriminate].
    apply (IH (S i) s1 s'); [| exact Hrun].
    apply (Hstep s i a s1 Hs Hf).
Qed.

(** Case analysis on the steps of a computation that did not throw. *)
Ltac unbind H :=
  unfold bind in H;
  repeat match type of H with
         | context [match ?c with Ok _ => _ | Throw => _ end] =>
             let E := fresh "E" in destruct c eqn:E; [| discriminate H]
         end.

(* ===================================================================== *)
(** ** The ACT adapter: what it emits *)
(* ===================================================================== *)

Section Parts.
Context {A B : Type} (f : list B -> nat -> A -> exc (list B)) (part : nat -> A -> list B -> Prop).

(** A loop over the elements and their places whose steps only append:
    what it appends is, place by place, what its steps append. *)
Lemma each_from_parts (l : list A) :
  forall i,
    (forall acc k a acc', nth_error l k = Some a -> f acc (i + k) a = Ok acc' ->
       exists ms, acc' = acc ++ ms /\ part (i + k) a ms) ->
    forall acc acc', each_from f i l acc = Ok acc' ->
      exists parts,
        length parts = length l
        /\ acc' = acc ++ concat parts
        /\ forall k a, nth_error l k = Some a ->
             exists ms, nth_error parts k = Some ms /\ part (i + k) a ms.
Proof.
  induction l as [| a l IH]; intros i Hstep acc acc' Hrun; simpl in Hrun.
  - injection Hrun as <-. exists []. simpl. rewrite app_nil_r.
    split; [reflexivity |]. split; [reflexivity |]. intros [| k] b Hb; discriminate Hb.
  - destruct (f acc i a) as [acc1 |] eqn:Hf; simpl in Hrun; [| discriminate Hrun].
    assert (Hhead : exists ms, acc1 = acc ++ ms /\ part i a ms).
    { specialize (Hstep acc 0 a acc1 eq_refl). rewrite Nat.add_0_r in Hstep.
      exact (Hstep Hf). }
    destruct Hhead as (ms & -> & Hms).
    destruct (IH (S i)) with (acc := acc ++ ms) (acc' := acc') as (parts & Hlen & -> & Hparts).
    + intros acc0 k b acc0' Hb. specialize (Hstep acc0 (S k) b acc0' Hb).
      rewrite Nat.add_succ_r in Hstep. exact Hstep.
    + exact Hrun.
    + exists (ms :: parts). simpl. rewrite app_assoc.
      split; [congruence |]. split; [reflexivity |].
      intros [| k] b Hb; simpl in Hb.
      * injection Hb as <-. exists ms. rewrite Nat.add_0_r. split; [reflexivity | exact Hms].
      * destruct (Hparts k b Hb) as (ms' & Hnth & Hpart). exists ms'.
        rewrite Nat.add_succ_r. split; [exact Hnth | exact Hpart].
Qed.

(** The same loop returns when each of its steps does. *)
Lemma each_from_returns (l : list A) :
  forall i,
    (forall acc k a, nth_error l k = Some a -> exists acc', f acc (i + k) a = Ok acc') ->
    forall acc, exists acc', each_from f i l acc = Ok acc'.
Proof.
  induction l as [| a l IH]; intros i Hstep acc; simpl.
  - eexists. reflexivity.
  - destruct (Hstep acc 0 a eq_refl) as (acc1 & Hf). rewrite Nat.add_0_r in Hf.
    rewrite Hf. simpl. apply IH. intros acc0 k b Hb.
    destruct (Hstep acc0 (S k) b Hb) as (acc0' & H). rewrite Nat.add_succ_r in H.
    exists acc0'. exact H.
Qed.

End Parts.

Lemma concat_member {A : Type} (parts : list (list A)) (x : A) :
  In x (concat parts) -> exists k ms, nth_error parts k = Some ms /\ In x ms.
Proof.
  induction parts as [| ms parts IH]; simpl; [intros [] |].
  intros H. apply in_app_or in H. destruct H as [H | H].
  - exists 0, ms. split; [reflexivity | exact H].
  - destruct (IH H) as (k & ms' & Hnth & Hin). exists (S k), ms'. split; assumption.
Qed.

Section ActFacts.
Context `{HT : HostTypes} {JB : JsBuiltins} {MT : MomentTz}.

Lemma to_number_Ok (v : value) (n : number) :
  to_number v = Ok n <-> to_number_returns v = true /\ n = Number v.
Proof.
  unfold to_number. destruct (to_number_returns v); split.
  - intros [= <-]. split; reflexivity.
  - intros [_ ->]. reflexivity.
  - intros H. discriminate H.
  - intros [H _]. discriminate H.
Qed.

(** What the base of a row is made of, when it is made. *)
Lemma base_is_object (now : moment) (row : value) (source : Source.t) (base : value) :
  Act.baseMeasurement now row source = Ok base ->
  exists props gps date,
    row = Obj props
    /\ assoc "gps" props = Some gps /\ gps <> Null /\ gps <> Undefined
    /\ moment_tz now (field row "datetime") "Australia/Sydney" = Ok date
    /\ to_number_returns (field gps "latitude") = true
    /\ to_number_returns (field gps "longitude") = true
    /\ base = base_object (field row "name")
                (Obj [("utc", DateObj (toDate date)); ("local", Str (format date))])
                source (Number (field gps "latitude")) (Number (field gps "longitude")).
Proof.
  unfold Act.baseMeasurement, Act.parseDate, bind. intros H.
  destruct (Act.member row "name") as [location |] eqn:Hname; [| discriminate H].
  destruct (Act.member row "datetime") as [datetime |] eqn:Hdatetime; [| discriminate H].
  destruct (moment_tz now datetime "Australia/Sydney") as [date |] eqn:Hdate;
    [| discriminate H].
  destruct (Act.member row "gps") as [gps |] eqn:Hgps; [| discriminate H].
  destruct (Act.member gps "latitude") as [latitude |] eqn:Hla; [| discriminate H].
  destruct (to_number latitude) as [la |] eqn:Hlan; [| discriminate H].
  destruct (Act.member gps "longitude") as [longitude |] eqn:Hlo; [| discriminate H].
  destruct (to_number longitude) as [lo |] eqn:Hlon; [| discriminate H].
  injection H as <-.
  apply to_number_Ok in Hlan. destruct Hlan as [Hlar ->].
  apply to_number_Ok in Hlon. destruct Hlon as [Hlor ->].
  destruct row as [| | | | | | | | props]; simpl in Hgps; try discriminate Hgps;
    try (injection Hgps as <-; discriminate Hla).
  assert (Hfield : forall k x, Act.member (Obj props) k = Ok x -> x = field (Obj props) k).
  { intros k x Hx. simpl in Hx |- *. destruct (assoc k props); congruence. }
  apply Hfield in Hname. apply Hfield in Hdatetime. subst location datetime.
  assert (Hgps' : assoc "gps" props = Some gps /\ gps <> Null /\ gps <> Undefined).
  { destruct (assoc "gps" props) as [found |]; injection Hgps as <-.
    - split; [reflexivity |]. split; intros ->; discriminate Hla.
    - discriminate Hla. }
  destruct Hgps' as (Hfound & Hnull & Hundef).
  assert (Hgfield : forall k x, Act.member gps k = Ok x -> x = field gps k).
  { intros k x Hx. destruct gps; try contradiction; simpl in Hx |- *; try congruence.
    destruct (assoc k props0); congruence. }
  apply Hgfield in Hla. apply Hgfield in Hlo. subst latitude longitude.
  exists props, gps, date. repeat split; auto.
Qed.

(** And the base is made for a row that can be formatted. *)
Lemma base_of_valid (now : moment) (row : value) (source : Source.t) :
  valid_row now row -> exists base, Act.baseMeasurement now row source = Ok base.
Proof.
  intros (props & gps & -> & Hgps & Hnull & Hundef & Hdate & Hla & Hlo & _).
  unfold Act.baseMeasurement, Act.parseDate.
  assert (Hmember : forall k, Act.member (Obj props) k = Ok (field (Obj props) k)).
  { intros k. simpl. destruct (assoc k props); reflexivity. }
  assert (Hgmember : forall k, Act.member gps k = Ok (field gps k)).
  { intros k. destruct gps; try contradiction; simpl; try reflexivity.
    destruct (assoc k props0); reflexivity. }
  rewrite !Hmember. cbn [bind].
  destruct (moment_tz now (field (Obj props) "datetime") "Australia/Sydney") as [date |];
    [| contradiction]. cbn [bind].
  assert (Hfield : field (Obj props) "gps" = gps) by (simpl; rewrite Hgps; reflexivity).
  rewrite Hfield, !Hgmember. cbn [bind]. unfold to_number. rewrite Hla, Hlo. cbn [bind].
  eexists. reflexivity.
Qed.

Lemma key_not_inherited (type : string) :
  In type (Act.keys Act.types) -> existsb (String.eqb type) object_prototype = false.
Proof.
  simpl. intros H. decompose [or] H; subst; try contradiction; reflexivity.
Qed.

(** The keys of [types] an object has are its own. *)
Lemma has_property_own (type : string) (props : list (string * value)) :
  In type (Act.keys Act.types) ->
  Act.has_property type (Obj props) = Ok (has_own type (Obj props)).
Proof.
  intros Hin. unfold Act.has_property, has_own. destruct (assoc type props); [reflexivity |].
  rewrite (key_not_inherited type Hin). reflexivity.
Qed.

(** The loop over the keys of [types], on an object: when it returns,
    it has appended the measurement of each key the object has, and
    what those keys hold could be converted. *)
Lemma on_types_exact (props : list (string * value)) (base : value) (l : list string) :
  incl l (Act.keys Act.types) ->
  forall acc acc',
    forEach (Act.on_type (Obj props) base) l acc = Ok acc' ->
    acc' = acc ++ map (fun type => made_from base type (Number (field (Obj props) type)))
                      (filter (fun type => has_own type (Obj props)) l)
    /\ forall type, In type l -> has_own type (Obj props) = true ->
                    to_number_returns (field (Obj props) type) = true.
Proof.
  induction l as [| type l IH]; intros Hincl acc acc' H; simpl in H.
  - injection H as <-. simpl. rewrite app_nil_r. split; [reflexivity | intros t []].
  - assert (Hkey : In type (Act.keys Act.types)) by (apply Hincl; left; reflexivity).
    assert (Hrest : incl l (Act.keys Act.types))
      by (intros t Ht; apply Hincl; right; exact Ht).
    unfold Act.on_type at 1 in H. rewrite (has_property_own type props Hkey) in H.
    cbn [bind] in H. cbn [filter].
    assert (Hmember : Act.member (Obj props) type = Ok (field (Obj props) type)).
    { simpl. destruct (assoc type props); reflexivity. }
    destruct (has_own type (Obj props)) eqn:Hown.
    + rewrite Hmember in H. cbn [bind] in H. unfold to_number in H.
      destruct (to_number_returns (field (Obj props) type)) eqn:Hreturns;
        [| discriminate H].
      cbn [bind] in H. destruct (IH Hrest _ acc' H) as [-> Hall].
      rewrite <- app_assoc. split; [reflexivity |].
      intros t [<- | Ht] Ht'; [exact Hreturns | exact (Hall t Ht Ht')].
    + cbn [bind] in H. destruct (IH Hrest acc acc' H) as [-> Hall].
      split; [reflexivity |].
      intros t [<- | Ht] Ht'; [congruence | exact (Hall t Ht Ht')].
Qed.

Lemma on_types_return (props : list (string * value)) (base : value) (l : list string) :
  incl l (Act.keys Act.types) ->
  (forall type, In type l -> has_own type (Obj props) = true ->
                to_number_returns (field (Obj props) type) = true) ->
  forall acc, exists acc', forEach (Act.on_type (Obj props) base) l acc = Ok acc'.
Proof.
  induction l as [| type l IH]; intros Hincl Hall acc; simpl.
  - eexists. reflexivity.
  - assert (Hkey : In type (Act.keys Act.types)) by (apply Hincl; left; reflexivity).
    assert (Hrest : incl l (Act.keys Act.types))
      by (intros t Ht; apply Hincl; right; exact Ht).
    unfold Act.on_type at 1. rewrite (has_property_own type props Hkey). cbn [bind].
    assert (Hmember : Act.member (Obj props) type = Ok (field (Obj props) type)).
    { simpl. destruct (assoc type props); reflexivity. }
    destruct (has_own type (Obj props)) eqn:Hown.
    + rewrite Hmember. cbn [bind]. unfold to_number.
      rewrite (Hall type (or_introl eq_refl) Hown). cbn [bind].
      apply IH; [exact Hrest |]. intros t Ht. apply Hall. right. exact Ht.
    + cbn [bind]. apply IH; [exact Hrest |]. intros t Ht. apply Hall. right. exact Ht.
Qed.

(** What a row appends, when its handling returns: the measurements of
    the row, made from its base; and the row could be formatted. *)
Lemma on_row_exact (source : Source.t) (acc : list value) (index : nat) (row : value)
    (acc' : list value) :
  Act.on_row source acc index row = Ok acc' ->
  exists base,
    Act.baseMeasurement (clock index) row source = Ok base
    /\ valid_row (clock index) row
    /\ acc' = acc ++ row_measurements base row
    /\ forall acc2, Act.on_row source acc2 index row = Ok (acc2 ++ row_measurements base row).
Proof.
  unfold Act.on_row. intros H.
  destruct (Act.baseMeasurement (clock index) row source) as [base |] eqn:Hbase;
    [| discriminate H].
  cbn [bind] in H. exists base. split; [reflexivity |].
  destruct (base_is_object _ _ _ _ Hbase)
    as (props & gps & date & -> & Hgps & Hnull & Hundef & Hdate & Hla & Hlo & _).
  destruct (on_types_exact props base (Act.keys Act.types) (incl_refl _) acc acc' H)
    as [-> Hall].
  split; [| split; [reflexivity |]].
  - exists props, gps. repeat split; auto. rewrite Hdate. discriminate.
  - intros acc2. cbn [bind].
    destruct (on_types_return props base (Act.keys Act.types) (incl_refl _) Hall acc2)
      as (acc2' & Hrun).
    rewrite Hrun. destruct (on_types_exact props base _ (incl_refl _) acc2 acc2' Hrun)
      as [-> _].
    reflexivity.
Qed.

Lemma on_row_of_valid (source : Source.t) (acc : list value) (index : nat) (row : value) :
  valid_row (clock index) row -> exists acc', Act.on_row source acc index row = Ok acc'.
Proof.
  intros Hvalid. destruct (base_of_valid (clock index) row source Hvalid) as (base & Hbase).
  destruct Hvalid as (props & gps & -> & _ & _ & _ & _ & _ & _ & Hall).
  unfold Act.on_row. rewrite Hbase. cbn [bind].
  exact (on_types_return props base (Act.keys Act.types) (incl_refl _) Hall acc).
Qed.

Lemma made_from_is_object (base : value) (type : string) (n : number) :
  (exists props, base = Obj props) -> exists props, made_from base type n = Obj props.
Proof.
  intros (props & ->). eexists. reflexivity.
Qed.

Lemma flatten_objects (ms : list value) :
  Forall (fun m => exists props, m = Obj props) ms -> Act.flatten ms = ms.
Proof.
  induction 1 as [| m ms (props & ->) _ IH]; [reflexivity |].
  unfold Act.flatten in *. simpl. rewrite IH. reflexivity.
Qed.

Lemma row_measurements_objects (base row : value) :
  (exists props, base = Obj props) ->
  Forall (fun m => exists props, m = Obj props) (row_measurements base row).
Proof.
  intros Hbase. unfold row_measurements. apply Forall_forall. intros m Hm.
  apply in_map_iff in Hm. destruct Hm as (type & <- & _).
  apply made_from_is_object. exact Hbase.
Qed.

(** The result of [formatData] is [{name: 'unused', measurements}],
    where the measurements are those of the first row, then those of
    the second, and so on, each row handled at its place. *)
Lemma formatData_per_row (data : value) (source : Source.t) (r : value) :
  Act.formatData data source = Ok r ->
  exists rows per_row,
    data = Arr rows
    /\ r = Obj [("name", Str "unused"); ("measurements", Arr (concat per_row))]
    /\ length per_row = length rows
    /\ forall index row, nth_error rows index = Some row ->
         exists base,
           Act.baseMeasurement (clock index) row source = Ok base
           /\ valid_row (clock index) row
           /\ nth_error per_row index = Some (row_measurements base row)
           /\ forall acc, Act.on_row source acc index row
                          = Ok (acc ++ row_measurements base row).
Proof.
  intros H. destruct data as [| | | | | | | rows |]; simpl in H; try discriminate H.
  destruct (each (Act.on_row source) rows []) as [ms |] eqn:Hrun; [| discriminate H].
  cbn [bind] in H. injection H as <-. unfold each in Hrun.
  destruct (each_from_parts (Act.on_row source)
              (fun index row ms =>
                 exists base,
                   Act.baseMeasurement (clock index) row source = Ok base
                   /\ valid_row (clock index) row
                   /\ ms = row_measurements base row
                   /\ forall acc, Act.on_row source acc index row
                                  = Ok (acc ++ row_measurements base row))
              rows 0) with (acc := @nil value) (acc' := ms)
    as (per_row & Hlen & -> & Hparts).
  - intros acc k row acc' _ Hstep.
    destruct (on_row_exact source acc (0 + k) row acc' Hstep)
      as (base & Hbase & Hvalid & -> & Hany).
    exists (row_measurements base row). split; [reflexivity |].
    exists base. auto.
  - exact Hrun.
  - exists rows, per_row. split; [reflexivity |]. simpl app.
    rewrite flatten_objects.
    + split; [reflexivity |]. split; [exact Hlen |].
      intros index row Hrow.
      destruct (Hparts index row Hrow) as (ms & Hnth & base & Hbase & Hvalid & -> & Hany).
      exists base. auto.
    + apply Forall_forall. intros m Hm.
      destruct (concat_member per_row m Hm) as (k & ms & Hnth & Hin).
      assert (Hk : k < length rows).
      { rewrite <- Hlen. apply nth_error_Some. rewrite Hnth. discriminate. }
      destruct (nth_error rows k) as [row |] eqn:Hrow;
        [| apply nth_error_None in Hrow; lia].
      destruct (Hparts k row Hrow) as (ms' & Hnth' & base & Hbase & _ & -> & _).
      rewrite Hnth in Hnth'. injection Hnth' as ->.
      destruct (base_is_object _ _ _ _ Hbase) as (? & ? & ? & _ & _ & _ & _ & _ & _ & _ & Hb).
      assert (Hobj : Forall (fun m => exists props, m = Obj props)
                            (row_measurements base row)).
      { apply row_measurements_objects. rewrite Hb. eexists. reflexivity. }
      rewrite Forall_forall in Hobj. exact (Hobj m Hin).
Qed.

(** A measurement of the row at [index], as the row's list has it. *)
Lemma row_measurements_emitted (source : Source.t) (index : nat) (row base : value) :
  Act.baseMeasurement (clock index) row source = Ok base ->
  valid_row (clock index) row ->
  Forall (emitted_at source index row) (row_measurements base row).
Proof.
  intros Hbase (props & gps & -> & _ & _ & _ & _ & _ & _ & Hall).
  unfold row_measurements. apply Forall_forall. intros m Hm.
  apply in_map_iff in Hm. destruct Hm as (type & <- & Htype).
  apply filter_In in Htype. destruct Htype as [Hkey Hown].
  exists base, type, (field (Obj props) type).
  split; [exact Hbase |]. split; [exact Hkey |].
  split; [rewrite (has_property_own type props Hkey), Hown; reflexivity |].
  split; [simpl; destruct (assoc type props); reflexivity |].
  split; [exact (Hall type Hkey Hown) | reflexivity].
Qed.

(** Each measurement [formatData] returns was made from one of the rows. *)
Lemma formatData_emits (data : value) (source : Source.t) (r : value) :
  Act.formatData data source = Ok r ->
  exists rows ms,
    data = Arr rows
    /\ r = Obj [("name", Str "unused"); ("measurements", Arr ms)]
    /\ Forall (emitted source rows) ms.
Proof.
  intros H. destruct (formatData_per_row data source r H)
    as (rows & per_row & -> & -> & Hlen & Hrows).
  exists rows, (concat per_row). split; [reflexivity |]. split; [reflexivity |].
  apply Forall_forall. intros m Hm.
  destruct (concat_member per_row m Hm) as (k & ms & Hnth & Hin).
  assert (Hk : k < length rows).
  { rewrite <- Hlen. apply nth_error_Some. rewrite Hnth. discriminate. }
  destruct (nth_error rows k) as [row |] eqn:Hrow; [| apply nth_error_None in Hrow; lia].
  destruct (Hrows k row Hrow) as (base & Hbase & Hvalid & Hnth' & _).
  rewrite Hnth in Hnth'. injection Hnth' as ->.
  pose proof (row_measurements_emitted source k row base Hbase Hvalid) as Hall.
  rewrite Forall_forall in Hall. exists k, row. split; [exact Hrow | exact (Hall m Hin)].
Qed.


Lemma row_measurements_fields (location date : value) (source : Source.t)
    (latitude longitude : number) (row : value) :
  Forall (fun m =>
            field m "location" = location
            /\ field m "date" = date
            /\ field m "sourceName" = Str (Source.name source)
            /\ field m "coordinates"
               = Obj [("latitude", Num latitude); ("longitude", Num longitude)])
         (row_measurements (base_object location date source latitude longitude) row).
Proof.
  unfold row_measurements. apply Forall_forall. intros m Hm.
  apply in_map_iff in Hm. destruct Hm as (type & <- & _).
  repeat split; reflexivity.
Qed.

End ActFacts.

Section ActClaims.
Context `{HT : HostTypes} {JB : JsBuiltins} {MT : MomentTz}.


End ActClaims.

(* ===================================================================== *)
(** ** The NSW adapter: the shortest averaging period *)
(* ===================================================================== *)

Lemma findIndex_Some {A : Type} (p : A -> bool) (l : list A) (i : nat) :
  findIndex p l = Some i ->
  exists l1 a l2,
    l = l1 ++ a :: l2 /\ length l1 = i /\ p a = true
    /\ Forall (fun b => p b = false) l1 /\ nth_error l i = Some a.
Proof.
  revert i. induction l as [| b l IH]; intros i H; simpl in H; [discriminate |].
  destruct (p b) eqn:Hb.
  - injection H as <-. exists [], b, l. repeat split; auto.
  - destruct (findIndex p l) as [j |]; [| discriminate]. injection H as <-.
    destruct (IH j eq_refl) as (l1 & a & l2 & -> & Hlen & Ha & Hall & Hnth).
    exists (b :: l1), a, l2. simpl. repeat split; auto.
Qed.

Lemma findIndex_None {A : Type} (p : A -> bool) (l : list A) :
  findIndex p l = None -> Forall (fun b => p b = false) l.
Proof.
  induction l as [| b l IH]; intros H; simpl in H; [constructor |].
  destruct (p b) eqn:Hb; [discriminate |].
  destruct (findIndex p l); [discriminate |]. constructor; auto.
Qed.

Lemma splice1_middle {A : Type} (l1 : list A) (a : A) (l2 : list A) :
  splice1 (length l1) (l1 ++ a :: l2) = l1 ++ l2.
Proof.
  induction l1 as [| b l1 IH]; simpl; [reflexivity | rewrite IH; reflexivity].
Qed.

Lemma splice1_app {A : Type} (i : nat) (l l' : list A) :
  i < length l -> splice1 i (l ++ l') = splice1 i l ++ l'.
Proof.
  revert i. induction l as [| a l IH]; intros i Hi; simpl in Hi; [lia |].
  destruct i as [| i]; simpl; [reflexivity |]. rewrite IH by lia. reflexivity.
Qed.

Lemma splice1_incl {A : Type} (i : nat) (l : list A) (x : A) :
  In x (splice1 i l) -> In x l.
Proof.
  revert i. induction l as [| a l IH]; intros [| i] H; simpl in H; try contradiction.
  - right. exact H.
  - destruct H as [<- | H]; [left; reflexivity | right; exact (IH i H)].
Qed.

Lemma NoDup_map_unique {A B : Type} (f : A -> B) (l : list A) (a b : A) :
  NoDup (map f l) -> In a l -> In b l -> f a = f b -> a = b.
Proof.
  induction l as [| c l IH]; intros Hnd Ha Hb Hf; [contradiction |].
  simpl in Hnd. inversion Hnd as [| ? ? Hnotin Hnd']; subst.
  destruct Ha as [-> | Ha], Hb as [-> | Hb].
  - reflexivity.
  - exfalso. apply Hnotin. rewrite Hf. apply in_map. exact Hb.
  - exfalso. apply Hnotin. rewrite <- Hf. apply in_map. exact Ha.
  - apply IH; assumption.
Qed.

Section Shortest.
Context `{HT : HostTypes} {JB : JsBuiltins}.

Lemma matches_pair (m x : Nsw.Measurement.t) :
  Nsw.matches m x = true <-> pair_of x = pair_of m.
Proof.
  unfold Nsw.matches, pair_of. rewrite andb_true_iff, !String.eqb_eq. split.
  - intros [-> ->]. reflexivity.
  - intros [= -> ->]. auto.
Qed.

Lemma matches_false (m x : Nsw.Measurement.t) :
  Nsw.matches m x = false <-> pair_of x <> pair_of m.
Proof.
  rewrite <- matches_pair. destruct (Nsw.matches m x); split; congruence.
Qed.

(** [<] on numbers is a strict order: true of IEEE doubles, NaN included. *)
Hypothesis ltb_irrefl : forall x : number, num_ltb x x = false.
Hypothesis ltb_trans :
  forall x y z : number, num_ltb x y = true -> num_ltb y z = true -> num_ltb x z = true.

Lemma kept_nil : kept [] [].
Proof.
  repeat split; [constructor | intros x [] | intros m []].
Qed.

Lemma keep_shortest_kept (seen final : list Nsw.Measurement.t) (m : Nsw.Measurement.t) :
  kept seen final ->
  exists final', Nsw.keep_shortest final m = Ok final' /\ kept (seen ++ [m]) final'.
Proof.
  intros (Hnd & Hincl & Hmin). unfold Nsw.keep_shortest.
  destruct (findIndex (Nsw.matches m) final) as [i |] eqn:Hfind.
  - destruct (findIndex_Some _ _ _ Hfind) as (l1 & found & l2 & -> & Hlen & Hfound & _ & Hnth).
    rewrite Hnth. apply matches_pair in Hfound.
    assert (Hrep : forall r, In r (l1 ++ found :: l2) -> pair_of r = pair_of m -> r = found).
    { intros r Hr Hp. apply (NoDup_map_unique pair_of (l1 ++ found :: l2)); auto.
      - apply in_elt.
      - congruence. }
    destruct (num_ltb (Nsw.period m) (Nsw.period found)) eqn:Hlt.
    + (* the new measurement replaces the one found *)
      exists (l1 ++ l2 ++ [m]). split.
      { subst i. rewrite <- app_assoc. simpl. rewrite splice1_middle. reflexivity. }
      rewrite map_app in Hnd. simpl in Hnd.
      pose proof (NoDup_remove_1 _ _ _ Hnd) as Hnd1.
      pose proof (NoDup_remove_2 _ _ _ Hnd) as Hnotin.
      repeat split.
      * rewrite app_assoc, map_app. simpl. apply NoDup_app.
        -- rewrite map_app. exact Hnd1.
        -- constructor; [intros [] | constructor].
        -- intros p Hp [<- | []]. apply Hnotin. rewrite Hfound, <- map_app. exact Hp.
      * intros r Hr. rewrite app_assoc in Hr. apply in_app_or in Hr.
        apply in_or_app. destruct Hr as [Hr | Hr]; [left | right; exact Hr].
        apply Hincl. apply in_app_or in Hr. apply in_or_app.
        destruct Hr; [left | right; right]; assumption.
      * intros m0 Hm0. apply in_app_or in Hm0.
        destruct (Nsw.matches m m0) eqn:Hmm0.
        -- apply matches_pair in Hmm0. exists m. split; [| split].
           ++ rewrite app_assoc. apply in_or_app. right. left. reflexivity.
           ++ congruence.
           ++ intros m' Hm' Hp. apply in_app_or in Hm'. destruct Hm' as [Hm' | [<- | []]].
              ** destruct (Hmin m' Hm') as (r & Hr & Hrp & Hrmin).
                 assert (r = found) by (apply Hrep; [exact Hr | congruence]). subst r.
                 specialize (Hrmin m' Hm' eq_refl).
                 destruct (num_ltb (Nsw.period m') (Nsw.period m)) eqn:Hlt'; [| reflexivity].
                 rewrite (ltb_trans _ _ _ Hlt' Hlt) in Hrmin. discriminate.
              ** apply ltb_irrefl.
        -- apply matches_false in Hmm0.
           destruct Hm0 as [Hm0 | [<- | []]]; [| congruence].
           destruct (Hmin m0 Hm0) as (r & Hr & Hrp & Hrmin).
           exists r. split; [| split].
           ++ apply in_app_or in Hr. rewrite app_assoc. apply in_or_app. left.
              apply in_or_app. destruct Hr as [Hr | [<- | Hr]]; auto. congruence.
           ++ exact Hrp.
           ++ intros m' Hm' Hp. apply in_app_or in Hm'. destruct Hm' as [Hm' | [<- | []]].
              ** apply Hrmin; assumption.
              ** congruence.
    + (* the one found stays *)
      exists (l1 ++ found :: l2). split; [reflexivity |]. repeat split.
      * exact Hnd.
      * intros r Hr. apply in_or_app. left. apply Hincl. exact Hr.
      * intros m0 Hm0. apply in_app_or in Hm0. destruct Hm0 as [Hm0 | [<- | []]].
        -- destruct (Hmin m0 Hm0) as (r & Hr & Hrp & Hrmin).
           exists r. split; [exact Hr | split; [exact Hrp |]].
           intros m' Hm' Hp. apply in_app_or in Hm'. destruct Hm' as [Hm' | [<- | []]].
           ++ apply Hrmin; assumption.
           ++ assert (r = found) by (apply Hrep; [exact Hr | congruence]). subst r.
              exact Hlt.
        -- exists found. split; [apply in_elt | split; [exact Hfound |]].
           intros m' Hm' Hp. apply in_app_or in Hm'. destruct Hm' as [Hm' | [<- | []]].
           ++ destruct (Hmin m' Hm') as (r & Hr & Hrp & Hrmin).
              assert (r = found) by (apply Hrep; [exact Hr | congruence]). subst r.
              apply Hrmin; [exact Hm' | reflexivity].
           ++ exact Hlt.
  - (* the first measurement of its pair *)
    pose proof (findIndex_None _ _ Hfind) as Hnone. rewrite Forall_forall in Hnone.
    exists (final ++ [m]). split; [reflexivity |]. repeat split.
    + rewrite map_app. simpl. apply NoDup_app.
      * exact Hnd.
      * constructor; [intros [] | constructor].
      * intros p Hp [<- | []]. apply in_map_iff in Hp. destruct Hp as (r & Hrp & Hr).
        specialize (Hnone r Hr). apply matches_false in Hnone. congruence.
    + intros r Hr. apply in_app_or in Hr. apply in_or_app.
      destruct Hr as [Hr | Hr]; [left; apply Hincl; exact Hr | right; exact Hr].
    + assert (Hfresh : forall m0, In m0 seen -> pair_of m0 <> pair_of m).
      { intros m0 Hm0 Hp. destruct (Hmin m0 Hm0) as (r & Hr & Hrp & _).
        specialize (Hnone r Hr). apply matches_false in Hnone. congruence. }
      intros m0 Hm0. apply in_app_or in Hm0. destruct Hm0 as [Hm0 | [<- | []]].
      * destruct (Hmin m0 Hm0) as (r & Hr & Hrp & Hrmin).
        exists r. split; [apply in_or_app; left; exact Hr | split; [exact Hrp |]].
        intros m' Hm' Hp. apply in_app_or in Hm'. destruct Hm' as [Hm' | [<- | []]].
        -- apply Hrmin; assumption.
        -- exfalso. apply (Hfresh m0 Hm0). congruence.
      * exists m. split; [apply in_or_app; right; left; reflexivity | split; [reflexivity |]].
        intros m' Hm' Hp. apply in_app_or in Hm'. destruct Hm' as [Hm' | [<- | []]].
        -- exfalso. apply (Hfresh m' Hm'). exact Hp.
        -- apply ltb_irrefl.
Qed.

Lemma earliest_later (seen : list Nsw.Measurement.t) (r m : Nsw.Measurement.t) :
  earliest seen r -> earliest (seen ++ [m]) r.
Proof.
  intros (before & after & -> & Hbefore). exists before, (after ++ [m]).
  rewrite <- app_assoc. split; [reflexivity | exact Hbefore].
Qed.

Lemma keep_shortest_earliest (seen final : list Nsw.Measurement.t) (m : Nsw.Measurement.t)
    (final' : list Nsw.Measurement.t) :
  kept seen final ->
  Forall (earliest seen) final ->
  Nsw.keep_shortest final m = Ok final' ->
  Forall (earliest (seen ++ [m])) final'.
Proof.
  intros (Hnd & Hincl & Hmin) Hear H. unfold Nsw.keep_shortest in H.
  assert (Hold : Forall (earliest (seen ++ [m])) final).
  { apply Forall_impl with (2 := Hear). intros r Hr. apply earliest_later. exact Hr. }
  destruct (findIndex (Nsw.matches m) final) as [i |] eqn:Hfind.
  - destruct (findIndex_Some _ _ _ Hfind) as (l1 & found & l2 & Hfinal & _ & Hfound & _ & Hnth).
    rewrite Hnth in H. apply matches_pair in Hfound.
    destruct (num_ltb (Nsw.period m) (Nsw.period found)) eqn:Hlt;
      injection H as <-; [| exact Hold].
    apply Forall_forall. intros x Hx. apply splice1_incl in Hx. apply in_app_or in Hx.
    destruct Hx as [Hx | [<- | []]].
    + rewrite Forall_forall in Hold. exact (Hold x Hx).
    + exists seen, []. split; [reflexivity |]. intros x Hx Hp Hper.
      destruct (Hmin x Hx) as (r & Hr & Hrp & Hrmin).
      assert (r = found).
      { apply (NoDup_map_unique pair_of final); auto.
        - rewrite Hfinal. apply in_elt.
        - congruence. }
      subst r. specialize (Hrmin x Hx eq_refl). rewrite Hper in Hrmin. congruence.
  - injection H as <-. apply Forall_app. split; [exact Hold |].
    constructor; [| constructor]. exists seen, []. split; [reflexivity |].
    intros x Hx Hp _. destruct (Hmin x Hx) as (r & Hr & Hrp & _).
    pose proof (findIndex_None _ _ Hfind) as Hnone. rewrite Forall_forall in Hnone.
    specialize (Hnone r Hr). apply matches_false in Hnone. congruence.
Qed.

Lemma forEach_earliest (ms seen final : list Nsw.Measurement.t) :
  kept seen final ->
  Forall (earliest seen) final ->
  forall final', forEach Nsw.keep_shortest ms final = Ok final' ->
                 Forall (earliest (seen ++ ms)) final'.
Proof.
  revert seen final. induction ms as [| m ms IH]; intros seen final Hkept Hear final' H;
    simpl in H.
  - injection H as <-. rewrite app_nil_r. exact Hear.
  - destruct (keep_shortest_kept seen final m Hkept) as (final1 & Hstep & Hkept1).
    rewrite Hstep in H. simpl in H.
    replace (seen ++ m :: ms) with ((seen ++ [m]) ++ ms)
      by (rewrite <- app_assoc; reflexivity).
    apply (IH (seen ++ [m]) final1 Hkept1); [| exact H].
    exact (keep_shortest_earliest seen final m final1 Hkept Hear Hstep).
Qed.

Lemma forEach_keep_shortest (ms seen final : list Nsw.Measurement.t) :
  kept seen final ->
  exists final', forEach Nsw.keep_shortest ms final = Ok final' /\ kept (seen ++ ms) final'.
Proof.
  revert seen final. induction ms as [| m ms IH]; intros seen final Hkept; simpl.
  - exists final. rewrite app_nil_r. split; [reflexivity | exact Hkept].
  - destruct (keep_shortest_kept seen final m Hkept) as (final1 & -> & Hkept1). simpl.
    destruct (IH (seen ++ [m]) final1 Hkept1) as (final' & Hrun & Hkept').
    exists final'. rewrite <- app_assoc in Hkept'. split; assumption.
Qed.

End Shortest.

(** Dropping entries keeps their keys distinct. *)
Lemma distinct_keys_filter {Key Item : Type} (key : Item -> Key) (keep : Item -> bool) :
  forall items : list Item,
    NoDup (map key items) -> NoDup (map key (filter keep items)).
Proof.
  intros items. induction items as [| item items IH]; intros Hdistinct; [exact Hdistinct |].
  apply NoDup_cons_iff in Hdistinct. destruct Hdistinct as [Hfresh Hrest].
  cbn [filter]. destruct (keep item); [| exact (IH Hrest)].
  cbn [map]. apply NoDup_cons; [| exact (IH Hrest)].
  intros Hkey. apply Hfresh. apply in_map_iff in Hkey.
  destruct Hkey as (other & Hsame & Hother). apply filter_In in Hother.
  rewrite <- Hsame. apply in_map. exact (proj1 Hother).
Qed.

Section ShortestClaims.
Context `{HT : HostTypes} {JB : JsBuiltins} {MT : MomentTz} {CH : Cheerio} {UT : Utils}.

Hypothesis ltb_irrefl : forall x : number, num_ltb x x = false.
Hypothesis ltb_trans :
  forall x y z : number, num_ltb x y = true -> num_ltb y z = true -> num_ltb x z = true.

(** C1.  The pass over the accumulated measurements never throws.  Its
    result has one entry per (location, parameter) pair of the
    measurements, each taken from them, and no measurement of a pair
    has an averaging period shorter than the entry retained for the
    pair.  In particular, of two measurements of one pair of which the
    first has the shorter period (1 hour against 24 hours, say), only
    the first survives, in whichever order the two come.  [formatData]
    runs the pass on the measurements it has accumulated from the rows
    of the table: what it returns, after the filter by parameter and the
    conversion of units that follow the pass, has one entry per pair at
    most; each entry is the conversion of an accumulated measurement
    than which no accumulated measurement of its pair has a shorter
    period; and every accumulated measurement whose parameter passes the
    filter has its pair in the result, with a period that no accumulated
    measurement of the pair undercuts. *)
Theorem shortest_period_retained :
  (forall measurements : list Nsw.Measurement.t,
      exists final,
        Nsw.finalMeasurements measurements = Ok final
        /\ NoDup (map pair_of final)
        /\ incl final measurements
        /\ forall m, In m measurements ->
             exists r, In r final /\ pair_of r = pair_of m
                       /\ forall m', In m' measurements -> pair_of m' = pair_of m ->
                                     num_ltb (Nsw.period m') (Nsw.period r) = false)
  /\ (forall a b : Nsw.Measurement.t,
         pair_of a = pair_of b ->
         num_ltb (Nsw.period a) (Nsw.period b) = true ->
         Nsw.finalMeasurements [a; b] = Ok [a]
         /\ Nsw.finalMeasurements [b; a] = Ok [a])
  /\ (forall (body_ : string) (d : Nsw.Data.t),
         Nsw.formatData body_ = Ok d ->
         exists ts accumulated,
           Nsw.parseDate (td_date (cheerio_load body_)) = Ok ts
           /\ each (Nsw.on_tr ts) (table_aqi_tr (cheerio_load body_)) Nsw.initial
              = Ok accumulated
           /\ NoDup (map pair_of (Nsw.Data.measurements d))
           /\ (forall r, In r (Nsw.Data.measurements d) ->
                 exists m,
                   In m (Nsw.measurements accumulated)
                   /\ r = Nsw.converted m
                   /\ forall m', In m' (Nsw.measurements accumulated) ->
                                 pair_of m' = pair_of m ->
                                 num_ltb (Nsw.period m') (Nsw.period m) = false)
           /\ (forall m, In m (Nsw.measurements accumulated) ->
                 acceptable (Nsw.Measurement.parameter m) = true ->
                 exists r,
                   In r (Nsw.Data.measurements d)
                   /\ pair_of r = pair_of m
                   /\ forall m', In m' (Nsw.measurements accumulated) ->
                                 pair_of m' = pair_of m ->
                                 num_ltb (Nsw.period m') (Nsw.period r) = false)).
Proof.
  split; [| split].
  - intros measurements.
    destruct (forEach_keep_shortest ltb_irrefl ltb_trans measurements [] [] kept_nil)
      as (final & Hrun & Hnd & Hincl & Hmin).
    exists final. auto.
  - intros a b Hp Hlt.
    assert (Hab : Nsw.matches b a = true) by (apply matches_pair; exact Hp).
    assert (Hba : Nsw.matches a b = true) by (apply matches_pair; congruence).
    assert (Hgt : num_ltb (Nsw.period b) (Nsw.period a) = false).
    { destruct (num_ltb (Nsw.period b) (Nsw.period a)) eqn:E; [| reflexivity].
      rewrite <- (ltb_irrefl (Nsw.period a)). symmetry.
      exact (ltb_trans _ _ _ Hlt E). }
    unfold Nsw.finalMeasurements, Nsw.keep_shortest. simpl.
    rewrite Hab, Hba. simpl. rewrite Hlt, Hgt. split; reflexivity.
  - intros body_ d H. unfold Nsw.formatData in H.
    destruct (Nsw.parseDate (td_date (cheerio_load body_))) as [ts |] eqn:Hts;
      [| discriminate H].
    cbn [bind] in H.
    destruct (each (Nsw.on_tr ts) (table_aqi_tr (cheerio_load body_)) Nsw.initial)
      as [st |] eqn:Hst; [| discriminate H].
    cbn [bind] in H.
    destruct (forEach_keep_shortest ltb_irrefl ltb_trans (Nsw.measurements st) [] [] kept_nil)
      as (final & Hrun & Hnd & Hincl & Hmin).
    unfold Nsw.finalMeasurements in H. rewrite Hrun in H. cbn [bind] in H.
    injection H as <-. cbn [Nsw.Data.measurements app] in *.
    exists ts, st. split; [reflexivity |]. split; [exact Hst |].
    unfold Nsw.convertUnits, Nsw.removeUnwantedParameters.
    assert (Hsole : forall x y, In x final -> In y final -> pair_of x = pair_of y -> x = y).
    { intros x y Hx Hy Hp. exact (NoDup_map_unique pair_of final x y Hnd Hx Hy Hp). }
    split; [| split].
    + rewrite map_map. change (fun x => pair_of (Nsw.converted x)) with pair_of.
      apply distinct_keys_filter. exact Hnd.
    + intros r Hr. apply in_map_iff in Hr. destruct Hr as (m & <- & Hm).
      apply filter_In in Hm. destruct Hm as [Hm _].
      exists m. split; [exact (Hincl m Hm) |]. split; [reflexivity |].
      intros m' Hm' Hp.
      destruct (Hmin m (Hincl m Hm)) as (r & Hr & Hrp & Hrmin).
      rewrite <- (Hsole r m Hr Hm Hrp). apply Hrmin; [exact Hm' | exact Hp].
    + intros m Hm Hok.
      destruct (Hmin m Hm) as (r & Hr & Hrp & Hrmin).
      exists (Nsw.converted r). split; [| split].
      * apply in_map. apply filter_In. split; [exact Hr |].
        unfold pair_of in Hrp. injection Hrp as _ Hparam. rewrite Hparam. exact Hok.
      * exact Hrp.
      * exact Hrmin.
Qed.

(** C10, as amended.  A measurement that has the pair and the averaging
    period of the entry found for it is dropped, and the entry stays,
    the comparison being strict: the later of two measurements of a pair
    with equal periods never changes the result, the entry in the result
    is the earliest of the measurements of its pair that have its
    period, and of two such measurements alone the earlier is kept.
    When the period of the measurement is shorter than the entry's, the
    measurement is added at the end of the list and the entry is taken
    out of its place: the entries after it move up, and the measurement
    is last. *)
Theorem equal_periods_keep_the_earliest :
  (forall (final : list Nsw.Measurement.t) (m : Nsw.Measurement.t) (i : nat)
          (found : Nsw.Measurement.t),
      findIndex (Nsw.matches m) final = Some i ->
      nth_error final i = Some found ->
      Nsw.period m = Nsw.period found ->
      Nsw.keep_shortest final m = Ok final)
  /\ (forall (l1 : list Nsw.Measurement.t) (m1 : Nsw.Measurement.t)
             (l2 : list Nsw.Measurement.t) (m2 : Nsw.Measurement.t)
             (l3 : list Nsw.Measurement.t),
         pair_of m1 = pair_of m2 ->
         Nsw.period m1 = Nsw.period m2 ->
         Nsw.finalMeasurements (l1 ++ m1 :: l2 ++ m2 :: l3)
         = Nsw.finalMeasurements (l1 ++ m1 :: l2 ++ l3))
  /\ (forall measurements final : list Nsw.Measurement.t,
         Nsw.finalMeasurements measurements = Ok final ->
         Forall (earliest measurements) final)
  /\ (forall m1 m2 : Nsw.Measurement.t,
         pair_of m1 = pair_of m2 ->
         Nsw.period m1 = Nsw.period m2 ->
         Nsw.finalMeasurements [m1; m2] = Ok [m1])
  /\ (forall (final : list Nsw.Measurement.t) (m : Nsw.Measurement.t) (i : nat)
             (found : Nsw.Measurement.t),
         findIndex (Nsw.matches m) final = Some i ->
         nth_error final i = Some found ->
         num_ltb (Nsw.period m) (Nsw.period found) = true ->
         Nsw.keep_shortest final m = Ok (splice1 i final ++ [m])
         /\ last (splice1 i final ++ [m]) found = m)
  /\ (forall a b c : Nsw.Measurement.t,
         pair_of b <> pair_of a ->
         pair_of c = pair_of a ->
         num_ltb (Nsw.period c) (Nsw.period a) = true ->
         Nsw.finalMeasurements [a; b; c] = Ok [b; c]).
Proof.
  split; [| split; [| split; [| split; [| split]]]].
  - intros final m i found Hfind Hnth Hper. unfold Nsw.keep_shortest.
    rewrite Hfind, Hnth, Hper, ltb_irrefl. reflexivity.
  - intros l1 m1 l2 m2 l3 Hp Hper. unfold Nsw.finalMeasurements.
    replace (l1 ++ m1 :: l2 ++ m2 :: l3) with ((l1 ++ m1 :: l2) ++ m2 :: l3)
      by (rewrite <- app_assoc; reflexivity).
    replace (l1 ++ m1 :: l2 ++ l3) with ((l1 ++ m1 :: l2) ++ l3)
      by (rewrite <- app_assoc; reflexivity).
    rewrite (forEach_app _ (l1 ++ m1 :: l2) (m2 :: l3)).
    rewrite (forEach_app _ (l1 ++ m1 :: l2) l3).
    destruct (forEach_keep_shortest ltb_irrefl ltb_trans (l1 ++ m1 :: l2) [] [] kept_nil)
      as (final & -> & Hnd & Hincl & Hmin).
    simpl. simpl in Hmin.
    destruct (Hmin m1 (in_elt m1 l1 l2)) as (r & Hr & Hrp & Hrmin).
    specialize (Hrmin m1 (in_elt m1 l1 l2) eq_refl).
    destruct (findIndex (Nsw.matches m2) final) as [i |] eqn:Hfind.
    + destruct (findIndex_Some _ _ _ Hfind) as (k1 & found & k2 & Hfinal & _ & Hfound & _ & Hnth).
      apply matches_pair in Hfound.
      assert (r = found).
      { apply (NoDup_map_unique pair_of final); auto.
        - rewrite Hfinal. apply in_elt.
        - congruence. }
      subst r.
      unfold Nsw.keep_shortest. rewrite Hfind, Hnth, <- Hper, Hrmin. reflexivity.
    + pose proof (findIndex_None _ _ Hfind) as Hnone. rewrite Forall_forall in Hnone.
      specialize (Hnone r Hr). apply matches_false in Hnone. congruence.
  - intros measurements final H.
    apply (forEach_earliest ltb_irrefl ltb_trans measurements [] [] kept_nil (Forall_nil _)).
    exact H.
  - intros m1 m2 Hp Hper. unfold Nsw.finalMeasurements, Nsw.keep_shortest. simpl.
    assert (Hm : Nsw.matches m2 m1 = true) by (apply matches_pair; exact Hp).
    rewrite Hm. simpl. rewrite Hper, ltb_irrefl. reflexivity.
  - intros final m i found Hfind Hnth Hlt. split.
    + unfold Nsw.keep_shortest. rewrite Hfind, Hnth, Hlt.
      rewrite splice1_app; [reflexivity |].
      apply nth_error_Some. congruence.
    + apply last_last.
  - intros a b c Hb Hc Hlt. unfold Nsw.finalMeasurements, Nsw.keep_shortest. simpl.
    assert (Hba : Nsw.matches b a = false) by (apply matches_false; congruence).
    assert (Hca : Nsw.matches c a = true) by (apply matches_pair; congruence).
    rewrite Hba. simpl. rewrite Hca. simpl. rewrite Hlt. reflexivity.
Qed.

End ShortestClaims.

(* ===================================================================== *)
(** ** The NSW adapter: what it returns *)
(* ===================================================================== *)

Section NswFacts.
Context `{HT : HostTypes} {JB : JsBuiltins} {MT : MomentTz} {CH : Cheerio} {UT : Utils}.

Lemma value_cell_from_page (ts : Nsw.Timestamp.t) (region_ site_ : string)
    (indexParams : list Nsw.IndexParam.t) (st : number * list Nsw.Measurement.t)
    (c : cell) (st' : number * list Nsw.Measurement.t) :
  Forall (from_page ts) (snd st) ->
  Nsw.value_cell (Nsw.make_base region_ site_ ts) indexParams st c = Ok st' ->
  Forall (from_page ts) (snd st').
Proof.
  destruct st as [colCounter ms]. unfold Nsw.value_cell. intros Hms H.
  destruct (Nsw.find_col indexParams _) as [i |].
  - destruct (negb (String.eqb (text c) EmptyString)).
    + destruct (nth_error indexParams i) as [p |]; [| discriminate H].
      injection H as <-. simpl. apply Forall_app. split; [exact Hms |].
      constructor; [| constructor]. split; reflexivity.
    + injection H as <-. exact Hms.
  - injection H as <-. exact Hms.
Qed.

Lemma on_tr_from_page (ts : Nsw.Timestamp.t) (st : Nsw.state) (idy : nat) (row : tr)
    (st' : Nsw.state) :
  Forall (from_page ts) (Nsw.measurements st) ->
  Nsw.on_tr ts st idy row = Ok st' ->
  Forall (from_page ts) (Nsw.measurements st').
Proof.
  intros Hst H. destruct idy as [| [| idy]]; simpl in H.
  - unbind H. injection H as <-. exact Hst.
  - unbind H. injection H as <-. exact Hst.
  - unfold Nsw.measurement_row in H. destruct (site row); [injection H as <-; exact Hst |].
    unbind H. injection H as <-. simpl.
    eapply (forEach_invariant _ (fun s => Forall (from_page ts) (snd s)));
      [| | exact E]; [| exact Hst].
    intros st0 c st1 _ Hs Hstep. exact (value_cell_from_page _ _ _ _ _ _ _ Hs Hstep).
Qed.

Lemma keep_shortest_Forall (P : Nsw.Measurement.t -> Prop)
    (final : list Nsw.Measurement.t) (m : Nsw.Measurement.t)
    (final' : list Nsw.Measurement.t) :
  Forall P final -> P m -> Nsw.keep_shortest final m = Ok final' -> Forall P final'.
Proof.
  intros Hfinal Hm H. unfold Nsw.keep_shortest in H.
  assert (Hboth : Forall P (final ++ [m])) by (apply Forall_app; auto).
  destruct (findIndex (Nsw.matches m) final) as [i |]; [| injection H as <-; exact Hboth].
  destruct (nth_error final i) as [found |]; [| discriminate H].
  destruct (num_ltb (Nsw.period m) (Nsw.period found)); injection H as <-; [| exact Hfinal].
  rewrite Forall_forall in *. intros x Hx. apply Hboth. exact (splice1_incl _ _ _ Hx).
Qed.

Lemma finalMeasurements_Forall (P : Nsw.Measurement.t -> Prop)
    (ms final : list Nsw.Measurement.t) :
  Forall P ms -> Nsw.finalMeasurements ms = Ok final -> Forall P final.
Proof.
  intros Hms H. rewrite Forall_forall in Hms.
  apply (forEach_invariant Nsw.keep_shortest (Forall P) ms) with (s := []);
    [| constructor | exact H].
  intros s m s' Hin Hs Hstep. exact (keep_shortest_Forall P s m s' Hs (Hms m Hin) Hstep).
Qed.

(** The result of [formatData] is named [unused]; the timestamp of the
    page is parsed, and every measurement returned carries it. *)
Lemma formatData_from_page (body_ : string) (d : Nsw.Data.t) :
  Nsw.formatData body_ = Ok d ->
  exists ts, Nsw.parseDate (td_date (cheerio_load body_)) = Ok ts
             /\ Nsw.Data.name d = "unused"
             /\ Forall (from_page ts) (Nsw.Data.measurements d).
Proof.
  unfold Nsw.formatData. intros H. unbind H. injection H as <-.
  exists a. split; [reflexivity | split; [reflexivity |]]. simpl.
  assert (Hwalk : Forall (from_page a) (Nsw.measurements a0)).
  { apply (each_from_invariant (Nsw.on_tr a) (fun st => Forall (from_page a) (Nsw.measurements st))
             (table_aqi_tr (cheerio_load body_))) with (i := 0) (s := Nsw.initial);
      [| constructor | exact E0].
    intros s i row s' Hs Hstep. exact (on_tr_from_page a s i row s' Hs Hstep). }
  pose proof (finalMeasurements_Forall _ _ _ Hwalk E1) as Hfinal.
  unfold Nsw.convertUnits, Nsw.removeUnwantedParameters.
  rewrite Forall_forall in *. intros m Hm.
  apply in_map_iff in Hm. destruct Hm as (m0 & <- & Hm0).
  apply filter_In in Hm0. destruct Hm0 as [Hm0 _].
  destruct (Hfinal m0 Hm0) as [Hdate Hcoord]. split; simpl; assumption.
Qed.

Lemma parseDate_parts (dateString : option string) (ts : Nsw.Timestamp.t) :
  Nsw.parseDate dateString = Ok ts ->
  exists s d0 d1 d2 rest,
    dateString = Some s
    /\ split "<br>" s = d0 :: d1 :: d2 :: rest
    /\ ts = stamp
              (add (moment_tz_format (clock 0)
                      (String.append d1
                         (Nsw.to_string (Nsw.plus (nth_error (split " " d2) 2)
                                                  (nth_error (split " " d2) 3))))
                      "D MMMM YYYYha" "Australia/Melbourne")
                   (Nsw.dateOffset (Nsw.plus (nth_error (split " " d2) 2)
                                             (nth_error (split " " d2) 3)))
                   "day").
Proof.
  unfold Nsw.parseDate. intros H.
  destruct dateString as [s |]; [| discriminate H].
  destruct (split "<br>" s) as [| d0 [| d1 [| d2 rest]]] eqn:Hsplit;
    try discriminate H.
  cbn [nth_error] in H. injection H as <-.
  exists s, d0, d1, d2, rest. split; [reflexivity |]. split; [exact Hsplit | reflexivity].
Qed.

End NswFacts.

Section ShapeFacts.
Context `{HT : HostTypes} {JB : JsBuiltins} {MT : MomentTz}.

Lemma conforms_result (m : shape) (name_ : value) (ms : list value) :
  Forall (fun x => conforms m x = true) ms ->
  conforms (result_of m) (Obj [("name", name_); ("measurements", Arr ms)]) = true.
Proof.
  intros H. simpl. replace (forallb (conforms m) ms) with true; [reflexivity |].
  symmetry. apply forallb_forall. apply Forall_forall. exact H.
Qed.

Lemma emitted_conforms (source : Source.t) (rows : list value) (m : value) :
  emitted source rows m -> conforms canonical_measurement m = true.
Proof.
  intros (index & row & _ & base & type & raw & Hbase & Hin & _ & _ & _ & ->).
  destruct (base_is_object _ _ _ _ Hbase) as (? & ? & ? & _ & _ & _ & _ & _ & _ & _ & ->).
  simpl in Hin. decompose [or] Hin; subst; try contradiction; reflexivity.
Qed.

Lemma attribution_conforms (l : list Nsw.Attribution.t) :
  conforms (ArrayOf (Object [("name", Any); ("url", Any)]))
    (Arr (map (fun a => Obj [ ("name", Str (Nsw.Attribution.name a));
                              ("url", Str (Nsw.Attribution.url a)) ]) l)) = true.
Proof.
  change (forallb (conforms (Object [("name", Any); ("url", Any)]))
            (map (fun a => Obj [ ("name", Str (Nsw.Attribution.name a));
                                 ("url", Str (Nsw.Attribution.url a)) ]) l) = true).
  induction l as [| a l IH]; [reflexivity |].
  cbn [map forallb]. rewrite IH. reflexivity.
Qed.

Lemma as_object_conforms (m : Nsw.Measurement.t) :
  conforms nsw_measurement (Nsw.as_object m) = true.
Proof.
  unfold Nsw.as_object.
  pose proof (attribution_conforms (Nsw.Measurement.attribution m)) as Ha.
  set (att := Arr _) in *. clearbody att.
  destruct (Nsw.Measurement.coordinates m); simpl in *; rewrite Ha; reflexivity.
Qed.

Lemma as_object_lacks (m : Nsw.Measurement.t) :
  has_own "country" (Nsw.as_object m) = false
  /\ has_own "sourceName" (Nsw.as_object m) = false
  /\ has_own "sourceType" (Nsw.as_object m) = false
  /\ has_own "mobile" (Nsw.as_object m) = false.
Proof.
  unfold Nsw.as_object.
  destruct (Nsw.Measurement.coordinates m); repeat split; reflexivity.
Qed.

End ShapeFacts.

Lemma never_midnight (x : string) :
  String.eqb (String.append x "undefined") "12am" = false.
Proof.
  apply String.eqb_neq. intros H.
  pose proof (append_correct2 x "undefined" 8) as Hget.
  rewrite H in Hget. simpl in Hget. discriminate Hget.
Qed.

Section Claims.
Context `{HT : HostTypes} {JB : JsBuiltins} {MT : MomentTz} {CH : Cheerio} {UT : Utils}.

(** C6.  In every measurement either adapter returns, [date.utc] and
    [date.local] come from one moment, the one parse of the source
    timestamp: [date.utc] is [toDate()] of that moment and [date.local]
    is [format()] of the same moment.  For the ACT adapter the result is
    made of the measurements of each row, in the order of the rows, and
    the moment of the measurements of a row is
    [moment.tz(row.datetime, 'Australia/Sydney')] for that very row.
    For the NSW adapter the moment is the parse, in the zone
    Australia/Melbourne, of the second part of the cell [td.date]
    followed by the third and fourth words of its third part, moved by
    the day offset; it is the same for all measurements of the page. *)
Theorem dates_from_one_moment :
  (forall (source : Source.t) (data r : value),
      Act.formatData data source = Ok r ->
      exists rows per_row,
        data = Arr rows
        /\ measurements_of r = concat per_row
        /\ length per_row = length rows
        /\ forall index row,
             nth_error rows index = Some row ->
             exists date ms,
               moment_tz (clock index) (field row "datetime") "Australia/Sydney" = Ok date
               /\ nth_error per_row index = Some ms
               /\ (forall acc, Act.on_row source acc index row = Ok (acc ++ ms))
               /\ Forall (fun m =>
                            field m "date"
                            = Obj [ ("utc", DateObj (toDate date));
                                    ("local", Str (format date)) ])
                         ms)
  /\ (forall (body_ : string) (d : Nsw.Data.t),
         Nsw.formatData body_ = Ok d ->
         exists dateString d0 d1 d2 rest,
           td_date (cheerio_load body_) = Some dateString
           /\ split "<br>" dateString = d0 :: d1 :: d2 :: rest
           /\ Forall
                (fun m =>
                   let time := Nsw.plus (nth_error (split " " d2) 2)
                                        (nth_error (split " " d2) 3) in
                   let date :=
                     add (moment_tz_format (clock 0)
                            (String.append d1 (Nsw.to_string time))
                            "D MMMM YYYYha" "Australia/Melbourne")
                         (Nsw.dateOffset time) "day" in
                   Nsw.Timestamp.utc (Nsw.Measurement.date m) = toDate date
                   /\ Nsw.Timestamp.local (Nsw.Measurement.date m) = format date)
                (Nsw.Data.measurements d)).
Proof.
  split.
  - intros source data r H.
    destruct (formatData_per_row data source r H)
      as (rows & per_row & -> & -> & Hlen & Heach).
    exists rows, per_row. split; [reflexivity |]. split; [reflexivity |].
    split; [exact Hlen |]. intros index row Hrow.
    destruct (Heach index row Hrow) as (base & Hbase & _ & Hnth & Hany).
    destruct (base_is_object _ _ _ _ Hbase)
      as (props & gps & date & _ & _ & _ & _ & Hdate & _ & _ & ->).
    exists date. eexists. split; [exact Hdate |]. split; [exact Hnth |].
    split; [exact Hany |].
    apply Forall_impl with (2 := row_measurements_fields _ _ _ _ _ row).
    intros m (_ & Hm & _). exact Hm.
  - intros body_ d H.
    destruct (formatData_from_page body_ d H) as (ts & Hts & _ & Hall).
    destruct (parseDate_parts _ ts Hts) as (s & d0 & d1 & d2 & rest & Hcell & Hsplit & ->).
    exists s, d0, d1, d2, rest. split; [exact Hcell |]. split; [exact Hsplit |].
    apply Forall_impl with (2 := Hall).
    intros m [-> _]. split; reflexivity.
Qed.

(** C7, as amended.  The timestamp of a page is read from the cell
    [td.date]: its HTML is cut at [<br>] and must have three parts at
    least.  The second part is the day.  The end time is made of the
    third and fourth words of the third part, the hour and its am/pm
    indication, joined together: day and end time are parsed together,
    and the result is moved by one day when the two words read [12am]
    and by no day otherwise.  When the third part has fewer than four
    words no day is added, whatever the words are.  The cell is parsed
    once: every measurement of the page carries the timestamp so
    obtained. *)
Theorem timestamp_of_the_page :
  (forall (dateString d0 d1 d2 : string) (rest : list string) (hour ampm : string),
      split "<br>" dateString = d0 :: d1 :: d2 :: rest ->
      nth_error (split " " d2) 2 = Some hour ->
      nth_error (split " " d2) 3 = Some ampm ->
      Nsw.parseDate (Some dateString)
      = Ok (stamp
              (add (moment_tz_format (clock 0)
                      (String.append d1 (String.append hour ampm))
                      "D MMMM YYYYha" "Australia/Melbourne")
                   (if String.eqb (String.append hour ampm) "12am" then 1%Z else 0%Z)
                   "day")))
  /\ (forall (dateString d0 d1 d2 : string) (rest : list string),
         split "<br>" dateString = d0 :: d1 :: d2 :: rest ->
         nth_error (split " " d2) 3 = None ->
         Nsw.parseDate (Some dateString)
         = Ok (stamp
                 (add (moment_tz_format (clock 0)
                         (String.append d1
                            match nth_error (split " " d2) 2 with
                            | Some hour => String.append hour "undefined"
                            | None => "NaN"
                            end)
                         "D MMMM YYYYha" "Australia/Melbourne")
                      0%Z "day")))
  /\ (Nsw.parseDate None = Throw
      /\ forall dateString : string,
           length (split "<br>" dateString) < 3 ->
           Nsw.parseDate (Some dateString) = Throw)
  /\ (forall (body_ : string) (d : Nsw.Data.t),
         Nsw.formatData body_ = Ok d ->
         exists ts,
           Nsw.parseDate (td_date (cheerio_load body_)) = Ok ts
           /\ Forall (fun m => Nsw.Measurement.date m = ts) (Nsw.Data.measurements d)).
Proof.
  split; [| split; [| split]].
  - intros dateString d0 d1 d2 rest hour ampm Hsplit Hhour Hampm.
    unfold Nsw.parseDate. rewrite Hsplit.
    change (nth_error (d0 :: d1 :: d2 :: rest) 2) with (Some d2).
    change (nth_error (d0 :: d1 :: d2 :: rest) 1) with (Some d1).
    cbv beta iota zeta. rewrite Hhour, Hampm. reflexivity.
  - intros dateString d0 d1 d2 rest Hsplit Hfourth.
    unfold Nsw.parseDate. rewrite Hsplit.
    change (nth_error (d0 :: d1 :: d2 :: rest) 2) with (Some d2).
    change (nth_error (d0 :: d1 :: d2 :: rest) 1) with (Some d1).
    cbv beta iota zeta. rewrite Hfourth.
    destruct (nth_error (split " " d2) 2) as [hour |]; [| reflexivity].
    unfold Nsw.dateOffset, Nsw.plus, Nsw.strict_equal.
    rewrite never_midnight. reflexivity.
  - split; [reflexivity |]. intros dateString Hlen. unfold Nsw.parseDate.
    destruct (nth_error (split "<br>" dateString) 2) eqn:Hnth; [| reflexivity].
    assert (2 < length (split "<br>" dateString)) by (apply nth_error_Some; congruence).
    lia.
  - intros body_ d H.
    destruct (formatData_from_page body_ d H) as (ts & Hts & _ & Hall).
    exists ts. split; [exact Hts |].
    apply Forall_impl with (2 := Hall). intros m [Hm _]. exact Hm.
Qed.

(** C8, as amended.  The result of either adapter is an object
    [{name, measurements}].  Every measurement of the ACT adapter has
    all the properties of the canonical measurement.  Every measurement
    of the NSW adapter has [location], [city], [date{utc, local}],
    [attribution[{name, url}]], [averagingPeriod{value, unit}],
    [parameter], [value] and [unit], has [coordinates{latitude,
    longitude}] when its location is a site of the adapter's coordinate
    table, and has none of [country], [sourceName], [sourceType] and
    [mobile]. *)
Theorem shape_of_the_measurements :
  (forall (source : Source.t) (data r : value),
      Act.formatData data source = Ok r ->
      conforms (result_of canonical_measurement) r = true)
  /\ (forall (body_ : string) (d : Nsw.Data.t),
         Nsw.formatData body_ = Ok d ->
         Nsw.Data.name d = "unused"
         /\ conforms (result_of nsw_measurement) (Nsw.data_object d) = true
         /\ Forall
              (fun m =>
                 (forall c, assoc (Nsw.Measurement.location m) Nsw.coordinates = Some c ->
                            conforms with_coordinates (Nsw.as_object m) = true)
                 /\ has_own "country" (Nsw.as_object m) = false
                 /\ has_own "sourceName" (Nsw.as_object m) = false
                 /\ has_own "sourceType" (Nsw.as_object m) = false
                 /\ has_own "mobile" (Nsw.as_object m) = false)
              (Nsw.Data.measurements d)).
Proof.
  split.
  - intros source data r H.
    destruct (formatData_emits data source r H) as (rows & ms & _ & -> & Hall).
    apply conforms_result. apply Forall_impl with (2 := Hall).
    intros m Hm. exact (emitted_conforms source rows m Hm).
  - intros body_ d H.
    destruct (formatData_from_page body_ d H) as (ts & _ & Hname & Hall).
    split; [exact Hname | split].
    + unfold Nsw.data_object. apply conforms_result.
      apply Forall_forall. intros x Hx. apply in_map_iff in Hx.
      destruct Hx as (m & <- & _). apply as_object_conforms.
    + apply Forall_impl with (2 := Hall). intros m [_ Hcoord].
      split; [| apply as_object_lacks].
      intros c Hc. unfold Nsw.as_object. rewrite Hcoord. unfold lookup. rewrite Hc.
      simpl. reflexivity.
Qed.

End Claims.

(* ===================================================================== *)
(** ** The adapters at work on the sample host *)
(* ===================================================================== *)

Lemma sample_ltb_irrefl (x : option Q) : Sample.ltb x x = false.
Proof.
  destruct x as [x |]; [| reflexivity]. simpl.
  replace (Qle_bool x x) with true; [reflexivity |].
  symmetry. apply Qle_bool_iff. apply Qle_refl.
Qed.

Lemma sample_ltb_trans (x y z : option Q) :
  Sample.ltb x y = true -> Sample.ltb y z = true -> Sample.ltb x z = true.
Proof.
  destruct x as [x |], y as [y |], z as [z |]; simpl; try discriminate.
  intros Hxy Hyz. apply negb_true_iff in Hxy, Hyz. apply negb_true_iff.
  destruct (Qle_bool z x) eqn:Hzx; [| reflexivity]. exfalso.
  apply Qle_bool_iff in Hzx.
  assert (Hxy' : (x < y)%Q).
  { apply Qnot_le_lt. intros H. apply Qle_bool_iff in H. congruence. }
  assert (Hyz' : (y < z)%Q).
  { apply Qnot_le_lt. intros H. apply Qle_bool_iff in H. congruence. }
  apply (Qlt_not_le x z); [exact (Qlt_trans _ _ _ Hxy' Hyz') | exact Hzx].
Qed.

Section Examples.
#[local] Existing Instance Sample.host_types.
#[local] Existing Instance Sample.builtins.
#[local] Existing Instance Sample.moments.
#[local] Existing Instance Sample.cheerio.
#[local] Existing Instance Sample.utils.

(** C2.  A request that succeeds with a well-formed body, and a callback
    that throws when it is handed the data: each adapter invokes the
    callback twice, first with the data and no error, then, from the
    [catch] around the first invocation, with the error
    [Unknown adapter error.] and no data. *)
Theorem callback_invoked_twice :
  (exists data,
      Act.format_body Sample.source Sample.act_body = Ok data
      /\ snd (Act.fetchData Sample.source Sample.throws_on_data Sample.now)
             (Sample.ok 200 Sample.act_body)
         = ([ {| cb_err := None; cb_data := Some data |};
              {| cb_err := Some "Unknown adapter error."; cb_data := None |} ],
            Returns))
  /\ (exists data,
         Nsw.formatData Sample.nsw_body = Ok data
         /\ snd (Nsw.fetchData Sample.source Sample.throws_on_data)
                (Sample.ok 200 Sample.nsw_body)
            = ([ {| cb_err := None; cb_data := Some data |};
                 {| cb_err := Some "Unknown adapter error."; cb_data := None |} ],
               Returns)).
Proof.
  split; eexists; (split; [lazy; reflexivity |]); lazy; reflexivity.
Qed.

(** C8 does not hold as stated: the measurements the NSW adapter makes of
    the sample page do not have the shape of the canonical measurement. *)
Lemma nsw_measurements_not_canonical :
  exists d,
    Nsw.formatData Sample.nsw_body = Ok d
    /\ conforms (result_of canonical_measurement) (Nsw.data_object d) = false
    /\ Forall (fun m => conforms canonical_measurement (Nsw.as_object m) = false)
              (Nsw.Data.measurements d).
Proof.
  eexists. split; [lazy; reflexivity |]. split; [vm_compute; reflexivity |].
  repeat constructor.
Qed.

(** C1 on two readings of ozone at one site, over 1 hour and over 24,
    and on the sample page, where ozone is read over 1 and over 4 hours
    at Randwick. *)
Lemma shortest_period_retained_example :
  (pair_of Sample.ozone_1h = pair_of Sample.ozone_24h
   /\ num_ltb (Nsw.period Sample.ozone_1h) (Nsw.period Sample.ozone_24h) = true)
  /\ (Nsw.finalMeasurements [Sample.ozone_1h; Sample.ozone_24h] = Ok [Sample.ozone_1h]
      /\ Nsw.finalMeasurements [Sample.ozone_24h; Sample.ozone_1h] = Ok [Sample.ozone_1h])
  /\ exists d,
       Nsw.formatData Sample.nsw_body = Ok d
       /\ exists ts accumulated,
            Nsw.parseDate (td_date (cheerio_load Sample.nsw_body)) = Ok ts
            /\ each (Nsw.on_tr ts) (table_aqi_tr (cheerio_load Sample.nsw_body)) Nsw.initial
               = Ok accumulated
            /\ NoDup (map pair_of (Nsw.Data.measurements d))
            /\ (forall r, In r (Nsw.Data.measurements d) ->
                  exists m,
                    In m (Nsw.measurements accumulated)
                    /\ r = Nsw.converted m
                    /\ forall m', In m' (Nsw.measurements accumulated) ->
                                  pair_of m' = pair_of m ->
                                  num_ltb (Nsw.period m') (Nsw.period m) = false)
            /\ (forall m, In m (Nsw.measurements accumulated) ->
                  acceptable (Nsw.Measurement.parameter m) = true ->
                  exists r,
                    In r (Nsw.Data.measurements d)
                    /\ pair_of r = pair_of m
                    /\ forall m', In m' (Nsw.measurements accumulated) ->
                                  pair_of m' = pair_of m ->
                                  num_ltb (Nsw.period m') (Nsw.period r) = false).
Proof.
  destruct (@shortest_period_retained
              Sample.host_types Sample.builtins Sample.moments
              Sample.cheerio Sample.utils
              sample_ltb_irrefl sample_ltb_trans)
    as (_ & Htwo & Hpage).
  split; [split; reflexivity |].
  split; [apply Htwo; reflexivity |].
  eexists.
  assert (Hd : Nsw.formatData Sample.nsw_body = Ok ?[d]) by (lazy; reflexivity).
  split; [exact Hd |]. exact (Hpage Sample.nsw_body _ Hd).
Defined.

(** C10 does not hold as stated: of three readings of one pair with one
    period, the second comes before the third and is not kept. *)
Lemma earlier_of_two_not_kept :
  exists final,
    Nsw.finalMeasurements
      [Sample.ozone_4h_first; Sample.ozone_4h_second; Sample.ozone_4h_third] = Ok final
    /\ pair_of Sample.ozone_4h_second = pair_of Sample.ozone_4h_third
    /\ Nsw.period Sample.ozone_4h_second = Nsw.period Sample.ozone_4h_third
    /\ ~ In Sample.ozone_4h_second final.
Proof.
  exists [Sample.ozone_4h_first].
  split; [reflexivity | split; [reflexivity | split; [reflexivity |]]].
  intros [H | []]. discriminate H.
Qed.

(** C10, as amended, on two readings of ozone over 1 hour, on a reading
    over 24 hours that a later one over 1 hour replaces, and on the three
    readings over 4 hours. *)
Lemma equal_periods_keep_the_earliest_example :
  (pair_of Sample.ozone_1h = pair_of Sample.ozone_1h_later
   /\ Nsw.period Sample.ozone_1h = Nsw.period Sample.ozone_1h_later
   /\ pair_of Sample.particles_24h <> pair_of Sample.ozone_24h
   /\ num_ltb (Nsw.period Sample.ozone_1h) (Nsw.period Sample.ozone_24h) = true)
  /\ Nsw.finalMeasurements [Sample.ozone_1h; Sample.ozone_1h_later] = Ok [Sample.ozone_1h]
  /\ Nsw.finalMeasurements [Sample.ozone_24h; Sample.particles_24h; Sample.ozone_1h]
     = Ok [Sample.particles_24h; Sample.ozone_1h]
  /\ Forall (earliest [Sample.ozone_4h_first; Sample.ozone_4h_second; Sample.ozone_4h_third])
            [Sample.ozone_4h_first].
Proof.
  assert (Hdiff : pair_of Sample.particles_24h <> pair_of Sample.ozone_24h)
    by (intros H; discriminate H).
  split; [split; [reflexivity | split; [reflexivity | split; [exact Hdiff | reflexivity]]] |].
  destruct (@equal_periods_keep_the_earliest Sample.host_types Sample.builtins
              sample_ltb_irrefl sample_ltb_trans)
    as (_ & _ & Hearliest & Htie & _ & Hmove).
  split; [apply Htie; reflexivity | split].
  - apply Hmove; [exact Hdiff | reflexivity | reflexivity].
  - apply Hearliest. reflexivity.
Defined.



(** C4 on a reply with status 500 and the body of a good reply. *)
Lemma load_failure_reported_example :
  (err (Sample.ok 500 Sample.act_body) <> None
   \/ exists rs, res (Sample.ok 500 Sample.act_body) = Some rs /\ statusCode rs <> 200%Z)
  /\ snd (Act.fetchData Sample.source Sample.returns Sample.now)
         (Sample.ok 500 Sample.act_body)
     = ([ {| cb_err := Some "Failure to load data url."; cb_data := None |} ], Returns)
  /\ snd (Nsw.fetchData Sample.source Sample.returns) (Sample.ok 500 Sample.act_body)
     = ([ {| cb_err := Some "Failure to load data url."; cb_data := None |} ], Returns).
Proof.
  assert (H : err (Sample.ok 500 Sample.act_body) <> None
              \/ exists rs, res (Sample.ok 500 Sample.act_body) = Some rs
                            /\ statusCode rs <> 200%Z).
  { right. eexists. split; [reflexivity | discriminate]. }
  split; [exact H |].
  exact (load_failure_reported Sample.source Sample.now Sample.returns Sample.returns
           (Sample.ok 500 Sample.act_body) H).
Defined.

(** C5 on a reply with status 200 whose body is neither JSON nor a page
    of the NSW site. *)
Lemma formatting_exception_reported_example :
  (JSON_parse "<html></html>" = None /\ Nsw.formatData "<html></html>" = Throw)
  /\ snd (Act.fetchData Sample.source Sample.returns Sample.now)
         (Sample.ok 200 "<html></html>")
     = ([ {| cb_err := Some "Unknown adapter error."; cb_data := None |} ], Returns)
  /\ snd (Nsw.fetchData Sample.source Sample.returns) (Sample.ok 200 "<html></html>")
     = ([ {| cb_err := Some "Unknown adapter error."; cb_data := None |} ], Returns).
Proof.
  split; [split; reflexivity |].
  destruct (formatting_exception_reported Sample.source Sample.now
              Sample.returns Sample.returns (Sample.ok 200 "<html></html>")
              {| statusCode := 200 |} eq_refl eq_refl eq_refl)
    as (Hact & Hnsw & Hparse & _ & Hdate).
  split; [apply Hact; apply Hparse; reflexivity | apply Hnsw; apply Hdate; reflexivity].
Defined.

(** C6 on the sample body and on the sample page. *)
Lemma dates_from_one_moment_example :
  (exists r,
      Act.formatData (Arr [Sample.act_row]) Sample.source = Ok r
      /\ exists rows per_row,
           Arr [Sample.act_row] = Arr rows
           /\ measurements_of r = concat per_row
           /\ length per_row = length rows
           /\ forall index row,
                nth_error rows index = Some row ->
                exists date ms,
                  moment_tz (clock index) (field row "datetime") "Australia/Sydney" = Ok date
                  /\ nth_error per_row index = Some ms
                  /\ (forall acc, Act.on_row Sample.source acc index row = Ok (acc ++ ms))
                  /\ Forall (fun m =>
                               field m "date"
                               = Obj [ ("utc", DateObj (toDate date));
                                       ("local", Str (format date)) ])
                            ms)
  /\ (exists d,
         Nsw.formatData Sample.nsw_body = Ok d
         /\ exists dateString d0 d1 d2 rest,
              td_date (cheerio_load Sample.nsw_body) = Some dateString
              /\ split "<br>" dateString = d0 :: d1 :: d2 :: rest
              /\ Forall
                   (fun m =>
                      let time := Nsw.plus (nth_error (split " " d2) 2)
                                           (nth_error (split " " d2) 3) in
                      let date :=
                        add (moment_tz_format (clock 0)
                               (String.append d1 (Nsw.to_string time))
                               "D MMMM YYYYha" "Australia/Melbourne")
                            (Nsw.dateOffset time) "day" in
                      Nsw.Timestamp.utc (Nsw.Measurement.date m) = toDate date
                      /\ Nsw.Timestamp.local (Nsw.Measurement.date m) = format date)
                   (Nsw.Data.measurements d)).
Proof.
  split; eexists; (split; [lazy; reflexivity |]).
  - apply (proj1 dates_from_one_moment Sample.source (Arr [Sample.act_row])). reflexivity.
  - apply (proj2 dates_from_one_moment Sample.nsw_body). reflexivity.
Defined.

(** C7 does not hold as stated: in the timestamp below the range of
    hours ends at 12am, and no day is added to the date parsed. *)
Lemma range_end_12am_no_day_added :
  split "<br>" Sample.nsw_date_three_words
  = ["Hourly data"; "13 December 2019"; "11pm - 12am"]
  /\ range_end "11pm - 12am" = Some "12am"
  /\ exists parsed,
       Nsw.parseDate (Some Sample.nsw_date_three_words) = Ok (stamp (add parsed 0 "day"))
       /\ Nsw.parseDate (Some Sample.nsw_date_three_words)
          <> Ok (stamp (add parsed 1 "day")).
Proof.
  split; [reflexivity |]. split; [reflexivity |].
  exists (moment_tz_format (clock 0) "13 December 201912amundefined"
            "D MMMM YYYYha" "Australia/Melbourne").
  split; [reflexivity |]. intros H. lazy in H. discriminate H.
Qed.

(** C7, as amended, on the timestamp of the sample page, whose third
    part has [12] and [am] as third and fourth words. *)
Lemma timestamp_of_the_page_example :
  (split "<br>" Sample.nsw_date = ["Hourly data"; "13 December 2019"; "11 - 12 am"]
   /\ nth_error (split " " "11 - 12 am") 2 = Some "12"
   /\ nth_error (split " " "11 - 12 am") 3 = Some "am")
  /\ Nsw.parseDate (Some Sample.nsw_date)
     = Ok (stamp
             (add (moment_tz_format (clock 0)
                     (String.append "13 December 2019" (String.append "12" "am"))
                     "D MMMM YYYYha" "Australia/Melbourne")
                  (if String.eqb (String.append "12" "am") "12am" then 1%Z else 0%Z)
                  "day"))
  /\ exists d ts,
       Nsw.formatData Sample.nsw_body = Ok d
       /\ Nsw.parseDate (td_date (cheerio_load Sample.nsw_body)) = Ok ts
       /\ Forall (fun m => Nsw.Measurement.date m = ts) (Nsw.Data.measurements d).
Proof.
  destruct timestamp_of_the_page as (Hparse & _ & _ & Honce).
  split; [split; [reflexivity | split; reflexivity] | split].
  - exact (Hparse Sample.nsw_date "Hourly data" "13 December 2019" "11 - 12 am" []
             "12" "am" eq_refl eq_refl eq_refl).
  - eexists.
    assert (Hd : Nsw.formatData Sample.nsw_body = Ok ?[d]) by (lazy; reflexivity).
    destruct (Honce Sample.nsw_body _ Hd) as (ts & Hts & Hall).
    exists ts. split; [exact Hd | split; [exact Hts | exact Hall]].
Defined.

(** C8, as amended, on the sample body and on the sample page. *)
Lemma shape_of_the_measurements_example :
  (exists r,
      Act.formatData (Arr [Sample.act_row]) Sample.source = Ok r
      /\ conforms (result_of canonical_measurement) r = true)
  /\ (exists d,
         Nsw.formatData Sample.nsw_body = Ok d
         /\ Nsw.Data.name d = "unused"
         /\ conforms (result_of nsw_measurement) (Nsw.data_object d) = true
         /\ Forall
              (fun m =>
                 (forall c, assoc (Nsw.Measurement.location m) Nsw.coordinates = Some c ->
                            conforms with_coordinates (Nsw.as_object m) = true)
                 /\ has_own "country" (Nsw.as_object m) = false
                 /\ has_own "sourceName" (Nsw.as_object m) = false
                 /\ has_own "sourceType" (Nsw.as_object m) = false
                 /\ has_own "mobile" (Nsw.as_object m) = false)
              (Nsw.Data.measurements d)).
Proof.
  split; eexists; (split; [lazy; reflexivity |]).
  - apply (proj1 shape_of_the_measurements Sample.source (Arr [Sample.act_row])). reflexivity.
  - apply (proj2 shape_of_the_measurements Sample.nsw_body). reflexivity.
Defined.

End Examples.

(* ===================================================================== *)
(** ** Further properties: the handler *)
(* ===================================================================== *)

Section HandlerShape.
Context {D : Type} (format : string -> exc D) (is_undefined : D -> bool).

Lemma call_with_error (message : string) :
  message <> "Failure to parse data." ->
  (cb_err (@cb_error D message) = None <-> cb_data (@cb_error D message) <> None)
  /\ cb_err (@cb_error D message) <> Some "Failure to parse data.".
Proof.
  intros Hm. simpl. split; [split |].
  - intros H. discriminate H.
  - intros H. exfalso. apply H. reflexivity.
  - intros H. apply Hm. injection H as ->. reflexivity.
Qed.

Lemma call_with_data (data : D) :
  (cb_err (cb_success data) = None <-> cb_data (cb_success data) <> None)
  /\ cb_err (cb_success data) <> Some "Failure to parse data.".
Proof.
  simpl. split; [split |]; try discriminate. intros _. reflexivity.
Qed.

Lemma single_invocation_orderly (cb : callback D) (r : reply) (c : cb_call D) :
  err r <> None \/ res r <> None ->
  (cb_err c = None <-> cb_data c <> None) /\ cb_err c <> Some "Failure to parse data." ->
  orderly cb r ([c], cb c).
Proof.
  intros Hdone Hc. unfold orderly. simpl. split; [| split; [| split; [| split; [| split]]]].
  - split; [intros H; discriminate H |]. intros [He Hr]. destruct Hdone; contradiction.
  - lia.
  - constructor; [exact Hc | constructor].
  - intros c' [].
  - intros H. discriminate H.
  - reflexivity.
Qed.

Lemma on_response_orderly (cb : callback D) (r : reply) :
  (forall data, format (body r) = Ok data -> is_undefined data = false) ->
  orderly cb r (on_response format is_undefined cb r).
Proof.
  intros Hdefined.
  assert (Hload : "Failure to load data url." <> "Failure to parse data.")
    by (intros H; discriminate H).
  assert (Hunknown : "Unknown adapter error." <> "Failure to parse data.")
    by (intros H; discriminate H).
  unfold on_response, invoke.
  destruct (err r) as [e |] eqn:He.
  { apply single_invocation_orderly; [left; congruence | exact (call_with_error _ Hload)]. }
  destruct (res r) as [rs |] eqn:Hr.
  2:{ unfold orderly. simpl. rewrite He, Hr.
      split; [| split; [| split; [| split; [| split]]]]; auto.
      - tauto.
      - intros c [].
      - intros H. discriminate H. }
  assert (Hdone : err r <> None \/ res r <> None) by (right; congruence).
  destruct (negb (statusCode rs =? 200)%Z).
  { apply single_invocation_orderly; [exact Hdone | exact (call_with_error _ Hload)]. }
  destruct (format (body r)) as [data |] eqn:Hf.
  2:{ apply single_invocation_orderly; [exact Hdone | exact (call_with_error _ Hunknown)]. }
  rewrite (Hdefined data eq_refl).
  destruct (cb (cb_success data)) eqn:Hcb.
  { rewrite <- Hcb.
    apply single_invocation_orderly; [exact Hdone | exact (call_with_data data)]. }
  unfold orderly. simpl. split; [| split; [| split; [| split; [| split]]]].
  - split; [intros H; discriminate H |]. intros [_ H]. rewrite Hr in H. discriminate H.
  - lia.
  - constructor; [exact (call_with_data data) |].
    constructor; [exact (call_with_error _ Hunknown) | constructor].
  - intros c [<- | []]. split; reflexivity.
  - intros _. exists (cb_success data). split; [reflexivity | exact Hcb].
  - reflexivity.
Qed.

End HandlerShape.

Section HandlerClaims.
Context `{HT : HostTypes} {JB : JsBuiltins} {MT : MomentTz} {CH : Cheerio} {UT : Utils}.

Lemma format_body_defined (source : Source.t) (body_ : string) (data : value) :
  Act.format_body source body_ = Ok data -> Act.is_undefined data = false.
Proof.
  unfold Act.format_body. destruct (JSON_parse body_) as [parsed |]; [| discriminate].
  destruct parsed; simpl; try discriminate. intros H. unbind H. injection H as <-.
  reflexivity.
Qed.

(** X1.  Whatever the reply and whatever the callback does, the handler
    of either adapter invokes the callback twice at most, each time with
    an error or with data and never with both or neither; it never
    reports [Failure to parse data.]; a second invocation happens only
    after the first one threw, and reports [Unknown adapter error.]; and
    the callback is left uninvoked only when [request] handed over
    neither an error nor a response. *)
Theorem handlers_are_orderly (source : Source.t) (now : moment)
    (cb_act : callback value) (cb_nsw : callback Nsw.Data.t) (r : reply) :
  orderly cb_act r (snd (Act.fetchData source cb_act now) r)
  /\ orderly cb_nsw r (snd (Nsw.fetchData source cb_nsw) r).
Proof.
  split; simpl; apply on_response_orderly.
  - intros data. apply format_body_defined.
  - intros data _. reflexivity.
Qed.

(** X2.  A callback that returns is invoked exactly once by either
    adapter, with an error or with data, whenever [request] handed over
    an error or a response; the handler returns as well. *)
Theorem returning_callback_invoked_once (source : Source.t) (now : moment)
    (cb_act : callback value) (cb_nsw : callback Nsw.Data.t) (r : reply) :
  (forall c, cb_act c = Returns) ->
  (forall c, cb_nsw c = Returns) ->
  err r <> None \/ res r <> None ->
  (exists c, snd (Act.fetchData source cb_act now) r = ([c], Returns)
             /\ (cb_err c = None <-> cb_data c <> None))
  /\ (exists c, snd (Nsw.fetchData source cb_nsw) r = ([c], Returns)
                /\ (cb_err c = None <-> cb_data c <> None)).
Proof.
  intros Hact Hnsw Hdone. split; simpl; apply on_response_once; assumption.
Qed.

End HandlerClaims.

(* ===================================================================== *)
(** ** Further properties: the ACT adapter *)
(* ===================================================================== *)

Section ActRows.
Context `{HT : HostTypes} {JB : JsBuiltins} {MT : MomentTz}.

Lemma formatData_of_valid (source : Source.t) (rows : list value) :
  valid_rows rows -> exists r, Act.formatData (Arr rows) source = Ok r.
Proof.
  intros Hvalid. simpl. unfold each.
  destruct (each_from_returns (Act.on_row source) rows 0) with (acc := @nil value)
    as (ms & ->).
  - intros acc k row Hrow. apply on_row_of_valid. exact (Hvalid k row Hrow).
  - simpl. eexists. reflexivity.
Qed.

Lemma formatData_only_valid (source : Source.t) (rows : list value) (r : value) :
  Act.formatData (Arr rows) source = Ok r -> valid_rows rows.
Proof.
  intros H index row Hrow.
  destruct (formatData_per_row (Arr rows) source r H)
    as (rows' & per_row & Hrows & _ & _ & Heach).
  injection Hrows as <-.
  destruct (Heach index row Hrow) as (base & _ & Hvalid & _). exact Hvalid.
Qed.

(** X3.  On an array, [formatData] of the ACT adapter returns a result
    exactly when every row can be formatted when its turn comes: the row
    is an object whose [gps] is there and is not [null], [moment.tz]
    takes its [datetime], and what is converted to a number (the
    latitude and longitude of [gps] and what each key of [types] the row
    has holds) is no object whose [toString] is not a function.  A
    single other row makes it throw, whatever the other rows hold. *)
Theorem formatData_succeeds_iff_rows_valid (source : Source.t) (rows : list value) :
  (exists r, Act.formatData (Arr rows) source = Ok r) <-> valid_rows rows.
Proof.
  split.
  - intros (r & H). exact (formatData_only_valid source rows r H).
  - exact (formatData_of_valid source rows).
Qed.

Lemma row_measurements_count (base row : value) : length (row_measurements base row) <= 5.
Proof.
  unfold row_measurements. rewrite length_map.
  apply (Nat.le_trans _ _ _ (filter_length_le _ _)). simpl. lia.
Qed.

Lemma concat_bound {A : Type} (n : nat) (parts : list (list A)) :
  Forall (fun ms => length ms <= n) parts -> length (concat parts) <= n * length parts.
Proof.
  induction 1 as [| ms parts Hms _ IH]; simpl; [lia |]. rewrite length_app. lia.
Qed.

(** X4.  The measurements [formatData] returns are those of the first
    row, then those of the second, and so on: what the row at a place
    contributes does not depend on the measurements made before it, is
    five measurements at most, and the list is not reordered or
    flattened any further. *)
Theorem measurements_row_by_row (source : Source.t) (rows : list value) (r : value) :
  Act.formatData (Arr rows) source = Ok r ->
  exists per_row,
    length per_row = length rows
    /\ (forall index row ms,
          nth_error rows index = Some row ->
          nth_error per_row index = Some ms ->
          length ms <= 5
          /\ forall acc, Act.on_row source acc index row = Ok (acc ++ ms))
    /\ measurements_of r = concat per_row
    /\ length (measurements_of r) <= 5 * length rows.
Proof.
  intros H.
  destruct (formatData_per_row (Arr rows) source r H)
    as (rows' & per_row & Hrows & -> & Hlen & Heach).
  injection Hrows as <-.
  assert (Hparts : forall index row ms,
             nth_error rows index = Some row ->
             nth_error per_row index = Some ms ->
             length ms <= 5
             /\ forall acc, Act.on_row source acc index row = Ok (acc ++ ms)).
  { intros index row ms Hrow Hms.
    destruct (Heach index row Hrow) as (base & _ & _ & Hnth & Hany).
    rewrite Hms in Hnth. injection Hnth as ->.
    split; [apply row_measurements_count | exact Hany]. }
  exists per_row. split; [exact Hlen |]. split; [exact Hparts |].
  split; [reflexivity |].
  change (length (concat per_row) <= 5 * length rows). rewrite <- Hlen.
  apply concat_bound. apply Forall_forall. intros ms Hms.
  apply In_nth_error in Hms. destruct Hms as (k & Hk).
  assert (Hlt : k < length rows).
  { rewrite <- Hlen. apply nth_error_Some. rewrite Hk. discriminate. }
  destruct (nth_error rows k) as [row |] eqn:Hrow; [| apply nth_error_None in Hrow; lia].
  exact (proj1 (Hparts k row ms Hrow Hk)).
Qed.

Lemma emitted_taken (source : Source.t) (index : nat) (row m : value) :
  emitted_at source index row m -> taken_from source row m.
Proof.
  intros (base & type & raw & Hbase & Hkey & Hhas & Hraw & Hreturns & ->).
  destruct (base_is_object _ _ _ _ Hbase)
    as (props & gps & date & -> & Hgps & Hnull & Hundef & _ & _ & _ & ->).
  assert (Hgmember : forall k, Act.member gps k = Ok (field gps k)).
  { intros k. destruct gps; try contradiction; simpl; try reflexivity.
    destruct (assoc k props0); reflexivity. }
  exists type, raw, gps, (field gps "latitude"), (field gps "longitude").
  split; [exact Hkey |].
  split; [rewrite (has_property_own type props Hkey) in Hhas; congruence |].
  split; [exact Hraw |].
  split; [simpl; rewrite Hgps; reflexivity |].
  split; [apply Hgmember |]. split; [apply Hgmember |].
  split; [simpl; destruct (assoc "name" props); reflexivity |].
  repeat split; reflexivity.
Qed.

(** X5.  Every measurement [formatData] returns was made from one row
    of the array and one key of [types] that row has as an own
    property: its location is the row's [name], its value the number
    that key holds in the row, its coordinates the numbers of the row's
    [gps], its parameter the entry of [types] for the key, and its
    source name the name of the source.  No measurement mixes two rows,
    and none is made for a key the row only inherits. *)
Theorem measurements_taken_from_rows (source : Source.t) (rows : list value) (r : value) :
  Act.formatData (Arr rows) source = Ok r ->
  Forall (fun m => exists row, In row rows /\ taken_from source row m)
         (measurements_of r).
Proof.
  intros H.
  destruct (formatData_emits (Arr rows) source r H) as (rows' & ms & Hrows & -> & Hall).
  injection Hrows as <-. unfold measurements_of. simpl.
  apply Forall_impl with (2 := Hall).
  intros m (index & row & Hrow & Hm).
  exists row. split; [exact (nth_error_In rows index Hrow) |].
  exact (emitted_taken source index row m Hm).
Qed.

(** X6.  Whatever the rows hold, every measurement [formatData] returns
    is for Canberra, AU, from a government source that is not mobile,
    averaged over one hour, and its parameter and unit are one of five
    fixed pairs: the gases in ppm, the particles in µg/m³. *)
Theorem measurements_fixed_fields (source : Source.t) (data r : value) :
  Act.formatData data source = Ok r ->
  Forall (fun m =>
            field m "city" = Str "Canberra"
            /\ field m "country" = Str "AU"
            /\ field m "sourceType" = Str "government"
            /\ field m "mobile" = Bool false
            /\ field m "averagingPeriod"
               = Obj [("value", Num (num_of_Z 1)); ("unit", Str "hours")]
            /\ In (field m "parameter", field m "unit")
                  [ (Str "no2", Str "ppm"); (Str "o3", Str "ppm"); (Str "co", Str "ppm");
                    (Str "pm10", Str "µg/m³"); (Str "pm25", Str "µg/m³") ])
         (measurements_of r).
Proof.
  intros H.
  destruct (formatData_emits data source r H) as (rows & ms & _ & -> & Hall).
  unfold measurements_of. simpl.
  apply (Forall_impl _ (P := emitted source rows)); [| exact Hall].
  intros m (index & row & _ & base & type & raw & Hbase & Hin & _ & _ & _ & ->).
  destruct (base_is_object _ _ _ _ Hbase) as (? & ? & ? & _ & _ & _ & _ & _ & _ & _ & ->).
  simpl in Hin. decompose [or] Hin; subst; try contradiction;
    (split; [reflexivity |]); (split; [reflexivity |]); (split; [reflexivity |]);
    (split; [reflexivity |]); (split; [reflexivity |]); simpl; tauto.
Qed.

End ActRows.

Section ActHandler.
Context `{HT : HostTypes} {JB : JsBuiltins} {MT : MomentTz}.

(** X7.  When [request] answers with status 200 and no error, the ACT
    handler first calls back with data exactly when the body is JSON
    for an array whose rows all can be formatted (each an object with a
    [gps] that is not [null], a [datetime] that [moment.tz] takes and
    nothing to convert to a number that cannot be), and the data is what
    [formatData] makes of that array.  In every other case (a body that
    is not JSON, JSON that is not an array, one row that cannot be
    formatted) the callback is invoked once, with
    [Unknown adapter error.]. *)
Theorem act_data_iff_rows_valid (source : Source.t) (now : moment)
    (cb : callback value) (r : reply) (rs : response) :
  err r = None -> res r = Some rs -> statusCode rs = 200%Z ->
  (exists rows data,
      JSON_parse (body r) = Some (Arr rows)
      /\ valid_rows rows
      /\ Act.formatData (Arr rows) source = Ok data
      /\ hd_error (fst (snd (Act.fetchData source cb now) r)) = Some (cb_success data))
  \/ ((forall rows, JSON_parse (body r) = Some (Arr rows) -> ~ valid_rows rows)
      /\ fst (snd (Act.fetchData source cb now) r) = [cb_error "Unknown adapter error."]).
Proof.
  intros Herr Hres Hcode. simpl snd.
  rewrite (on_response_loaded (Act.format_body source) Act.is_undefined cb r rs Herr Hres Hcode).
  unfold Act.format_body.
  destruct (JSON_parse (body r)) as [parsed |] eqn:Hparse.
  2:{ right. split; [intros rows H; discriminate H | reflexivity]. }
  destruct parsed as [| | | | | | | rows |];
    try (right; split; [intros rows H; discriminate H | reflexivity]).
  destruct (Act.formatData (Arr rows) source) as [data |] eqn:Hrun.
  - left. exists rows, data.
    split; [reflexivity |]. split; [exact (formatData_only_valid source rows data Hrun) |].
    split; [exact Hrun |].
    assert (Hdefined : Act.is_undefined data = false).
    { simpl in Hrun. destruct (each (Act.on_row source) rows []); [| discriminate Hrun].
      injection Hrun as <-. reflexivity. }
    cbv zeta. rewrite Hdefined. destruct (cb _); reflexivity.
  - right. split; [| reflexivity].
    intros rows' Hrows' Hvalid. injection Hrows' as <-.
    destruct (formatData_of_valid source rows Hvalid) as (data & Hok).
    rewrite Hok in Hrun. discriminate Hrun.
Qed.

End ActHandler.

(* ===================================================================== *)
(** ** Further properties: the NSW adapter *)
(* ===================================================================== *)

Lemma findIndex_all_false {A : Type} (p : A -> bool) (l : list A) :
  Forall (fun b => p b = false) l -> findIndex p l = None.
Proof.
  induction 1 as [| b l Hb _ IH]; simpl; [reflexivity |]. rewrite Hb, IH. reflexivity.
Qed.

Section ShortestAnyOrder.
Context `{HT : HostTypes} {JB : JsBuiltins}.

(** One step of the loop keeps the pairs distinct and adds nothing but
    the measurement at hand, whatever [<] answers. *)
Lemma keep_shortest_distinct (final : list Nsw.Measurement.t) (m : Nsw.Measurement.t) :
  NoDup (map pair_of final) ->
  exists final',
    Nsw.keep_shortest final m = Ok final'
    /\ NoDup (map pair_of final')
    /\ incl final' (final ++ [m]).
Proof.
  intros Hnd. unfold Nsw.keep_shortest.
  destruct (findIndex (Nsw.matches m) final) as [i |] eqn:Hfind.
  - destruct (findIndex_Some _ _ _ Hfind) as (l1 & found & l2 & -> & Hlen & Hfound & _ & Hnth).
    rewrite Hnth. apply matches_pair in Hfound.
    destruct (num_ltb (Nsw.period m) (Nsw.period found)).
    + exists (l1 ++ l2 ++ [m]). split.
      { subst i. rewrite <- app_assoc. simpl. rewrite splice1_middle. reflexivity. }
      rewrite map_app in Hnd. simpl in Hnd.
      pose proof (NoDup_remove_1 _ _ _ Hnd) as Hnd1.
      pose proof (NoDup_remove_2 _ _ _ Hnd) as Hnotin.
      split.
      * rewrite app_assoc, map_app. simpl. apply NoDup_app.
        -- rewrite map_app. exact Hnd1.
        -- constructor; [intros [] | constructor].
        -- intros q Hq [<- | []]. apply Hnotin. rewrite Hfound, <- map_app. exact Hq.
      * intros r Hr. apply in_app_or in Hr. apply in_or_app.
        destruct Hr as [Hr | Hr].
        -- left. apply in_or_app. left. exact Hr.
        -- apply in_app_or in Hr. destruct Hr as [Hr | Hr]; [left | right; exact Hr].
           apply in_or_app. right. right. exact Hr.
    + exists (l1 ++ found :: l2). split; [reflexivity |]. split; [exact Hnd |].
      intros r Hr. apply in_or_app. left. exact Hr.
  - exists (final ++ [m]). split; [reflexivity |]. split; [| intros r Hr; exact Hr].
    pose proof (findIndex_None _ _ Hfind) as Hnone. rewrite Forall_forall in Hnone.
    rewrite map_app. simpl. apply NoDup_app.
    + exact Hnd.
    + constructor; [intros [] | constructor].
    + intros q Hq [<- | []]. apply in_map_iff in Hq. destruct Hq as (r & Hrp & Hr).
      specialize (Hnone r Hr). apply matches_false in Hnone. congruence.
Qed.

Lemma forEach_keep_shortest_distinct (ms final : list Nsw.Measurement.t) :
  NoDup (map pair_of final) ->
  exists final',
    forEach Nsw.keep_shortest ms final = Ok final'
    /\ NoDup (map pair_of final')
    /\ incl final' (final ++ ms).
Proof.
  revert final. induction ms as [| m ms IH]; intros final Hnd; simpl.
  - exists final. rewrite app_nil_r. split; [reflexivity |]. split; [exact Hnd |].
    intros r Hr. exact Hr.
  - destruct (keep_shortest_distinct final m Hnd) as (final1 & -> & Hnd1 & Hincl1). simpl.
    destruct (IH final1 Hnd1) as (final' & Hrun & Hnd' & Hincl').
    exists final'. split; [exact Hrun |]. split; [exact Hnd' |].
    intros r Hr. specialize (Hincl' r Hr). apply in_app_or in Hincl'.
    replace (final ++ m :: ms) with ((final ++ [m]) ++ ms)
      by (rewrite <- app_assoc; reflexivity).
    apply in_or_app. destruct Hincl' as [H | H]; [left; exact (Hincl1 r H) | right; exact H].
Qed.

(** Measurements about pairs not met before are appended one by one. *)
Lemma forEach_keep_shortest_fresh (ms final : list Nsw.Measurement.t) :
  NoDup (map pair_of (final ++ ms)) ->
  forEach Nsw.keep_shortest ms final = Ok (final ++ ms).
Proof.
  revert final. induction ms as [| m ms IH]; intros final Hnd; simpl.
  - rewrite app_nil_r. reflexivity.
  - unfold Nsw.keep_shortest at 1.
    assert (Hfresh : findIndex (Nsw.matches m) final = None).
    { apply findIndex_all_false. apply Forall_forall. intros r Hr.
      apply matches_false. intros Hp.
      rewrite map_app in Hnd. simpl in Hnd.
      apply (NoDup_remove_2 _ _ _ Hnd). apply in_or_app. left.
      rewrite <- Hp. apply in_map. exact Hr. }
    rewrite Hfresh. simpl.
    replace (final ++ m :: ms) with ((final ++ [m]) ++ ms)
      by (rewrite <- app_assoc; reflexivity).
    apply IH. rewrite <- app_assoc. exact Hnd.
Qed.

(** X8.  With no assumption on what [<] answers, the loop that keeps the
    shortest averaging period never throws; its result has no two
    entries about one (location, parameter) pair, holds only
    measurements of the input and is no longer than the input; and
    running the loop on its own result changes nothing.  A list in
    which no pair comes twice is returned as it is, in its order. *)
Theorem shortest_pass_fixed_points :
  (forall ms : list Nsw.Measurement.t,
      exists final,
        Nsw.finalMeasurements ms = Ok final
        /\ NoDup (map pair_of final)
        /\ incl final ms
        /\ length final <= length ms
        /\ Nsw.finalMeasurements final = Ok final)
  /\ (forall ms : list Nsw.Measurement.t,
         NoDup (map pair_of ms) -> Nsw.finalMeasurements ms = Ok ms).
Proof.
  assert (Hfixed : forall ms : list Nsw.Measurement.t,
             NoDup (map pair_of ms) -> Nsw.finalMeasurements ms = Ok ms).
  { intros ms Hnd. unfold Nsw.finalMeasurements.
    rewrite (forEach_keep_shortest_fresh ms [] Hnd). reflexivity. }
  split; [| exact Hfixed].
  intros ms. unfold Nsw.finalMeasurements at 1.
  destruct (forEach_keep_shortest_distinct ms [] (NoDup_nil _))
    as (final & Hrun & Hnd & Hincl).
  exists final. split; [exact Hrun |]. split; [exact Hnd |]. split; [exact Hincl |].
  split; [| exact (Hfixed final Hnd)].
  apply NoDup_incl_length; [| exact Hincl].
  exact (NoDup_map_inv pair_of final Hnd).
Qed.

End ShortestAnyOrder.

Section NswRows.
Context `{HT : HostTypes} {JB : JsBuiltins}.

Lemma find_col_entry (ips : list Nsw.IndexParam.t) (col : number) (k : nat) :
  Nsw.find_col ips col = Some k ->
  exists p, nth_error ips k = Some p /\ In p ips
            /\ num_eqb (Nsw.IndexParam.col p) col = true.
Proof.
  unfold Nsw.find_col. intros H.
  destruct (findIndex_Some _ _ _ H) as (l1 & p & l2 & -> & _ & Hp & _ & Hnth).
  exists p. split; [exact Hnth |]. split; [apply in_elt | exact Hp].
Qed.

(** The cells of a row with measurements: the loop over them does not
    throw, and appends one measurement at most per cell, for the entry
    of [indexParams] found at the column where the cell ends. *)
Lemma value_cells (base : Nsw.Base.t) (ips : list Nsw.IndexParam.t) (cells : list cell) :
  forall (start : number) (acc : list Nsw.Measurement.t),
  exists last ms,
    forEach (Nsw.value_cell base ips) cells (start, acc) = Ok (last, acc ++ ms)
    /\ length ms <= length cells
    /\ Forall (fun m => exists c col k p,
                 In (c, col) (placed start cells)
                 /\ text c <> EmptyString
                 /\ Nsw.find_col ips col = Some k
                 /\ nth_error ips k = Some p
                 /\ m = Nsw.measurement base p (text c)) ms.
Proof.
  induction cells as [| c cells IH]; intros start acc.
  - exists start, []. simpl. rewrite app_nil_r.
    split; [reflexivity |]. split; [lia | constructor].
  - cbn [forEach]. unfold Nsw.value_cell at 1. cbv beta iota zeta.
    remember (num_add start (Nsw.colIncrement c)) as col eqn:Hcol.
    assert (Hlater : forall x, In x (placed col cells) -> In x (placed start (c :: cells))).
    { intros x Hx. unfold placed. cbn [columns combine]. rewrite <- Hcol. right. exact Hx. }
    assert (Hhere : In (c, col) (placed start (c :: cells))).
    { unfold placed. cbn [columns combine]. rewrite <- Hcol. left. reflexivity. }
    assert (Hrest : forall acc0 ms1,
               acc0 = acc ++ ms1 ->
               length ms1 <= 1 ->
               Forall (fun m => exists c0 col0 k p,
                         In (c0, col0) (placed start (c :: cells))
                         /\ text c0 <> EmptyString
                         /\ Nsw.find_col ips col0 = Some k
                         /\ nth_error ips k = Some p
                         /\ m = Nsw.measurement base p (text c0)) ms1 ->
               exists last ms,
                 forEach (Nsw.value_cell base ips) cells (col, acc0) = Ok (last, acc ++ ms)
                 /\ length ms <= length (c :: cells)
                 /\ Forall (fun m => exists c0 col0 k p,
                              In (c0, col0) (placed start (c :: cells))
                              /\ text c0 <> EmptyString
                              /\ Nsw.find_col ips col0 = Some k
                              /\ nth_error ips k = Some p
                              /\ m = Nsw.measurement base p (text c0)) ms).
    { intros acc0 ms1 -> Hlen1 Hall1.
      destruct (IH col (acc ++ ms1)) as (last & ms & Hrun & Hlen & Hall).
      exists last, (ms1 ++ ms). rewrite Hrun, app_assoc. split; [reflexivity |].
      split; [rewrite length_app; simpl; lia |].
      apply Forall_app. split; [exact Hall1 |].
      apply Forall_impl with (2 := Hall).
      intros m (c0 & col0 & k & p & Hin & Hrest).
      exists c0, col0, k, p. split; [exact (Hlater _ Hin) | exact Hrest]. }
    destruct (Nsw.find_col ips col) as [k |] eqn:Hk.
    + destruct (find_col_entry ips col k Hk) as (p & Hnth & _ & _).
      destruct (String.eqb (text c) EmptyString) eqn:Htext; cbn [negb].
      * cbn [bind]. apply (Hrest acc []); [rewrite app_nil_r; reflexivity | simpl; lia |].
        constructor.
      * rewrite Hnth. cbn [bind].
        apply (Hrest _ [Nsw.measurement base p (text c)]); [reflexivity | simpl; lia |].
        constructor; [| constructor].
        exists c, col, k, p. split; [exact Hhere |].
        split; [apply String.eqb_neq; exact Htext |]. auto.
    + cbn [bind]. apply (Hrest acc []); [rewrite app_nil_r; reflexivity | simpl; lia |].
      constructor.
Qed.

Lemma measurement_row_adds (date : Nsw.Timestamp.t) (st : Nsw.state) (row : tr) :
  exists st' ms,
    Nsw.measurement_row date st row = Ok st'
    /\ Nsw.indexParams st' = Nsw.indexParams st
    /\ Nsw.measurements st' = Nsw.measurements st ++ ms
    /\ length ms <= length (children row)
    /\ (site row = [] -> st' = st)
    /\ (site row <> [] ->
        current_region_after st row = Nsw.current_region st')
    /\ Forall (fun m => exists c col k p,
                 In (c, col) (placed (first_column row) (children row))
                 /\ text c <> EmptyString
                 /\ Nsw.find_col (Nsw.indexParams st) col = Some k
                 /\ nth_error (Nsw.indexParams st) k = Some p
                 /\ m = Nsw.measurement
                          (Nsw.make_base (Nsw.current_region st')
                                         (Nsw.text_of (site row)) date)
                          p (text c)) ms.
Proof.
  unfold Nsw.measurement_row, current_region_after.
  destruct (site row) as [| s0 sites] eqn:Hsite.
  - exists st, []. rewrite app_nil_r. split; [reflexivity |]. split; [reflexivity |].
    split; [reflexivity |]. split; [simpl; lia |]. split; [reflexivity |].
    split; [intros H; contradiction | constructor].
  - match goal with
    | |- context [forEach (Nsw.value_cell ?base ?ips) ?cells (?start, ?acc)] =>
        destruct (value_cells base ips cells start acc) as (last & ms & Hrun & Hlen & Hall);
        rewrite Hrun
    end.
    cbn [bind snd]. eexists. exists ms. split; [reflexivity |].
    cbn [Nsw.indexParams Nsw.measurements Nsw.current_region].
    split; [reflexivity |]. split; [reflexivity |]. split; [exact Hlen |].
    split; [intros H; discriminate H |].
    split; [intros _; destruct (String.eqb _ _); reflexivity |].
    unfold first_column. exact Hall.
Qed.

(** X9.  A row of the table from the third on never makes the adapter
    throw, whatever its cells hold.  It leaves the index of the columns
    as it is and the measurements made so far in place, and adds one
    measurement at most per cell; a row without an element of class
    [site] changes nothing at all. *)
Theorem data_row_never_throws (date : Nsw.Timestamp.t) (st : Nsw.state)
    (idy : nat) (row : tr) :
  exists st' ms,
    Nsw.on_tr date st (S (S idy)) row = Ok st'
    /\ Nsw.indexParams st' = Nsw.indexParams st
    /\ Nsw.measurements st' = Nsw.measurements st ++ ms
    /\ length ms <= length (children row)
    /\ (site row = [] -> st' = st).
Proof.
  destruct (measurement_row_adds date st row)
    as (st' & ms & Hrun & Hips & Hms & Hlen & Hnone & _).
  exists st', ms. simpl. auto.
Qed.

(** X10.  On a row with a site, from the third row on: the region in
    force becomes the text of the row's [region] cells when that text is
    not empty, and stays the one of the rows before otherwise.  Every
    measurement the row adds has the site's text as location and the
    region in force as city; it comes from a cell of the row whose text
    is not empty, and from the entry of the index found for the column
    at which that cell ends (colspans counted, and one column more when
    the row has no [region] cell): the entry gives the parameter and the
    averaging period in hours, the table [units] the unit for that
    parameter, the cell's text the value. *)
Theorem data_row_measurements (date : Nsw.Timestamp.t) (st : Nsw.state)
    (idy : nat) (row : tr) (st' : Nsw.state) :
  Nsw.on_tr date st (S (S idy)) row = Ok st' ->
  site row <> [] ->
  (Nsw.text_of (region row) = EmptyString ->
   Nsw.current_region st' = Nsw.current_region st)
  /\ (Nsw.text_of (region row) <> EmptyString ->
      Nsw.current_region st' = Nsw.text_of (region row))
  /\ exists ms,
       Nsw.measurements st' = Nsw.measurements st ++ ms
       /\ Forall (fun m =>
                    Nsw.Measurement.location m = Nsw.text_of (site row)
                    /\ Nsw.Measurement.city m = Nsw.current_region st'
                    /\ exists c col k p,
                         In (c, col) (placed (first_column row) (children row))
                         /\ text c <> EmptyString
                         /\ Nsw.find_col (Nsw.indexParams st) col = Some k
                         /\ nth_error (Nsw.indexParams st) k = Some p
                         /\ Nsw.Measurement.parameter m = Nsw.IndexParam.parameter p
                         /\ Nsw.Measurement.unit m
                            = lookup Nsw.units (Nsw.IndexParam.parameter p)
                         /\ Nsw.Measurement.value m = Number (Str (text c))
                         /\ Nsw.Measurement.averagingPeriod m
                            = {| Nsw.AveragingPeriod.value :=
                                   Nsw.period_value (Nsw.IndexParam.avgPeriod p);
                                 Nsw.AveragingPeriod.unit := "hours" |}) ms.
Proof.
  intros Hrun Hsite. simpl in Hrun.
  destruct (measurement_row_adds date st row)
    as (st1 & ms & Hrun1 & _ & Hms & _ & _ & Hregion & Hall).
  rewrite Hrun1 in Hrun. injection Hrun as <-.
  specialize (Hregion Hsite). unfold current_region_after in Hregion.
  split; [| split].
  - intros Hempty. rewrite <- Hregion, Hempty. reflexivity.
  - intros Hfull. rewrite <- Hregion. apply String.eqb_neq in Hfull.
    rewrite Hfull. reflexivity.
  - exists ms. split; [exact Hms |]. apply Forall_impl with (2 := Hall).
    intros m (c & col & k & p & Hin & Htext & Hk & Hnth & ->).
    split; [reflexivity |]. split; [reflexivity |].
    exists c, col, k, p. repeat split; auto.
Qed.

Lemma name_cells (cells : list cell) :
  forall (start : number) (ips : list Nsw.IndexParam.t)
         (r : number * list Nsw.IndexParam.t),
    forEach Nsw.name_cell cells (start, ips) = Ok r ->
    exists new,
      snd r = ips ++ new
      /\ Forall2 (fun p x =>
                    Nsw.IndexParam.col p = snd x
                    /\ Nsw.IndexParam.avgPeriod p = None
                    /\ exists group,
                         match_group1 "</a><br>+(.+)" (html (fst x)) = Some group
                         /\ Nsw.IndexParam.parameter p
                            = toLowerCase (replace "." EmptyString group))
                 new
                 (filter (fun x => (0 <? anchors (fst x))%nat) (placed start cells)).
Proof.
  induction cells as [| c cells IH]; intros start ips r H.
  - simpl in H. injection H as <-. exists []. simpl. rewrite app_nil_r.
    split; [reflexivity | constructor].
  - cbn [forEach] in H. unfold Nsw.name_cell at 1 in H. cbv beta iota zeta in H.
    unfold placed. cbn [columns combine filter fst].
    remember (num_add start (Nsw.colIncrement c)) as col eqn:Hcol.
    destruct (0 <? anchors c)%nat.
    + destruct (match_group1 "</a><br>+(.+)" (html c)) as [group |] eqn:Hgroup;
        [| discriminate H].
      cbn [bind] in H. destruct (IH col _ r H) as (new & Hnew & Hall).
      eexists (_ :: new). rewrite Hnew, <- app_assoc. split; [reflexivity |].
      constructor; [| exact Hall]. cbn.
      split; [reflexivity |]. split; [reflexivity |].
      exists group. split; [exact Hgroup | reflexivity].
    + cbn [bind] in H. exact (IH col ips r H).
Qed.

Lemma name_cells_succeed (cells : list cell) :
  forall (start : number) (ips : list Nsw.IndexParam.t),
    (exists r, forEach Nsw.name_cell cells (start, ips) = Ok r)
    <-> Forall (fun c => (0 < anchors c)%nat ->
                         match_group1 "</a><br>+(.+)" (html c) <> None) cells.
Proof.
  induction cells as [| c cells IH]; intros start ips.
  - simpl. split; [intros _; constructor | intros _; eexists; reflexivity].
  - cbn [forEach]. unfold Nsw.name_cell at 1. cbv beta iota zeta.
    destruct (0 <? anchors c)%nat eqn:Hanchor.
    + apply Nat.ltb_lt in Hanchor.
      destruct (match_group1 "</a><br>+(.+)" (html c)) as [group |] eqn:Hgroup.
      * cbn [bind]. rewrite IH. split.
        -- intros Hrest. constructor; [| exact Hrest]. rewrite Hgroup. discriminate.
        -- intros Hall. inversion Hall; assumption.
      * cbn [bind]. split.
        -- intros (r & Hr). discriminate Hr.
        -- intros Hall. inversion Hall as [| ? ? Hc _]; subst.
           exfalso. apply (Hc Hanchor). exact Hgroup.
    + apply Nat.ltb_ge in Hanchor. cbn [bind]. rewrite IH. split.
      * intros Hrest. constructor; [| exact Hrest]. intros Hpos. lia.
      * intros Hall. inversion Hall; assumption.
Qed.

(** X11.  The first row of the table, the one with the pollutant names:
    it makes the adapter throw exactly when one of its cells has a link
    and an html the pattern [</a><br>+(.+)] does not match.  When it does not, it
    adds one entry to the index for each cell with a link, in the order
    of the cells: the column at which the cell ends (colspans counted),
    the text after the link in lower case and without its first dot as
    parameter, and no averaging period yet.  The region in force and the
    measurements are left as they are. *)
Theorem name_row_indexes_linked_cells (date : Nsw.Timestamp.t) (st : Nsw.state) (row : tr) :
  ((exists st', Nsw.on_tr date st 0 row = Ok st')
   <-> Forall (fun c => (0 < anchors c)%nat ->
                        match_group1 "</a><br>+(.+)" (html c) <> None) (children row))
  /\ forall st',
       Nsw.on_tr date st 0 row = Ok st' ->
       Nsw.current_region st' = Nsw.current_region st
       /\ Nsw.measurements st' = Nsw.measurements st
       /\ exists new,
            Nsw.indexParams st' = Nsw.indexParams st ++ new
            /\ Forall2 (fun p x =>
                          Nsw.IndexParam.col p = snd x
                          /\ Nsw.IndexParam.avgPeriod p = None
                          /\ exists group,
                               match_group1 "</a><br>+(.+)" (html (fst x)) = Some group
                               /\ Nsw.IndexParam.parameter p
                                  = toLowerCase (replace "." EmptyString group))
                       new
                       (filter (fun x => (0 <? anchors (fst x))%nat)
                               (placed (num_of_Z 0) (children row))).
Proof.
  split.
  - rewrite <- (name_cells_succeed (children row) (num_of_Z 0) (Nsw.indexParams st)).
    simpl. split.
    + intros (st' & H).
      destruct (forEach Nsw.name_cell (children row) (num_of_Z 0, Nsw.indexParams st))
        as [r |]; [| discriminate H].
      exists r. reflexivity.
    + intros (r & ->). eexists. reflexivity.
  - intros st' H. simpl in H.
    destruct (forEach Nsw.name_cell (children row) (num_of_Z 0, Nsw.indexParams st))
      as [r |] eqn:Hrun; [| discriminate H].
    injection H as <-. cbn.
    split; [reflexivity |]. split; [reflexivity |].
    exact (name_cells (children row) (num_of_Z 0) (Nsw.indexParams st) r Hrun).
Qed.

Lemma findIndex_update {A : Type} (p : A -> bool) (f : A -> A) (l : list A) :
  (forall a, p (f a) = p a) ->
  forall i, findIndex p (update i f l) = findIndex p l.
Proof.
  intros Hf. induction l as [| a l IH]; intros [| i]; simpl; try reflexivity.
  - rewrite Hf. reflexivity.
  - rewrite IH. reflexivity.
Qed.

Lemma related_to_itself {A : Type} (R : A -> A -> Prop) :
  (forall a, R a a) -> forall l, Forall2 R l l.
Proof.
  intros Hrefl. induction l; constructor; auto.
Qed.

Lemma update_related {A : Type} (R : A -> A -> Prop) (f : A -> A) (l : list A) :
  (forall a, R a a) ->
  forall i, (forall a, nth_error l i = Some a -> R a (f a)) -> Forall2 R l (update i f l).
Proof.
  intros Hrefl. induction l as [| a l IH]; intros [| i] Hi; simpl; constructor.
  - apply Hi. reflexivity.
  - apply related_to_itself. exact Hrefl.
  - apply Hrefl.
  - apply IH. intros b Hb. apply Hi. exact Hb.
Qed.

Lemma related_through {A : Type} (R1 R2 R3 : A -> A -> Prop) :
  (forall a b c, R1 a b -> R2 b c -> R3 a c) ->
  forall l1 l2 l3, Forall2 R1 l1 l2 -> Forall2 R2 l2 l3 -> Forall2 R3 l1 l3.
Proof.
  intros Hcomp l1 l2 l3 H12. revert l3.
  induction H12 as [| a b l1 l2 Hab _ IH]; intros l3 H23; inversion H23; subst;
    constructor; eauto.
Qed.

Lemma find_col_set_avgPeriod (ips : list Nsw.IndexParam.t) (i : nat) (period : string)
    (col : number) :
  Nsw.find_col (update i (Nsw.set_avgPeriod period) ips) col = Nsw.find_col ips col.
Proof.
  unfold Nsw.find_col. apply findIndex_update. intros a. reflexivity.
Qed.

Lemma period_cells (cells : list cell) :
  forall (start : number) (ips : list Nsw.IndexParam.t)
         (r : number * list Nsw.IndexParam.t),
    forEach Nsw.period_cell cells (start, ips) = Ok r ->
    Forall2 (period_set start cells) ips (snd r).
Proof.
  induction cells as [| c cells IH]; intros start ips r H.
  - simpl in H. injection H as <-. simpl. apply related_to_itself.
    intros a. split; [reflexivity |]. split; [reflexivity |]. left. reflexivity.
  - cbn [forEach] in H. unfold Nsw.period_cell at 1 in H. cbv beta iota zeta in H.
    remember (num_add start (Nsw.colIncrement c)) as col eqn:Hcol.
    assert (Hlater : forall x, In x (placed col cells) -> In x (placed start (c :: cells))).
    { intros x Hx. unfold placed. cbn [columns combine]. rewrite <- Hcol. right. exact Hx. }
    assert (Hhere : In (c, col) (placed start (c :: cells))).
    { unfold placed. cbn [columns combine]. rewrite <- Hcol. left. reflexivity. }
    assert (Hwiden : forall p p', period_set col cells p p' ->
                                  period_set start (c :: cells) p p').
    { intros p p' (Hc & Hp & Hper). split; [exact Hc |]. split; [exact Hp |].
      destruct Hper as [Hper | (c0 & col0 & period & Hin & Hrest)]; [left; exact Hper |].
      right. exists c0, col0, period. split; [exact (Hlater _ Hin) | exact Hrest]. }
    destruct (match_group1 "([0-9]+)-hour" (html c)) as [period |] eqn:Hperiod.
    + destruct (Nsw.find_col ips col) as [i |] eqn:Hi; [| discriminate H].
      cbn [bind] in H. specialize (IH col _ r H).
      apply (related_through
               (fun p p1 => Nsw.IndexParam.col p1 = Nsw.IndexParam.col p
                            /\ Nsw.IndexParam.parameter p1 = Nsw.IndexParam.parameter p
                            /\ (p1 = p
                                \/ (num_eqb (Nsw.IndexParam.col p) col = true
                                    /\ Nsw.IndexParam.avgPeriod p1 = Some period)))
               (period_set col cells) (period_set start (c :: cells)))
        with (l2 := update i (Nsw.set_avgPeriod period) ips); [| | exact IH].
      * intros p p1 p' (Hc1 & Hp1 & Hvia) (Hc & Hp & Hper).
        split; [congruence |]. split; [congruence |].
        destruct Hper as [Hper | (c0 & col0 & period0 & Hin & Hm & Heq & Hset)].
        -- destruct Hvia as [-> | [Heq Hset]]; [left; exact Hper |].
           right. exists c, col, period. split; [exact Hhere |].
           split; [exact Hperiod |]. split; [exact Heq | congruence].
        -- right. exists c0, col0, period0. split; [exact (Hlater _ Hin) |].
           split; [exact Hm |]. split; [rewrite <- Hc1; exact Heq | exact Hset].
      * apply update_related.
        -- intros a. split; [reflexivity |]. split; [reflexivity |]. left. reflexivity.
        -- intros a Ha. split; [reflexivity |]. split; [reflexivity |]. right.
           destruct (find_col_entry ips col i Hi) as (p & Hnth & _ & Heq).
           rewrite Hnth in Ha. injection Ha as <-. split; [exact Heq | reflexivity].
    + cbn [bind] in H. specialize (IH col ips r H).
      apply Forall2_impl with (2 := IH). exact Hwiden.
Qed.

Lemma period_cells_succeed (cells : list cell) :
  forall (start : number) (ips : list Nsw.IndexParam.t),
    (exists r, forEach Nsw.period_cell cells (start, ips) = Ok r)
    <-> Forall (fun x => match_group1 "([0-9]+)-hour" (html (fst x)) <> None ->
                         Nsw.find_col ips (snd x) <> None) (placed start cells).
Proof.
  induction cells as [| c cells IH]; intros start ips.
  - simpl. split; [intros _; constructor | intros _; eexists; reflexivity].
  - cbn [forEach]. unfold Nsw.period_cell at 1. cbv beta iota zeta.
    unfold placed. cbn [columns combine].
    remember (num_add start (Nsw.colIncrement c)) as col eqn:Hcol.
    fold (placed col cells).
    destruct (match_group1 "([0-9]+)-hour" (html c)) as [period |] eqn:Hperiod.
    + destruct (Nsw.find_col ips col) as [i |] eqn:Hi.
      * cbn [bind]. rewrite IH. split.
        -- intros Hrest. constructor.
           ++ cbn [fst snd]. intros _. rewrite Hi. discriminate.
           ++ apply Forall_impl with (2 := Hrest). intros x Hx Hm.
              rewrite <- (find_col_set_avgPeriod ips i period). exact (Hx Hm).
        -- intros Hall. inversion Hall as [| ? ? _ Hrest]; subst.
           apply Forall_impl with (2 := Hrest). intros x Hx Hm.
           rewrite (find_col_set_avgPeriod ips i period). exact (Hx Hm).
      * cbn [bind]. split.
        -- intros (r & Hr). discriminate Hr.
        -- intros Hall. inversion Hall as [| ? ? Hc _]; subst. cbn [fst snd] in Hc.
           exfalso. apply Hc; [rewrite Hperiod; discriminate | exact Hi].
    + cbn [bind]. rewrite IH. split.
      * intros Hrest. constructor; [| exact Hrest]. cbn [fst snd]. intros Hm.
        exfalso. apply Hm. exact Hperiod.
      * intros Hall. inversion Hall; assumption.
Qed.

(** X12.  The second row of the table, the one with the averaging
    periods: it makes the adapter throw exactly when a cell that names a
    period ([N-hour]) ends at a column for which the index has no entry.
    When it does not, the index keeps its entries, their columns and
    their parameters; the period of an entry is the one it had, or the
    one named by a cell of the row that ends at the entry's column.  The
    region in force and the measurements are left as they are. *)
Theorem period_row_sets_periods (date : Nsw.Timestamp.t) (st : Nsw.state) (row : tr) :
  ((exists st', Nsw.on_tr date st 1 row = Ok st')
   <-> Forall (fun x => match_group1 "([0-9]+)-hour" (html (fst x)) <> None ->
                        Nsw.find_col (Nsw.indexParams st) (snd x) <> None)
              (placed (num_of_Z 0) (children row)))
  /\ forall st',
       Nsw.on_tr date st 1 row = Ok st' ->
       Nsw.current_region st' = Nsw.current_region st
       /\ Nsw.measurements st' = Nsw.measurements st
       /\ Forall2 (period_set (num_of_Z 0) (children row))
                  (Nsw.indexParams st) (Nsw.indexParams st').
Proof.
  split.
  - rewrite <- (period_cells_succeed (children row) (num_of_Z 0) (Nsw.indexParams st)).
    simpl. split.
    + intros (st' & H).
      destruct (forEach Nsw.period_cell (children row) (num_of_Z 0, Nsw.indexParams st))
        as [r |]; [| discriminate H].
      exists r. reflexivity.
    + intros (r & ->). eexists. reflexivity.
  - intros st' H. simpl in H.
    destruct (forEach Nsw.period_cell (children row) (num_of_Z 0, Nsw.indexParams st))
      as [r |] eqn:Hrun; [| discriminate H].
    injection H as <-. cbn.
    split; [reflexivity |]. split; [reflexivity |].
    exact (period_cells (children row) (num_of_Z 0) (Nsw.indexParams st) r Hrun).
Qed.

End NswRows.

Lemma each_from_members {A St : Type} (f : St -> nat -> A -> exc St) (I : St -> Prop)
    (l : list A) :
  forall i,
    (forall s j a s', In a l -> i <= j -> I s -> f s j a = Ok s' -> I s') ->
    forall s s', I s -> each_from f i l s = Ok s' -> I s'.
Proof.
  induction l as [| a l IH]; intros i Hstep s s' Hs Hrun; simpl in Hrun.
  - injection Hrun as <-. exact Hs.
  - destruct (f s i a) as [s1 |] eqn:Hf; simpl in Hrun; [| discriminate Hrun].
    apply (IH (S i)) with (s := s1); [| | exact Hrun].
    + intros s0 j b s0' Hb Hj. apply Hstep; [right; exact Hb | lia].
    + apply (Hstep s i a s1); [left; reflexivity | lia | exact Hs | exact Hf].
Qed.

Lemma related_left {A B : Type} (R : A -> B -> Prop) (l1 : list A) (l2 : list B) (a : A) :
  Forall2 R l1 l2 -> In a l1 -> exists b, In b l2 /\ R a b.
Proof.
  induction 1 as [| x y l1 l2 Hxy _ IH]; intros Ha; [contradiction |].
  destruct Ha as [<- | Ha].
  - exists y. split; [left; reflexivity | exact Hxy].
  - destruct (IH Ha) as (b & Hb & Hab). exists b. split; [right; exact Hb | exact Hab].
Qed.

Lemma related_right {A B : Type} (R : A -> B -> Prop) (l1 : list A) (l2 : list B) (b : B) :
  Forall2 R l1 l2 -> In b l2 -> exists a, In a l1 /\ R a b.
Proof.
  induction 1 as [| x y l1 l2 Hxy _ IH]; intros Hb; [contradiction |].
  destruct Hb as [<- | Hb].
  - exists x. split; [left; reflexivity | exact Hxy].
  - destruct (IH Hb) as (a & Ha & Hab). exists a. split; [right; exact Ha | exact Hab].
Qed.

Section NswPage.
Context `{HT : HostTypes} {JB : JsBuiltins} {MT : MomentTz} {CH : Cheerio} {UT : Utils}.

Lemma each_headers {St : Type} (f : St -> nat -> tr -> exc St) (rows : list tr) (s : St) :
  each f rows s = bind (each f (firstn 2 rows) s) (each_from f 2 (skipn 2 rows)).
Proof.
  unfold each. destruct rows as [| r0 [| r1 rest]]; simpl.
  - reflexivity.
  - destruct (f s 0 r0); reflexivity.
  - destruct (f s 0 r0) as [s1 |]; simpl; [| reflexivity].
    destruct (f s1 1 r1); reflexivity.
Qed.

Lemma data_rows_never_throw (ts : Nsw.Timestamp.t) (rows : list tr) :
  forall (idy : nat) (st : Nsw.state),
  exists st', each_from (Nsw.on_tr ts) (S (S idy)) rows st = Ok st'.
Proof.
  induction rows as [| row rows IH]; intros idy st; simpl.
  - eexists. reflexivity.
  - destruct (measurement_row_adds ts st row) as (st1 & ms & -> & _). simpl. apply IH.
Qed.

(** X13.  [formatData] of the NSW adapter returns a result exactly when
    the timestamp of the page can be read and the first two rows of the
    table, those with the pollutant names and the averaging periods, go
    through.  Nothing after them can make it throw: not a row from the
    third on, whatever it holds, nor the loop that keeps the shortest
    averaging period (the two helpers of [../lib/utils] are taken to
    return, as they are modelled). *)
Theorem formatData_throws_only_on_headers (body_ : string) :
  (exists d, Nsw.formatData body_ = Ok d)
  <-> exists ts st,
        Nsw.parseDate (td_date (cheerio_load body_)) = Ok ts
        /\ each (Nsw.on_tr ts) (firstn 2 (table_aqi_tr (cheerio_load body_))) Nsw.initial
           = Ok st.
Proof.
  unfold Nsw.formatData.
  destruct (Nsw.parseDate (td_date (cheerio_load body_))) as [ts |]; cbn [bind].
  2:{ split; [intros (d & H); discriminate H | intros (ts & st & H & _); discriminate H]. }
  rewrite (each_headers (Nsw.on_tr ts)).
  destruct (each (Nsw.on_tr ts) (firstn 2 (table_aqi_tr (cheerio_load body_))) Nsw.initial)
    as [st |] eqn:Hheaders; cbn [bind].
  2:{ split; [intros (d & H); discriminate H |].
      intros (ts' & st & Hts & H). injection Hts as <-.
      rewrite Hheaders in H. discriminate H. }
  split; [intros _; exists ts, st; split; [reflexivity | exact Hheaders] |]. intros _.
  destruct (data_rows_never_throw ts (skipn 2 (table_aqi_tr (cheerio_load body_))) 0 st)
    as (st' & ->).
  cbn [bind]. unfold Nsw.finalMeasurements.
  destruct (forEach_keep_shortest_distinct (Nsw.measurements st') [] (NoDup_nil _))
    as (final & -> & _).
  cbn [bind]. eexists. reflexivity.
Qed.

Lemma header_rows_name_parameters (ts : Nsw.Timestamp.t) (rows : list tr) (st : Nsw.state) :
  each (Nsw.on_tr ts) (firstn 2 rows) Nsw.initial = Ok st ->
  Nsw.measurements st = []
  /\ Forall (fun p => exists row c group,
               hd_error rows = Some row /\ In c (children row) /\ (0 < anchors c)%nat
               /\ match_group1 "</a><br>+(.+)" (html c) = Some group
               /\ Nsw.IndexParam.parameter p
                  = toLowerCase (replace "." EmptyString group))
            (Nsw.indexParams st).
Proof.
  unfold each. intros H. destruct rows as [| r0 rows].
  { simpl in H. injection H as <-. split; [reflexivity | constructor]. }
  assert (Hnames : forall s1,
             Nsw.on_tr ts Nsw.initial 0 r0 = Ok s1 ->
             Nsw.measurements s1 = []
             /\ Forall (fun p => exists row c group,
                          hd_error (r0 :: rows) = Some row /\ In c (children row)
                          /\ (0 < anchors c)%nat
                          /\ match_group1 "</a><br>+(.+)" (html c) = Some group
                          /\ Nsw.IndexParam.parameter p
                             = toLowerCase (replace "." EmptyString group))
                       (Nsw.indexParams s1)).
  { intros s1 H1. simpl in H1.
    destruct (forEach Nsw.name_cell (children r0) (num_of_Z 0, [])) as [r |] eqn:Hrun;
      [| discriminate H1].
    injection H1 as <-. cbn. split; [reflexivity |].
    destruct (name_cells (children r0) (num_of_Z 0) [] r Hrun) as (new & -> & Hnew).
    apply Forall_forall. intros p Hp.
    destruct (related_left _ _ _ p Hnew Hp) as ([c col] & Hx & _ & _ & group & Hgroup & Hparam).
    apply filter_In in Hx. destruct Hx as [Hx Hanchor]. cbn [fst] in *.
    exists r0, c, group. split; [reflexivity |].
    split; [exact (in_combine_l _ _ _ _ Hx) |].
    split; [apply Nat.ltb_lt; exact Hanchor |]. split; [exact Hgroup | exact Hparam]. }
  destruct rows as [| r1 rest]; cbn [firstn each_from] in H.
  - destruct (Nsw.on_tr ts Nsw.initial 0 r0) as [s1 |] eqn:H1; [| discriminate H].
    cbn [bind] in H. injection H as <-. destruct (Hnames s1 eq_refl) as [Hms Hips].
    split; [exact Hms |]. exact Hips.
  - destruct (Nsw.on_tr ts Nsw.initial 0 r0) as [s1 |] eqn:H1; [| discriminate H].
    cbn [bind] in H. destruct (Hnames s1 eq_refl) as [Hms Hips].
    destruct (Nsw.on_tr ts s1 1 r1) as [s2 |] eqn:H2; [| discriminate H].
    cbn [bind] in H. injection H as <-. simpl in H2.
    destruct (forEach Nsw.period_cell (children r1) (num_of_Z 0, Nsw.indexParams s1))
      as [r |] eqn:Hrun; [| discriminate H2].
    injection H2 as <-. cbn. split; [exact Hms |].
    pose proof (period_cells (children r1) (num_of_Z 0) (Nsw.indexParams s1) r Hrun) as Hset.
    apply Forall_forall. intros p' Hp'.
    destruct (related_right _ _ _ p' Hset Hp') as (p & Hp & _ & Hparam & _).
    rewrite Forall_forall in Hips. destruct (Hips p Hp) as (row & c & group & Hrest).
    exists row, c, group. rewrite Hparam. exact Hrest.
Qed.

(** X14.  Every measurement [formatData] of the NSW adapter returns is
    about a site and a pollutant the table names: its location is the
    text of the [site] cells of one of the rows from the third on, and
    its parameter was read from a cell with a link in the first row
    (the text after the link, in lower case, without its first dot).  A
    table with no such row, or no such cell, gives no measurement.  (The
    two helpers of [../lib/utils], as they are modelled, drop
    measurements and convert units and values, nothing else.) *)
Theorem measurements_named_in_table (body_ : string) (d : Nsw.Data.t) :
  Nsw.formatData body_ = Ok d ->
  Forall (named_in_table (table_aqi_tr (cheerio_load body_))) (Nsw.Data.measurements d).
Proof.
  unfold Nsw.formatData. intros H.
  destruct (Nsw.parseDate (td_date (cheerio_load body_))) as [ts |]; [| discriminate H].
  cbn [bind] in H. rewrite (each_headers (Nsw.on_tr ts)) in H.
  set (rows := table_aqi_tr (cheerio_load body_)) in *.
  destruct (each (Nsw.on_tr ts) (firstn 2 rows) Nsw.initial) as [st |] eqn:Hheaders;
    [| discriminate H].
  cbn [bind] in H.
  destruct (header_rows_name_parameters ts rows st Hheaders) as [Hnone Hips].
  destruct (each_from (Nsw.on_tr ts) 2 (skipn 2 rows) st) as [st' |] eqn:Hdata;
    [| discriminate H].
  cbn [bind] in H.
  assert (Hwalk : Nsw.indexParams st' = Nsw.indexParams st
                  /\ Forall (named_in_table rows) (Nsw.measurements st')).
  { apply (each_from_members (Nsw.on_tr ts)
             (fun s => Nsw.indexParams s = Nsw.indexParams st
                       /\ Forall (named_in_table rows) (Nsw.measurements s))
             (skipn 2 rows) 2) with (s := st); [| | exact Hdata].
    - intros s j row s' Hrow Hj [Hsame Hall] Hstep.
      destruct j as [| [| j]]; [lia | lia |]. simpl in Hstep.
      destruct (measurement_row_adds ts s row)
        as (s1 & ms & Hrun & Hips1 & Hms & _ & Hunchanged & _ & Hnew).
      rewrite Hrun in Hstep. injection Hstep as <-.
      split; [congruence |]. rewrite Hms. apply Forall_app. split; [exact Hall |].
      rewrite Forall_forall in Hnew. apply Forall_forall. intros m Hm.
      destruct (Hnew m Hm) as (c & col & k & p & _ & _ & _ & Hnth & ->).
      assert (Hsite : site row <> []).
      { intros Hempty. rewrite (Hunchanged Hempty) in Hms.
        rewrite <- (app_nil_r (Nsw.measurements s)) in Hms at 1.
        apply app_inv_head in Hms. subst ms. contradiction. }
      split.
      + exists row. split; [exact Hrow |]. split; [exact Hsite | reflexivity].
      + rewrite Hsame in Hnth. apply nth_error_In in Hnth.
        rewrite Forall_forall in Hips. exact (Hips p Hnth).
    - split; [reflexivity |]. rewrite Hnone. constructor. }
  destruct Hwalk as [_ Hwalk].
  destruct (Nsw.finalMeasurements (Nsw.measurements st')) as [final |] eqn:Hfinal;
    [| discriminate H].
  cbn [bind] in H. injection H as <-. cbn [Nsw.Data.measurements].
  pose proof (finalMeasurements_Forall _ _ _ Hwalk Hfinal) as Hkept.
  unfold Nsw.convertUnits, Nsw.removeUnwantedParameters.
  rewrite Forall_forall in *. intros m Hm.
  apply in_map_iff in Hm. destruct Hm as (m0 & <- & Hm0).
  apply filter_In in Hm0. destruct Hm0 as [Hm0 _].
  exact (Hkept m0 Hm0).
Qed.

(** X15.  The day is added only when the hours have a fourth word: for
    a timestamp whose third part has fewer than four words separated by
    single spaces, as [11pm - 12am] has, [parseDate] adds no day,
    whatever the words are. *)
Theorem day_added_only_with_a_fourth_word (dateString d0 d1 d2 : string)
    (rest : list string) :
  split "<br>" dateString = d0 :: d1 :: d2 :: rest ->
  nth_error (split " " d2) 3 = None ->
  exists input,
    Nsw.parseDate (Some dateString)
    = Ok {| Nsw.Timestamp.utc :=
              toDate (add (moment_tz_format (clock 0) input "D MMMM YYYYha"
                                                "Australia/Melbourne")
                          0 "day");
            Nsw.Timestamp.local :=
              format (add (moment_tz_format (clock 0) input "D MMMM YYYYha"
                                                "Australia/Melbourne")
                          0 "day") |}.
Proof.
  intros Hsplit Hfourth. unfold Nsw.parseDate. rewrite Hsplit.
  change (nth_error (d0 :: d1 :: d2 :: rest) 2) with (Some d2).
  change (nth_error (d0 :: d1 :: d2 :: rest) 1) with (Some d1).
  cbv beta iota zeta. rewrite Hfourth.
  assert (Hoffset : Nsw.dateOffset (Nsw.plus (nth_error (split " " d2) 2) None) = 0%Z).
  { unfold Nsw.dateOffset, Nsw.plus, Nsw.strict_equal.
    destruct (nth_error (split " " d2) 2) as [x |]; [| reflexivity].
    rewrite never_midnight. reflexivity. }
  rewrite Hoffset. eexists. reflexivity.
Qed.

End NswPage.

(* ===================================================================== *)
(** ** Further properties on the sample host *)
(* ===================================================================== *)

Section FurtherExamples.
#[local] Existing Instance Sample.host_types.
#[local] Existing Instance Sample.builtins.
#[local] Existing Instance Sample.moments.
#[local] Existing Instance Sample.cheerio.
#[local] Existing Instance Sample.utils.

(** X2 on a reply with status 200 and the sample body. *)
Lemma returning_callback_invoked_once_example :
  ((forall c : cb_call value, Sample.returns c = Returns)
   /\ (forall c : cb_call Nsw.Data.t, Sample.returns c = Returns)
   /\ (err (Sample.ok 200 Sample.act_body) <> None
       \/ res (Sample.ok 200 Sample.act_body) <> None))
  /\ (exists c, snd (Act.fetchData Sample.source Sample.returns Sample.now)
                    (Sample.ok 200 Sample.act_body) = ([c], Returns)
                /\ (cb_err c = None <-> cb_data c <> None))
  /\ (exists c, snd (Nsw.fetchData Sample.source Sample.returns)
                    (Sample.ok 200 Sample.act_body) = ([c], Returns)
                /\ (cb_err c = None <-> cb_data c <> None)).
Proof.
  assert (Hdone : err (Sample.ok 200 Sample.act_body) <> None
                  \/ res (Sample.ok 200 Sample.act_body) <> None)
    by (right; discriminate).
  split; [split; [reflexivity | split; [reflexivity | exact Hdone]] |].
  exact (returning_callback_invoked_once Sample.source Sample.now Sample.returns
           Sample.returns (Sample.ok 200 Sample.act_body)
           (fun _ => eq_refl) (fun _ => eq_refl) Hdone).
Defined.

(** X3 on the row of the sample body, and on that row followed by one
    whose [no2] is an object with a [toString] that is no function: the
    latter cannot be formatted and makes [formatData] throw. *)
Lemma formatData_succeeds_iff_rows_valid_example :
  (exists r, Act.formatData (Arr [Sample.act_row]) Sample.source = Ok r)
  /\ valid_rows [Sample.act_row]
  /\ to_number (field Sample.act_row_unconvertible "no2") = Throw
  /\ Act.formatData (Arr [Sample.act_row; Sample.act_row_unconvertible]) Sample.source
     = Throw
  /\ ~ valid_rows [Sample.act_row; Sample.act_row_unconvertible].
Proof.
  assert (Hreturns : exists r, Act.formatData (Arr [Sample.act_row]) Sample.source = Ok r)
    by (eexists; lazy; reflexivity).
  split; [exact Hreturns |].
  split; [exact (proj1 (formatData_succeeds_iff_rows_valid Sample.source [Sample.act_row])
                   Hreturns) |].
  split; [reflexivity |]. split; [reflexivity |].
  intros Hvalid.
  destruct (proj2 (formatData_succeeds_iff_rows_valid Sample.source
                     [Sample.act_row; Sample.act_row_unconvertible]) Hvalid)
    as (r & Hr).
  discriminate Hr.
Defined.

(** X4 on the row of the sample body. *)
Lemma measurements_row_by_row_example :
  exists r,
    Act.formatData (Arr [Sample.act_row]) Sample.source = Ok r
    /\ exists per_row,
         length per_row = length [Sample.act_row]
         /\ (forall index row ms,
               nth_error [Sample.act_row] index = Some row ->
               nth_error per_row index = Some ms ->
               length ms <= 5
               /\ forall acc, Act.on_row Sample.source acc index row = Ok (acc ++ ms))
         /\ measurements_of r = concat per_row
         /\ length (measurements_of r) <= 5 * length [Sample.act_row].
Proof.
  eexists.
  assert (H : Act.formatData (Arr [Sample.act_row]) Sample.source = Ok ?[r])
    by (lazy; reflexivity).
  split; [exact H |].
  exact (measurements_row_by_row Sample.source [Sample.act_row] _ H).
Defined.

(** X5 on the row of the sample body. *)
Lemma measurements_taken_from_rows_example :
  exists r,
    Act.formatData (Arr [Sample.act_row]) Sample.source = Ok r
    /\ Forall (fun m => exists row, In row [Sample.act_row]
                                    /\ taken_from Sample.source row m)
              (measurements_of r).
Proof.
  eexists.
  assert (H : Act.formatData (Arr [Sample.act_row]) Sample.source = Ok ?[r])
    by (lazy; reflexivity).
  split; [exact H |].
  exact (measurements_taken_from_rows Sample.source [Sample.act_row] _ H).
Defined.

(** X6 on the row of the sample body. *)
Lemma measurements_fixed_fields_example :
  exists r,
    Act.formatData (Arr [Sample.act_row]) Sample.source = Ok r
    /\ Forall (fun m =>
                 field m "city" = Str "Canberra"
                 /\ field m "country" = Str "AU"
                 /\ field m "sourceType" = Str "government"
                 /\ field m "mobile" = Bool false
                 /\ field m "averagingPeriod"
                    = Obj [("value", Num (num_of_Z 1)); ("unit", Str "hours")]
                 /\ In (field m "parameter", field m "unit")
                       [ (Str "no2", Str "ppm"); (Str "o3", Str "ppm"); (Str "co", Str "ppm");
                         (Str "pm10", Str "µg/m³"); (Str "pm25", Str "µg/m³") ])
              (measurements_of r).
Proof.
  eexists.
  assert (H : Act.formatData (Arr [Sample.act_row]) Sample.source = Ok ?[r])
    by (lazy; reflexivity).
  split; [exact H |].
  exact (measurements_fixed_fields Sample.source (Arr [Sample.act_row]) _ H).
Defined.

(** X7 on a reply with status 200 and the sample body. *)
Lemma act_data_iff_rows_valid_example :
  (err (Sample.ok 200 Sample.act_body) = None
   /\ res (Sample.ok 200 Sample.act_body) = Some {| statusCode := 200 |})
  /\ ((exists rows data,
          JSON_parse (body (Sample.ok 200 Sample.act_body)) = Some (Arr rows)
          /\ valid_rows rows
          /\ Act.formatData (Arr rows) Sample.source = Ok data
          /\ hd_error (fst (snd (Act.fetchData Sample.source Sample.returns Sample.now)
                                (Sample.ok 200 Sample.act_body)))
             = Some (cb_success data))
      \/ ((forall rows, JSON_parse (body (Sample.ok 200 Sample.act_body)) = Some (Arr rows) ->
                        ~ valid_rows rows)
          /\ fst (snd (Act.fetchData Sample.source Sample.returns Sample.now)
                      (Sample.ok 200 Sample.act_body))
             = [cb_error "Unknown adapter error."])).
Proof.
  split; [split; reflexivity |].
  exact (act_data_iff_rows_valid Sample.source Sample.now Sample.returns
           (Sample.ok 200 Sample.act_body) {| statusCode := 200 |}
           eq_refl eq_refl eq_refl).
Defined.

(** X8 on two measurements about different pairs. *)
Lemma shortest_pass_fixed_points_example :
  NoDup (map pair_of [Sample.ozone_24h; Sample.particles_24h])
  /\ Nsw.finalMeasurements [Sample.ozone_24h; Sample.particles_24h]
     = Ok [Sample.ozone_24h; Sample.particles_24h].
Proof.
  assert (Hnd : NoDup (map pair_of [Sample.ozone_24h; Sample.particles_24h])).
  { constructor; [| constructor; [intros [] | constructor]].
    intros [H | []]. discriminate H. }
  split; [exact Hnd |].
  exact (proj2 shortest_pass_fixed_points [Sample.ozone_24h; Sample.particles_24h] Hnd).
Defined.

(** X10 on the third row of the sample page, after the first two. *)
Lemma data_row_measurements_example :
  exists st',
    (Nsw.on_tr Sample.timestamp Sample.indexed 2 Sample.randwick_row = Ok st'
     /\ site Sample.randwick_row <> [])
    /\ (Nsw.text_of (region Sample.randwick_row) = EmptyString ->
        Nsw.current_region st' = Nsw.current_region Sample.indexed)
    /\ (Nsw.text_of (region Sample.randwick_row) <> EmptyString ->
        Nsw.current_region st' = Nsw.text_of (region Sample.randwick_row))
    /\ exists ms,
         Nsw.measurements st' = Nsw.measurements Sample.indexed ++ ms
         /\ Forall (fun m =>
                      Nsw.Measurement.location m = Nsw.text_of (site Sample.randwick_row)
                      /\ Nsw.Measurement.city m = Nsw.current_region st'
                      /\ exists c col k p,
                           In (c, col) (placed (first_column Sample.randwick_row)
                                               (children Sample.randwick_row))
                           /\ text c <> EmptyString
                           /\ Nsw.find_col (Nsw.indexParams Sample.indexed) col = Some k
                           /\ nth_error (Nsw.indexParams Sample.indexed) k = Some p
                           /\ Nsw.Measurement.parameter m = Nsw.IndexParam.parameter p
                           /\ Nsw.Measurement.unit m
                              = lookup Nsw.units (Nsw.IndexParam.parameter p)
                           /\ Nsw.Measurement.value m = Number (Str (text c))
                           /\ Nsw.Measurement.averagingPeriod m
                              = {| Nsw.AveragingPeriod.value :=
                                     Nsw.period_value (Nsw.IndexParam.avgPeriod p);
                                   Nsw.AveragingPeriod.unit := "hours" |}) ms.
Proof.
  eexists.
  assert (H : Nsw.on_tr Sample.timestamp Sample.indexed 2 Sample.randwick_row = Ok ?[st'])
    by (lazy; reflexivity).
  assert (Hsite : site Sample.randwick_row <> []) by (intros Hs; discriminate Hs).
  split; [split; [exact H | exact Hsite] |].
  exact (data_row_measurements Sample.timestamp Sample.indexed 0 Sample.randwick_row _
           H Hsite).
Defined.

(** X11 on the first row of the sample page. *)
Lemma name_row_indexes_linked_cells_example :
  exists st',
    Nsw.on_tr Sample.timestamp Nsw.initial 0 Sample.names_row = Ok st'
    /\ Nsw.current_region st' = Nsw.current_region Nsw.initial
    /\ Nsw.measurements st' = Nsw.measurements Nsw.initial
    /\ exists new,
         Nsw.indexParams st' = Nsw.indexParams Nsw.initial ++ new
         /\ Forall2 (fun p x =>
                       Nsw.IndexParam.col p = snd x
                       /\ Nsw.IndexParam.avgPeriod p = None
                       /\ exists group,
                            match_group1 "</a><br>+(.+)" (html (fst x)) = Some group
                            /\ Nsw.IndexParam.parameter p
                               = toLowerCase (replace "." EmptyString group))
                    new
                    (filter (fun x => (0 <? anchors (fst x))%nat)
                            (placed (num_of_Z 0) (children Sample.names_row))).
Proof.
  eexists.
  assert (H : Nsw.on_tr Sample.timestamp Nsw.initial 0 Sample.names_row = Ok ?[st'])
    by (lazy; reflexivity).
  split; [exact H |].
  exact (proj2 (name_row_indexes_linked_cells Sample.timestamp Nsw.initial Sample.names_row)
           _ H).
Defined.

(** X12 on the second row of the sample page, after the first. *)
Lemma period_row_sets_periods_example :
  exists st',
    Nsw.on_tr Sample.timestamp Sample.named 1 Sample.periods_row = Ok st'
    /\ Nsw.current_region st' = Nsw.current_region Sample.named
    /\ Nsw.measurements st' = Nsw.measurements Sample.named
    /\ Forall2 (period_set (num_of_Z 0) (children Sample.periods_row))
               (Nsw.indexParams Sample.named) (Nsw.indexParams st').
Proof.
  eexists.
  assert (H : Nsw.on_tr Sample.timestamp Sample.named 1 Sample.periods_row = Ok ?[st'])
    by (lazy; reflexivity).
  split; [exact H |].
  exact (proj2 (period_row_sets_periods Sample.timestamp Sample.named Sample.periods_row)
           _ H).
Defined.

(** X14 on the sample page. *)
Lemma measurements_named_in_table_example :
  exists d,
    Nsw.formatData Sample.nsw_body = Ok d
    /\ Forall (named_in_table (table_aqi_tr (cheerio_load Sample.nsw_body)))
              (Nsw.Data.measurements d).
Proof.
  eexists.
  assert (H : Nsw.formatData Sample.nsw_body = Ok ?[d]) by (lazy; reflexivity).
  split; [exact H |].
  exact (measurements_named_in_table Sample.nsw_body _ H).
Defined.

(** X15 on a timestamp whose hours are written [11pm - 12am]. *)
Lemma day_added_only_with_a_fourth_word_example :
  (split "<br>" Sample.nsw_date_three_words
   = ["Hourly data"; "13 December 2019"; "11pm - 12am"]
   /\ nth_error (split " " "11pm - 12am") 3 = None)
  /\ exists input,
       Nsw.parseDate (Some Sample.nsw_date_three_words)
       = Ok {| Nsw.Timestamp.utc :=
                 toDate (add (moment_tz_format (clock 0) input "D MMMM YYYYha"
                                                "Australia/Melbourne")
                             0 "day");
               Nsw.Timestamp.local :=
                 format (add (moment_tz_format (clock 0) input "D MMMM YYYYha"
                                                "Australia/Melbourne")
                             0 "day") |}.
Proof.
  split; [split; reflexivity |].
  exact (day_added_only_with_a_fourth_word Sample.nsw_date_three_words
           "Hourly data" "13 December 2019" "11pm - 12am" [] eq_refl eq_refl).
Defined.

End FurtherExamples.
